(** * mig: request lifecycle of a small web framework on net/http

    A shallow embedding of the request-handling core of [github.com/levmv/mig]
    (response wrapper, pooled request context, structured errors, the default
    error handler, the execution engine and route-group middleware
    composition), with the properties of its specification proved against it.

    Conventions of the embedding.
    - A Go [int] is a [Z]; the one place the code does arithmetic on it
      ([Response.written += n]) wraps at 64 bits, see [int_wrap].
    - [[]byte] is [list byte]; a Go [string] is a [string]; [[]byte(s)] is
      [list_byte_of_string s].
    - A method with a pointer receiver takes the receiver's value and returns
      the updated value.
    - A function that may panic returns an [outcome]; [recover] is a match on it.
    - Types and functions of the Go standard library ([net/http], [net/url],
      [errors], [encoding/json], [log/slog]) are collaborators: they are either
      an interface (a type class or a Section variable) or a small model that
      is labelled as such. *)

From Stdlib Require Import ZArith Lia Bool.
From Stdlib Require Import Strings.Byte Strings.Ascii Strings.String.
From Stdlib Require Import Numbers.DecimalString.
From stdpp Require Import base option list strings gmap.

Local Open Scope string_scope.
Local Open Scope Z_scope.

(* ===================================================================== *)
(** ** Go values: ints, bytes, errors, panics *)
(* ===================================================================== *)

(** Two's complement wrap-around of a 64-bit Go [int]. *)
Definition int_wrap (z : Z) : Z := (z + 2 ^ 63) mod 2 ^ 64 - 2 ^ 63.

(** [len(b)] of a byte slice. *)
Definition len {A} (b : list A) : Z := Z.of_nat (length b).

(** [[]byte(s)]. *)
Definition bytes (s : string) : list byte := list_byte_of_string s.

(** Error values. [ErrorString] is what [errors.New] and a [fmt.Errorf] without
    [%w] build; [WrapError] is [fmt.Errorf("...: %w", e)], whose [Unwrap] is
    [e]; [ErrAbortHandler] is the sentinel [http.ErrAbortHandler], equal only to
    itself (Go compares it by identity); [EHTTP] is a [*HTTPError] of this
    package, given by its four fields. *)
#[warnings="-register-all"]
Inductive error : Type :=
  | ErrorString (s : string)
  | WrapError (s : string) (e : error)
  | ErrAbortHandler
  | EHTTP (code : Z) (message : string) (internal : option error) (stack : string).

(** [type HTTPError struct { Code int; Message string; Internal error; Stack string }] *)
Record HTTPError : Type := mkHTTPError {
  Code : Z;
  Message : string;
  Internal : option error;
  Stack : string;
}.

(** A [*HTTPError] used as an [error]. *)
Definition as_error (e : HTTPError) : error :=
  EHTTP (Code e) (Message e) (Internal e) (Stack e).

(** [Unwrap]: The method [Unwrap] of [HTTPError] returns [e.Internal]. *)
Definition Unwrap (e : error) : option error :=
  match e with
  | ErrorString _ => None
  | WrapError _ e' => Some e'
  | ErrAbortHandler => None
  | EHTTP _ _ internal _ => internal
  end.

(** [errors.Is(err, http.ErrAbortHandler)]: walks the [Unwrap] chain and
    compares each link with the sentinel. *)
Fixpoint errors_Is_ErrAbortHandler (err : error) : bool :=
  match err with
  | ErrorString _ => false
  | WrapError _ e' => errors_Is_ErrAbortHandler e'
  | ErrAbortHandler => true
  | EHTTP _ _ (Some e') _ => errors_Is_ErrAbortHandler e'
  | EHTTP _ _ None _ => false
  end.

(** [var e *HTTPError; errors.As(err, &e)]: the first [*HTTPError] on the
    [Unwrap] chain of [err], if there is one. *)
Fixpoint errors_As_HTTPError (err : error) : option HTTPError :=
  match err with
  | ErrorString _ => None
  | WrapError _ e' => errors_As_HTTPError e'
  | ErrAbortHandler => None
  | EHTTP c m i s => Some (mkHTTPError c m i s)
  end.

(** The value a [panic] carries: an [error], or any other value, kept as the
    text [fmt.Errorf("%v", v)] prints for it. *)
Inductive panicval : Type :=
  | PanicError (e : error)
  | PanicValue (shown : string).

(** How a call ends: it returns (an [error] or [nil]), or it panics. *)
Inductive outcome : Type :=
  | Return (err : option error)
  | Panic (v : panicval).

(** Bytes of text. *)
Definition byte_in (lo hi : N) (c : ascii) : bool :=
  ((lo <=? N_of_ascii c) && (N_of_ascii c <=? hi))%N.

Definition is_lower (c : ascii) : bool := byte_in 97 122 c.
Definition is_upper (c : ascii) : bool := byte_in 65 90 c.
Definition is_digit (c : ascii) : bool := byte_in 48 57 c.

Definition to_upper (c : ascii) : ascii :=
  if is_lower c then ascii_of_N (N_of_ascii c - 32) else c.
Definition to_lower (c : ascii) : ascii :=
  if is_upper c then ascii_of_N (N_of_ascii c + 32) else c.

(** [strings.Contains]. *)
Fixpoint has_prefix (sub s : string) : bool :=
  match sub, s with
  | EmptyString, _ => true
  | String a sub', String b s' => Ascii.eqb a b && has_prefix sub' s'
  | String _ _, EmptyString => false
  end.

Fixpoint strings_Contains (s sub : string) : bool :=
  has_prefix sub s ||
  match s with
  | EmptyString => false
  | String _ s' => strings_Contains s' sub
  end.

(* ===================================================================== *)
(** ** context: the value chain a request carries *)
(* ===================================================================== *)

Module context.
(** Keys are compared with [==]. [requestIDKey] is the value [requestIDKey{}]
    of the package's unexported key type; [UserKey] stands for the keys of
    application code. *)
Inductive key : Type :=
  | requestIDKey
  | UserKey (name : string).

#[global] Instance key_eq_dec : EqDecision key.
Proof. solve_decision. Defined.

(** The dynamic values stored under a key. *)
Inductive any : Type :=
  | AnyString (s : string)
  | AnyInt (z : Z).

(** A [context.Context], as the list of its [WithValue] links, newest first. *)
Definition Context : Type := list (key * any).

Definition Background : Context := [].

Definition WithValue (parent : Context) (k : key) (v : any) : Context :=
  (k, v) :: parent.

(** [ctx.Value(k)]: the newest value stored under [k], or [nil]. *)
Fixpoint Value (ctx : Context) (k : key) : option any :=
  match ctx with
  | [] => None
  | (k', v) :: parent => if decide (k' = k) then Some v else Value parent k
  end.
End context.

(* ===================================================================== *)
(** ** net/url: the query string (model of the standard library) *)
(* ===================================================================== *)

Module url.
(** [type Values map[string][]string] *)
Abbreviation Values := (gmap string (list string)).

Definition unhex (c : ascii) : option N :=
  if is_digit c then Some (N_of_ascii c - 48)%N
  else if byte_in 97 102 c then Some (N_of_ascii c - 97 + 10)%N
  else if byte_in 65 70 c then Some (N_of_ascii c - 65 + 10)%N
  else None.

(** [url.QueryUnescape]: [%XX] becomes the byte [XX], [+] becomes a space; a
    [%] that is not followed by two hexadecimal digits is an error. *)
Fixpoint QueryUnescape (s : string) : option string :=
  match s with
  | EmptyString => Some EmptyString
  | String c rest =>
      if Ascii.eqb c "%" then
        match rest with
        | String a (String b rest') =>
            match unhex a, unhex b with
            | Some x, Some y =>
                String (ascii_of_N (16 * x + y)) <$> QueryUnescape rest'
            | _, _ => None
            end
        | _ => None
        end
      else if Ascii.eqb c "+" then String " " <$> QueryUnescape rest
      else String c <$> QueryUnescape rest
  end.

(** The pieces of [s] between the occurrences of [sep]. *)
Fixpoint split (sep : ascii) (s : string) : list string :=
  match s with
  | EmptyString => [EmptyString]
  | String c rest =>
      if Ascii.eqb c sep then EmptyString :: split sep rest
      else match split sep rest with
           | piece :: pieces => String c piece :: pieces
           | [] => [String c EmptyString]
           end
  end.

(** [strings.Cut(s, sep)] without the found flag. *)
Fixpoint cut (sep : ascii) (s : string) : string * string :=
  match s with
  | EmptyString => (EmptyString, EmptyString)
  | String c rest =>
      if Ascii.eqb c sep then (EmptyString, rest)
      else let '(before, after) := cut sep rest in (String c before, after)
  end.

(** The key and the value a piece of the query stands for, as one turn of
    the loop of [url.ParseQuery] finds them: a piece with a semicolon, an
    empty piece, and a piece whose key or value does not unescape are
    skipped. *)
Definition pair_of (piece : string) : option (string * string) :=
  if strings_Contains piece ";" then None
  else if String.eqb piece "" then None
  else
    let '(k, v) := cut "=" piece in
    match QueryUnescape k with
    | None => None
    | Some key =>
        match QueryUnescape v with
        | None => None
        | Some value => Some (key, value)
        end
    end.

(** [m[key] = append(m[key], value)] for the pair of a piece. *)
Definition add_pair (m : Values) (piece : string) : Values :=
  match pair_of piece with
  | None => m
  | Some (key, value) => <[key := (default [] (m !! key) ++ [value])%list]> m
  end.

(** [u.Query()], that is [ParseQuery(u.RawQuery)] with its error dropped. *)
Definition ParseQuery (query : string) : Values :=
  foldl add_pair ∅ (split "&" query).
End url.

(* ===================================================================== *)
(** ** encoding/base64, encoding/hex, strconv (models of the standard library) *)
(* ===================================================================== *)

Module base64.
(** The value of a character of the standard alphabet. *)
Definition sextet (c : ascii) : option N :=
  if is_upper c then Some (N_of_ascii c - 65)%N
  else if is_lower c then Some (N_of_ascii c - 97 + 26)%N
  else if is_digit c then Some (N_of_ascii c - 48 + 52)%N
  else if Ascii.eqb c "+" then Some 62%N
  else if Ascii.eqb c "/" then Some 63%N
  else None.

(** The bytes of a group of four characters, of which the last one or two
    may be padding. The bits that do not fill a byte are dropped. *)
Definition quantum (a b c d : ascii) : option (list ascii) :=
  match sextet a, sextet b with
  | Some x, Some y =>
      let b1 := ascii_of_N ((x * 4 + y / 16) mod 256) in
      if Ascii.eqb d "=" then
        if Ascii.eqb c "=" then Some [b1]
        else match sextet c with
             | Some z => Some [b1; ascii_of_N ((y * 16 + z / 4) mod 256)]
             | None => None
             end
      else match sextet c, sextet d with
           | Some z, Some w =>
               Some [b1; ascii_of_N ((y * 16 + z / 4) mod 256);
                     ascii_of_N ((z * 64 + w) mod 256)]
           | _, _ => None
           end
  | _, _ => None
  end.

Fixpoint decode (cs : list ascii) : option (list ascii) :=
  match cs with
  | [] => Some []
  | a :: b :: c :: d :: rest =>
      match quantum a b c d with
      | Some out =>
          if Ascii.eqb d "=" then
            match rest with [] => Some out | _ => None end
          else app out <$> decode rest
      | None => None
      end
  | _ => None
  end.

(** [base64.StdEncoding.DecodeString]: line breaks are skipped, the padding
    is required, and anything after the padding is an error. *)
Definition DecodeString (s : string) : option string :=
  string_of_list_ascii <$>
    decode (filter (fun c => N_of_ascii c <> 10%N /\ N_of_ascii c <> 13%N)
              (list_ascii_of_string s)).
End base64.

Module hex.
Definition digit (n : N) : ascii :=
  if (n <? 10)%N then ascii_of_N (48 + n) else ascii_of_N (87 + n).

(** [hex.EncodeToString]: two lower-case digits for each byte. *)
Fixpoint EncodeToString (src : list byte) : string :=
  match src with
  | [] => EmptyString
  | b :: rest =>
      let n := Byte.to_N b in
      String (digit (n / 16)) (String (digit (n mod 16)) (EncodeToString rest))
  end.
End hex.

Module strconv.
(** [strconv.Quote] *)
Class Quoter : Type := Quote : string -> string.
End strconv.

(* ===================================================================== *)
(** ** net/http: status texts, headers, requests, the ResponseWriter interface *)
(* ===================================================================== *)

Module http.
Definition StatusOK : Z := 200.
Definition StatusNoContent : Z := 204.
Definition StatusNotModified : Z := 304.
Definition StatusBadRequest : Z := 400.
Definition StatusUnauthorized : Z := 401.
Definition StatusNotFound : Z := 404.
Definition StatusInternalServerError : Z := 500.

(** [http.StatusText]: the table of the standard library. *)
Definition StatusText (code : Z) : string :=
  match code with
  | 100 => "Continue" | 101 => "Switching Protocols" | 102 => "Processing"
  | 103 => "Early Hints"
  | 200 => "OK" | 201 => "Created" | 202 => "Accepted"
  | 203 => "Non-Authoritative Information" | 204 => "No Content"
  | 205 => "Reset Content" | 206 => "Partial Content" | 207 => "Multi-Status"
  | 208 => "Already Reported" | 226 => "IM Used"
  | 300 => "Multiple Choices" | 301 => "Moved Permanently" | 302 => "Found"
  | 303 => "See Other" | 304 => "Not Modified" | 305 => "Use Proxy"
  | 307 => "Temporary Redirect" | 308 => "Permanent Redirect"
  | 400 => "Bad Request" | 401 => "Unauthorized" | 402 => "Payment Required"
  | 403 => "Forbidden" | 404 => "Not Found" | 405 => "Method Not Allowed"
  | 406 => "Not Acceptable" | 407 => "Proxy Authentication Required"
  | 408 => "Request Timeout" | 409 => "Conflict" | 410 => "Gone"
  | 411 => "Length Required" | 412 => "Precondition Failed"
  | 413 => "Request Entity Too Large" | 414 => "Request URI Too Long"
  | 415 => "Unsupported Media Type" | 416 => "Requested Range Not Satisfiable"
  | 417 => "Expectation Failed" | 418 => "I'm a teapot"
  | 421 => "Misdirected Request" | 422 => "Unprocessable Entity"
  | 423 => "Locked" | 424 => "Failed Dependency" | 425 => "Too Early"
  | 426 => "Upgrade Required" | 428 => "Precondition Required"
  | 429 => "Too Many Requests" | 431 => "Request Header Fields Too Large"
  | 451 => "Unavailable For Legal Reasons"
  | 500 => "Internal Server Error" | 501 => "Not Implemented"
  | 502 => "Bad Gateway" | 503 => "Service Unavailable"
  | 504 => "Gateway Timeout" | 505 => "HTTP Version Not Supported"
  | 506 => "Variant Also Negotiates" | 507 => "Insufficient Storage"
  | 508 => "Loop Detected" | 510 => "Not Extended"
  | 511 => "Network Authentication Required"
  | _ => ""
  end.

(** *** Header keys

    [textproto.CanonicalMIMEHeaderKey]: a key made of token bytes only gets
    its first letter and every letter after a hyphen in upper case and the
    rest in lower case; any other key is left as it is. *)
Definition is_token_byte (c : ascii) : bool :=
  is_lower c || is_upper c || is_digit c ||
  bool_decide (c ∈ list_ascii_of_string "!#$%&'*+-.^_`|~").

Fixpoint canonical_from (upper : bool) (s : string) : string :=
  match s with
  | EmptyString => EmptyString
  | String c rest =>
      let c' := if upper then to_upper c else to_lower c in
      String c' (canonical_from (Ascii.eqb c' "-") rest)
  end.

Definition CanonicalMIMEHeaderKey (s : string) : string :=
  if forallb is_token_byte (list_ascii_of_string s)
  then canonical_from true s else s.

(** [type Header map[string][]string], with the methods the package uses. *)
Abbreviation Header := (gmap string (list string)).

Definition Header_Set (key value : string) (h : Header) : Header :=
  <[CanonicalMIMEHeaderKey key := [value]]> h.

Definition Header_Del (key : string) (h : Header) : Header :=
  delete (CanonicalMIMEHeaderKey key) h.

Definition Header_Get (key : string) (h : Header) : string :=
  match h !! CanonicalMIMEHeaderKey key with
  | Some (v :: _) => v
  | _ => ""
  end.

(** *** Requests

    The parts of [*http.Request] the package reads: the method, the path and
    the raw query of [r.URL], the header, the unread rest of [r.Body] and the
    context [r.Context()]. *)
Record Request : Type := mkRequest {
  Method : string;
  URL_Path : string;
  URL_RawQuery : string;
  ReqHeader : Header;
  Body : list byte;
  Ctx : context.Context;
}.

(** [r.URL.Query()] *)
Definition URL_Query (r : Request) : url.Values :=
  url.ParseQuery (URL_RawQuery r).

(** [r.WithContext(ctx)]: a copy of [r] with its context replaced. *)
Definition WithContext (ctx : context.Context) (r : Request) : Request :=
  {| Method := Method r; URL_Path := URL_Path r;
     URL_RawQuery := URL_RawQuery r; ReqHeader := ReqHeader r;
     Body := Body r; Ctx := ctx |}.

Definition WithBody (body : list byte) (r : Request) : Request :=
  {| Method := Method r; URL_Path := URL_Path r;
     URL_RawQuery := URL_RawQuery r; ReqHeader := ReqHeader r;
     Body := body; Ctx := Ctx r |}.

(** *** The [http.ResponseWriter] interface

    The sink under the response wrapper. [rw_Header] is the map [Header()]
    returns; the callers change that map in place, which [rw_SetHeader]
    writes back. [rw_Write] returns the count and the error of the sink; the
    count need not be the length of the slice. *)
Class ResponseWriter (RW : Type) : Type := {
  rw_Header : RW -> Header;
  rw_SetHeader : Header -> RW -> RW;
  rw_WriteHeader : Z -> RW -> RW;
  rw_Write : list byte -> RW -> RW * (Z * option error);
}.

Section writers.
Context {RW : Type} `{!ResponseWriter RW}.

(** [w.Header().Set(key, value)] and [w.Header().Del(key)] *)
Definition SetHeader (key value : string) (w : RW) : RW :=
  rw_SetHeader (Header_Set key value (rw_Header w)) w.

Definition DelHeader (key : string) (w : RW) : RW :=
  rw_SetHeader (Header_Del key (rw_Header w)) w.

(** [http.Error(w, error, code)], after the standard library: the
    [Content-Length] header goes, the plain text headers are set, the status
    is written, then the message and a newline in one [Write] whose result
    is dropped. *)
Definition Error (error : string) (code : Z) (w : RW) : RW :=
  let w := DelHeader "Content-Length" w in
  let w := SetHeader "Content-Type" "text/plain; charset=utf-8" w in
  let w := SetHeader "X-Content-Type-Options" "nosniff" w in
  let w := rw_WriteHeader code w in
  fst (rw_Write (bytes (error ++ String "010" EmptyString)) w).
End writers.

(** [strings.Cut(s, ":")], with [None] when there is no colon. *)
Fixpoint cut_colon (s : string) : option (string * string) :=
  match s with
  | EmptyString => None
  | String c rest =>
      if Ascii.eqb c ":" then Some (EmptyString, rest)
      else match cut_colon rest with
           | Some (before, after) => Some (String c before, after)
           | None => None
           end
  end.

(** The rest of [auth] after the prefix [Basic ], compared without regard to
    case, or [None] when [auth] does not start with it. *)
Fixpoint strip_fold (prefix auth : string) : option string :=
  match prefix, auth with
  | EmptyString, _ => Some auth
  | String p prefix', String a auth' =>
      if Ascii.eqb (to_lower p) (to_lower a) then strip_fold prefix' auth'
      else None
  | String _ _, EmptyString => None
  end.

(** [parseBasicAuth] of [net/http]. *)
Definition parseBasicAuth (auth : string) : option (string * string) :=
  match strip_fold "Basic " auth with
  | None => None
  | Some encoded =>
      match base64.DecodeString encoded with
      | None => None
      | Some cs => cut_colon cs
      end
  end.

(** [r.BasicAuth()]: the user name and the password of the [Authorization]
    header, or [None] for [ok == false]. *)
Definition BasicAuth (r : Request) : option (string * string) :=
  let auth := Header_Get "Authorization" (ReqHeader r) in
  if String.eqb auth "" then None else parseBasicAuth auth.
End http.

(** [func NewHTTPError(code int) *HTTPError] *)
Definition NewHTTPError (code : Z) : HTTPError :=
  {| Code := code; Message := http.StatusText code; Internal := None; Stack := "" |}.

(* ===================================================================== *)
(** ** log/slog: loggers and the records they emit *)
(* ===================================================================== *)

Module slog.
Inductive Level : Type := LevelInfo | LevelError.

(** The values the package logs. *)
Inductive Value : Type :=
  | String (s : string)
  | Int (z : Z)
  | Any (e : option error).

Definition Attr : Type := (string * Value)%type.

(** What reaches the logger's handler for one call. *)
Record Record_ : Type := mkRecord {
  level : Level;
  msg : string;
  attrs : list Attr;
}.

(** Everything logged so far, oldest first. *)
Definition Output : Type := list Record_.

(** A [*slog.Logger], given by the attributes [With] has attached to it. *)
Record Logger : Type := mkLogger { scoped : list Attr }.

(** [l.With(attr)]: a new logger, [l] itself is not changed. *)
Definition With (attr : Attr) (l : Logger) : Logger :=
  {| scoped := (scoped l ++ [attr])%list |}.

(** [l.Error(msg, args...)] *)
Definition Error (l : Logger) (msg : string) (args : list Attr) (out : Output)
  : Output :=
  (out ++ [ {| level := LevelError; msg := msg;
              attrs := (scoped l ++ args)%list |} ])%list.

(** [l.Info(msg, args...)] *)
Definition Info (l : Logger) (msg : string) (args : list Attr) (out : Output)
  : Output :=
  (out ++ [ {| level := LevelInfo; msg := msg;
              attrs := (scoped l ++ args)%list |} ])%list.
End slog.

(* ===================================================================== *)
(** ** encoding/json: the codec as a collaborator *)
(* ===================================================================== *)

Module json.
(** The values the package encodes. An object lists its members in the
    order the encoder writes them: the keys of a Go map, sorted. *)
#[warnings="-register-all"]
Inductive value : Type :=
  | Int (z : Z)
  | Str (s : string)
  | Object (members : list (string * value)).

(** [json.Marshal] *)
Class Marshaler : Type := Marshal : value -> list byte.

(** [json.NewEncoder(w).Encode(v)]: the encoding of [v] and a newline, in one
    [Write] to [w]. *)
Definition Encode `{!Marshaler} {RW} `{!http.ResponseWriter RW}
    (v : value) (w : RW) : RW * option error :=
  let '(w, (_, err)) := http.rw_Write (Marshal v ++ bytes (String "010" EmptyString))%list w in
  (w, err).

(** A type that [Decode] can fill. [decode strict body out] reads one JSON
    value from the stream [body] into [out]; [strict] is the decoder's
    [DisallowUnknownFields] setting. It returns the target as the decoder left
    it, the unread rest of the stream, and the decoder's error. *)
Class Decodable (T : Type) : Type :=
  decode : bool -> list byte -> T -> T * list byte * option error.

(** A type [json.Marshal] takes: [MarshalAny v] is the encoding of [v], or the
    error of the encoder. *)
Class Marshalable (T : Type) : Type := MarshalAny : T -> list byte + error.
End json.

(* ===================================================================== *)
(** ** response.go: the response wrapper *)
(* ===================================================================== *)

Module Response.
(** [type Response struct { http.ResponseWriter; status int; written int }] *)
Record t (RW : Type) : Type := mk {
  ResponseWriter : RW;
  status : Z;
  written : Z;
}.
Arguments mk {RW}.
Arguments ResponseWriter {RW}.
Arguments status {RW}.
Arguments written {RW}.

Section methods.
Context {RW : Type} `{!http.ResponseWriter RW}.

(** [func (w *Response) WriteHeader(code int)] *)
Definition WriteHeader (code : Z) (w : t RW) : t RW :=
  (* Only set once to mirror net/http behavior *)
  let st := if status w =? 0 then code else status w in
  {| ResponseWriter := http.rw_WriteHeader code (ResponseWriter w);
     status := st;
     written := written w |}.

(** [func (w *Response) Write(b []byte) (int, error)] *)
Definition Write (b : list byte) (w : t RW) : t RW * (Z * option error) :=
  (* Implicit 200 if Write called before WriteHeader *)
  let w := if status w =? 0 then WriteHeader http.StatusOK w else w in
  let '(rw, (n, err)) := http.rw_Write b (ResponseWriter w) in
  ({| ResponseWriter := rw;
      status := status w;
      written := int_wrap (written w + n) |}, (n, err)).

(** [func (w *Response) Status() int] *)
Definition Status (w : t RW) : Z :=
  if status w =? 0 then http.StatusOK else status w.

(** [func (w *Response) Written() int] *)
Definition Written (w : t RW) : Z := written w.

(** [w.Header()], promoted from the embedded [http.ResponseWriter], and the
    write-back of the map it returns. *)
Definition Header (w : t RW) : http.Header :=
  http.rw_Header (ResponseWriter w).

Definition SetHeader (h : http.Header) (w : t RW) : t RW :=
  {| ResponseWriter := http.rw_SetHeader h (ResponseWriter w);
     status := status w;
     written := written w |}.
End methods.
End Response.

(** [*Response] implements [http.ResponseWriter]. *)
#[global] Instance Response_ResponseWriter {RW} `{!http.ResponseWriter RW}
  : http.ResponseWriter (Response.t RW) :=
  {| http.rw_Header := Response.Header;
     http.rw_SetHeader := Response.SetHeader;
     http.rw_WriteHeader := Response.WriteHeader;
     http.rw_Write := Response.Write |}.

(* ===================================================================== *)
(** ** context.go: the pooled request context *)
(* ===================================================================== *)

Module Context.
(** [type Context struct { Request; Response; Logger; Mig; query }]. The
    [Mig] field points at the engine; the one thing read through it, the
    engine's base logger, is an argument of [Reset]. [Logger] may be [nil];
    [query] is [nil] until the query string has been parsed. *)
Record t (RW : Type) : Type := mk {
  Request : http.Request;
  Response : Response.t RW;
  Logger : option slog.Logger;
  query : option url.Values;
}.
Arguments mk {RW}.
Arguments Request {RW}.
Arguments Response {RW}.
Arguments Logger {RW}.
Arguments query {RW}.

(** [RequestIDHeader] *)
Definition RequestIDHeader : string := "X-Request-ID".

Section methods.
Context {RW : Type} `{!http.ResponseWriter RW}.

Definition with_Request (r : http.Request) (c : t RW) : t RW :=
  {| Request := r; Response := Response c; Logger := Logger c;
     query := query c |}.

Definition with_Response (w : Response.t RW) (c : t RW) : t RW :=
  {| Request := Request c; Response := w; Logger := Logger c;
     query := query c |}.

Definition with_Logger (l : option slog.Logger) (c : t RW) : t RW :=
  {| Request := Request c; Response := Response c; Logger := l;
     query := query c |}.

Definition with_query (q : option url.Values) (c : t RW) : t RW :=
  {| Request := Request c; Response := Response c; Logger := Logger c;
     query := q |}.

(** [func (c *Context) Reset(r *http.Request, rw http.ResponseWriter)].
    The receiver is what [pool.Get] returned: [Some c] is a context some
    earlier request has used, [None] is one fresh from the pool's [New],
    whose [Response] is still [nil]. [Mig_Logger] is [c.Mig.Logger]. *)
Definition Reset (r : http.Request) (rw : RW) (Mig_Logger : slog.Logger)
    (c : option (t RW)) : t RW :=
  let resp :=
    match c with
    | Some c =>
        (* c.Response.ResponseWriter = rw *)
        {| Response.ResponseWriter := rw;
           Response.status := Response.status (Response c);
           Response.written := Response.written (Response c) |}
    | None =>
        (* c.Response = &Response{}; c.Response.ResponseWriter = rw *)
        {| Response.ResponseWriter := rw;
           Response.status := 0;
           Response.written := 0 |}
    end in
  let resp :=
    {| Response.ResponseWriter := Response.ResponseWriter resp;
       Response.status := 0;
       Response.written := 0 |} in
  {| Request := r;
     Response := resp;
     query := None;
     Logger := Some Mig_Logger |}.

(** [func (c *Context) Put(name any, value any)] *)
Definition Put (name : context.key) (value : context.any) (c : t RW) : t RW :=
  let newCtx := context.WithValue (http.Ctx (Request c)) name value in
  with_Request (http.WithContext newCtx (Request c)) c.

(** [func (c *Context) Get(name any) any] *)
Definition Get (name : context.key) (c : t RW) : option context.any :=
  context.Value (http.Ctx (Request c)) name.

(** [if c.query == nil { c.query = c.Request.URL.Query() }] *)
Definition load_query (c : t RW) : t RW * url.Values :=
  match query c with
  | None =>
      let q := http.URL_Query (Request c) in
      (with_query (Some q) c, q)
  | Some q => (c, q)
  end.

(** [func (c *Context) QueryParam(name string, def string) string] *)
Definition QueryParam (name def : string) (c : t RW) : t RW * string :=
  let '(c, q) := load_query c in
  match q !! name with
  | Some val =>
      (* Parameter exists, even if value is empty *)
      match val with
      | v :: _ => (c, v)
      | [] => (c, "")
      end
  | None => (c, def)
  end.

(** [func (c *Context) HasQueryParam(name string) bool] *)
Definition HasQueryParam (name : string) (c : t RW) : t RW * bool :=
  let '(c, q) := load_query c in
  match q !! name with
  | Some _ => (c, true)
  | None => (c, false)
  end.

(** [func (c *Context) BindJSON(out any) error]: a decoder on the request
    body with [DisallowUnknownFields] set, then one [Decode]. *)
Definition BindJSON {T : Type} `{!json.Decodable T} (out : T) (c : t RW)
  : t RW * T * option error :=
  let '(out, rest, err) := json.decode true (http.Body (Request c)) out in
  let c := with_Request (http.WithBody rest (Request c)) c in
  match err with
  | Some err =>
      let e := NewHTTPError http.StatusBadRequest in
      let e := {| Code := Code e; Message := Message e;
                  Internal := Some err; Stack := Stack e |} in
      (c, out, Some (as_error e))
  | None => (c, out, None)
  end.

(** [func (c *Context) Raw(data []byte) error] *)
Definition Raw (data : list byte) (c : t RW) : t RW * option error :=
  let '(w, (_, err)) := Response.Write data (Response c) in
  (with_Response w c, err).

(** [func (c *Context) String(code int, s string) error] *)
Definition String (code : Z) (s : string) (c : t RW) : t RW * option error :=
  let w := http.SetHeader "Content-Type" "text/plain; charset=utf-8" (Response c) in
  let w := Response.WriteHeader code w in
  let '(w, (_, err)) := Response.Write (bytes s) w in
  (with_Response w c, err).

(** [func (c *Context) NoContent(code int) error] *)
Definition NoContent (code : Z) (c : t RW) : t RW * option error :=
  (with_Response (Response.WriteHeader code (Response c)) c, None).

(** [func (c *Context) SetRequestID(id string)] *)
Definition SetRequestID (id : string) (c : t RW) : t RW :=
  if String.eqb id "" then c
  else
    let ctx := context.WithValue (http.Ctx (Request c))
                 context.requestIDKey (context.AnyString id) in
    let c := with_Request (http.WithContext ctx (Request c)) c in
    let c := with_Response (http.SetHeader RequestIDHeader id (Response c)) c in
    match Logger c with
    | Some l => with_Logger (Some (slog.With ("id", slog.String id) l)) c
    | None => c
    end.

(** [func RequestIDFromContext(ctx context.Context) string] *)
Definition RequestIDFromContext (ctx : context.Context) : string :=
  match context.Value ctx context.requestIDKey with
  | Some (context.AnyString s) => s
  | _ => ""
  end.

(** [func (c *Context) RequestID() string] *)
Definition RequestID (c : t RW) : string :=
  RequestIDFromContext (http.Ctx (Request c)).

(** [func (c *Context) JSON(out any) error] *)
Definition JSON {T : Type} `{!json.Marshalable T} (out : T) (c : t RW)
  : t RW * option error :=
  match json.MarshalAny out with
  | inr err => (c, Some err)
  | inl res =>
      let w := http.SetHeader "Content-Type" "application/json; charset=utf-8"
                 (Response c) in
      let w := Response.WriteHeader http.StatusOK w in
      let '(w, (_, err)) := Response.Write res w in
      (with_Response w c, err)
  end.

(** [func (c *Context) HTML(html string) error] *)
Definition HTML (html : string) (c : t RW) : t RW * option error :=
  let w := http.SetHeader "content-type" "text/html; charset=utf-8" (Response c) in
  Raw (bytes html) (with_Response w c).

(** [func (c *Context) View(name string, data any) error]. [Mig_Renderer] is
    [c.Mig.Renderer], which [New] leaves [nil]; a renderer returns what it
    wrote to the buffer and its error. Calling [Render] on the [nil] interface
    panics. *)
Definition View {D : Type}
    (Mig_Renderer : option (string -> D -> list byte * option error))
    (name : string) (data : D) (c : t RW) : t RW * outcome :=
  match Mig_Renderer with
  | None =>
      (c, Panic (PanicError (ErrorString
            "runtime error: invalid memory address or nil pointer dereference")))
  | Some Render =>
      let '(buf, err) := Render name data in
      match err with
      | Some err => (c, Return (Some err))
      | None =>
          let '(c, err) := HTML (string_of_list_byte buf) c in
          (c, Return err)
      end
  end.
End methods.
End Context.

(** The first generation of [QueryParam] in the sources, which the one above
    replaced. It reads the same two fields of the context; it goes through
    [url.Values.Get] and so cannot tell an empty value from a missing key. *)
Module FirstGeneration.
Section methods.
Context {RW : Type} `{!http.ResponseWriter RW}.

(** [func (v Values) Get(key string) string] *)
Definition Values_Get (key : string) (v : url.Values) : string :=
  match v !! key with
  | Some (x :: _) => x
  | _ => ""
  end.

(** [func (c *Context) QueryParam(name string, def string) string] *)
Definition QueryParam (name def : string) (c : Context.t RW)
  : Context.t RW * string :=
  let '(c, q) := Context.load_query c in
  let val := Values_Get name q in
  if negb (String.eqb val "") then (c, val) else (c, def).
End methods.
End FirstGeneration.

(** [type Handler func(c *Context) error]; a handler may also log, and may
    panic. [type MiddlewareFunc func(Handler) Handler].
    [type HTTPErrorHandler func(err error, c *Context)]; it returns nothing, or
    panics with a value. *)
Definition Handler (RW : Type) : Type :=
  Context.t RW -> slog.Output -> Context.t RW * slog.Output * outcome.

Definition MiddlewareFunc (RW : Type) : Type := Handler RW -> Handler RW.

Definition HTTPErrorHandler (RW : Type) : Type :=
  error -> Context.t RW -> slog.Output ->
  Context.t RW * slog.Output * option panicval.

(* ===================================================================== *)
(** ** mig.go: the engine *)
(* ===================================================================== *)

Module Mig.
(** [type Mig struct { ...; ErrorHandler HTTPErrorHandler; Logger *slog.Logger; ... }],
    the two fields a request reads. Both are set by [New] and left alone
    while requests are served. *)
Record t (RW : Type) : Type := mk {
  ErrorHandler : HTTPErrorHandler RW;
  Logger : slog.Logger;
}.
Arguments mk {RW}.
Arguments ErrorHandler {RW}.
Arguments Logger {RW}.

Section methods.
Context {RW : Type} `{!http.ResponseWriter RW} `{!json.Marshaler}.

(** [func (m *Mig) DefaultErrorHandler(err error, ctx *Context)] *)
Definition DefaultErrorHandler (m : t RW) : HTTPErrorHandler RW :=
  fun err ctx out =>
  let e :=
    match errors_As_HTTPError err with
    | Some e => e
    | None =>
        {| Code := http.StatusInternalServerError;
           Message := http.StatusText http.StatusInternalServerError;
           Internal := Some err;
           Stack := "" |}
    end in
  (* Logging: include internal error and stack if present, but never
     expose stack to clients. *)
  let out :=
    if negb (String.eqb (Stack e) "") then
      slog.Error (Logger m) "panic recovered"
        [("id", slog.String (Context.RequestID ctx));
         ("error", slog.Any (Internal e));
         ("stack", slog.String (Stack e))] out
    else
      slog.Error (Logger m) "request error"
        [("id", slog.String (Context.RequestID ctx));
         ("code", slog.Int (Code e));
         ("error", slog.Any (Internal e))] out in
  (* If response has already been partially written, we must not attempt
     to write again. *)
  if 0 <? Response.Written (Context.Response ctx) then (ctx, out, None)
  (* For special status codes that must not include a body, just set
     status. *)
  else if (Code e =? http.StatusNoContent) || (Code e =? http.StatusNotModified) then
    let w := Response.WriteHeader (Code e) (Context.Response ctx) in
    (Context.with_Response w ctx, out, None)
  else if strings_Contains
            (http.Header_Get "Accept" (http.ReqHeader (Context.Request ctx)))
            "application/json" then
    let w := http.SetHeader "Content-Type" "application/json; charset=utf-8"
               (Context.Response ctx) in
    let w := Response.WriteHeader (Code e) w in
    (* Public-facing error payload *)
    let payload := json.Object [("code", json.Int (Code e));
                                ("message", json.Str (Message e))] in
    let '(w, _) := json.Encode payload w in
    (Context.with_Response w ctx, out, None)
  else
    (* Fallback: plain text *)
    let w := http.Error (Message e) (Code e) (Context.Response ctx) in
    (Context.with_Response w ctx, out, None).

(** [func New(ctx context.Context) *Mig], for the two fields above. The
    default handler is the method value [m.DefaultErrorHandler]; of its
    receiver it reads the logger only. *)
Definition New (logger : slog.Logger) : t RW :=
  let m := {| ErrorHandler := fun _ ctx out => (ctx, out, None);
              Logger := logger |} in
  {| ErrorHandler := DefaultErrorHandler m; Logger := logger |}.

(** The error a recovered value is turned into: the value itself when it is
    an [error], [fmt.Errorf("%v", rec)] otherwise. *)
Definition recovered_error (rec : panicval) : error :=
  match rec with
  | PanicError recErr => recErr
  | PanicValue shown => ErrorString shown
  end.

(** [func (m *Mig) Execute(handler Handler, rw http.ResponseWriter, r *http.Request)].
    [cont] is what [m.pool.Get()] returned and [stack] is the text
    [debug.Stack()] returns in the deferred function. The result is the
    context that the deferred [m.pool.Put(cont)] returns to the pool, the
    log, and the value [Execute] panics with, if it does. *)
Definition Execute (m : t RW) (handler : Handler RW) (rw : RW)
    (r : http.Request) (cont : option (Context.t RW)) (stack : string)
    (out : slog.Output) : Context.t RW * slog.Output * option panicval :=
  let cont := Context.Reset r rw (Logger m) cont in
  (* err := handler(cont); if err != nil { m.ErrorHandler(err, cont) } *)
  let '(cont, out, raised) :=
    match handler cont out with
    | (cont, out, Return None) => (cont, out, None)
    | (cont, out, Return (Some err)) => ErrorHandler m err cont out
    | (cont, out, Panic v) => (cont, out, Some v)
    end in
  (* defer func() { if rec := recover(); rec != nil { ... } }() *)
  match raised with
  | None => (cont, out, None)
  | Some rec =>
      let err := recovered_error rec in
      if errors_Is_ErrAbortHandler err then (cont, out, Some (PanicError err))
      else
        let httpErr := NewHTTPError http.StatusInternalServerError in
        let httpErr := {| Code := Code httpErr; Message := Message httpErr;
                          Internal := Some err; Stack := stack |} in
        ErrorHandler m (as_error httpErr) cont out
  end.
End methods.
End Mig.

(* ===================================================================== *)
(** ** routegroup.go: groups and middleware composition *)
(* ===================================================================== *)

(** What [Mux.HandleFunc] stores under a pattern: the closure
    [func(rw, r) { rg.Mig.Execute(fhandler, rw, r) }], which reads the engine
    at request time. *)
Definition HandlerFunc (RW : Type) : Type :=
  Mig.t RW -> RW -> http.Request -> option (Context.t RW) -> string ->
  slog.Output -> Context.t RW * slog.Output * option panicval.

(** The patterns registered with the [http.ServeMux], oldest first. *)
Definition ServeMux (RW : Type) : Type := list (string * HandlerFunc RW).

Module RouteGroup.
(** [type RouteGroup struct { Mig; Prefix; middlewares; ParentRouter }]; of
    these the registration reads [Prefix] and [middlewares]. *)
Record t (RW : Type) : Type := mk {
  Prefix : string;
  middlewares : list (MiddlewareFunc RW);
}.
Arguments mk {RW}.
Arguments Prefix {RW}.
Arguments middlewares {RW}.

Section methods.
Context {RW : Type} `{!http.ResponseWriter RW} `{!json.Marshaler}.

(** The root group [New] embeds in the engine. *)
Definition root : t RW := {| Prefix := ""; middlewares := [] |}.

(** [func (rg *RouteGroup) Group(prefix string, middlewares ...MiddlewareFunc) *RouteGroup] *)
Definition Group (prefix : string) (mws : list (MiddlewareFunc RW)) (rg : t RW)
  : t RW :=
  let g := {| Prefix := Prefix rg ++ prefix;
              middlewares := ([] ++ middlewares rg)%list |} in
  {| Prefix := Prefix g; middlewares := (middlewares g ++ mws)%list |}.

(** [func (rg *RouteGroup) Use(middlewares ...MiddlewareFunc)] *)
Definition Use (mws : list (MiddlewareFunc RW)) (rg : t RW) : t RW :=
  {| Prefix := Prefix rg; middlewares := (middlewares rg ++ mws)%list |}.

(** The loop of [HandleRaw],
    [for i := len(rg.middlewares) - 1; i >= 0; i-- { fhandler = rg.middlewares[i](fhandler) }],
    with [n] standing for [i + 1]. *)
Fixpoint wrap (mws : list (MiddlewareFunc RW)) (n : nat) (fhandler : Handler RW)
  : Handler RW :=
  match n with
  | O => fhandler
  | S i =>
      match mws !! i with
      | Some mw => wrap mws i (mw fhandler)
      | None => fhandler
      end
  end.

(** [func (rg *RouteGroup) HandleRaw(pattern string, handler Handler)] *)
Definition HandleRaw (pattern : string) (handler : Handler RW) (rg : t RW)
    (mux : ServeMux RW) : ServeMux RW :=
  let fhandler := wrap (middlewares rg) (length (middlewares rg)) handler in
  (mux ++ [(pattern, fun m rw r => Mig.Execute m fhandler rw r)])%list.

(** [func (rg *RouteGroup) Handle(method, path string, handler Handler)] *)
Definition Handle (method path : string) (handler : Handler RW) (rg : t RW)
    (mux : ServeMux RW) : ServeMux RW :=
  let fullPath := Prefix rg ++ path in
  let pattern :=
    if negb (String.eqb method "") then method ++ " " ++ fullPath
    else fullPath in
  HandleRaw pattern handler rg mux.

(** [GET], [POST], [PUT], [DELETE] and [Any] of a group. *)
Definition GET (path : string) (handler : Handler RW) (rg : t RW)
    (mux : ServeMux RW) : ServeMux RW :=
  Handle "GET" path handler rg mux.

Definition POST (path : string) (handler : Handler RW) (rg : t RW)
    (mux : ServeMux RW) : ServeMux RW :=
  Handle "POST" path handler rg mux.

Definition PUT (path : string) (handler : Handler RW) (rg : t RW)
    (mux : ServeMux RW) : ServeMux RW :=
  Handle "PUT" path handler rg mux.

Definition DELETE (path : string) (handler : Handler RW) (rg : t RW)
    (mux : ServeMux RW) : ServeMux RW :=
  Handle "DELETE" path handler rg mux.

Definition Any (path : string) (handler : Handler RW) (rg : t RW)
    (mux : ServeMux RW) : ServeMux RW :=
  Handle "" path handler rg mux.
End methods.
End RouteGroup.

(* ===================================================================== *)
(** ** Collaborators for running the code: sinks and codecs

    Instances of the interfaces above, used to run the package on concrete
    requests. They stand in for the recorders and the codec of the package's
    tests and are not part of the package. *)
(* ===================================================================== *)

Definition dquote : ascii := ascii_of_N 34.
Definition backslash : ascii := ascii_of_N 92.

(** A recording sink after [httptest.ResponseRecorder]: the first status
    wins, a [Write] before any status records 200, every byte is kept. It does
    not sniff a content type. *)
Module Recorder.
Record t : Type := mk {
  Code : Z;
  HeaderMap : http.Header;
  Body : list byte;
  wroteHeader : bool;
}.

(** [httptest.NewRecorder()] *)
Definition NewRecorder : t :=
  {| Code := 200; HeaderMap := ∅; Body := []; wroteHeader := false |}.

Definition WriteHeader (code : Z) (rw : t) : t :=
  if wroteHeader rw then rw
  else {| Code := code; HeaderMap := HeaderMap rw; Body := Body rw;
          wroteHeader := true |}.

Definition Write (buf : list byte) (rw : t) : t * (Z * option error) :=
  let rw := WriteHeader 200 rw in
  ({| Code := Code rw; HeaderMap := HeaderMap rw;
      Body := (Body rw ++ buf)%list; wroteHeader := wroteHeader rw |},
   (len buf, None)).

Definition SetHeaderMap (h : http.Header) (rw : t) : t :=
  {| Code := Code rw; HeaderMap := h; Body := Body rw;
     wroteHeader := wroteHeader rw |}.

(** [rec.Body.String()] *)
Definition BodyString (rw : t) : string := string_of_list_byte (Body rw).
End Recorder.

#[global] Instance Recorder_ResponseWriter : http.ResponseWriter Recorder.t :=
  {| http.rw_Header := Recorder.HeaderMap;
     http.rw_SetHeader := Recorder.SetHeaderMap;
     http.rw_WriteHeader := Recorder.WriteHeader;
     http.rw_Write := Recorder.Write |}.

(** A sink with room for [room] more bytes: a [Write] that does not fit
    forwards what fits and reports a short write. *)
Module ShortWriter.
Record t : Type := mk {
  room : nat;
  taken : list byte;
  codes : list Z;
  header : http.Header;
}.

Definition WriteHeader (code : Z) (rw : t) : t :=
  {| room := room rw; taken := taken rw; codes := (codes rw ++ [code])%list;
     header := header rw |}.

Definition Write (buf : list byte) (rw : t) : t * (Z * option error) :=
  let fit := take (room rw) buf in
  ({| room := room rw - length fit; taken := (taken rw ++ fit)%list;
      codes := codes rw; header := header rw |},
   (len fit,
    if (length fit <? length buf)%nat then Some (ErrorString "short write")
    else None)).

Definition SetHeaderMap (h : http.Header) (rw : t) : t :=
  {| room := room rw; taken := taken rw; codes := codes rw; header := h |}.
End ShortWriter.

#[global] Instance ShortWriter_ResponseWriter : http.ResponseWriter ShortWriter.t :=
  {| http.rw_Header := ShortWriter.header;
     http.rw_SetHeader := ShortWriter.SetHeaderMap;
     http.rw_WriteHeader := ShortWriter.WriteHeader;
     http.rw_Write := ShortWriter.Write |}.

(** An encoder for integers, objects and strings of printable ASCII, after
    [json.Marshal]: a quote and a backslash are escaped with a backslash. *)
Module AsciiJSON.
Fixpoint escape (s : string) : string :=
  match s with
  | EmptyString => EmptyString
  | String c rest =>
      if Ascii.eqb c dquote || Ascii.eqb c backslash
      then String backslash (String c (escape rest))
      else String c (escape rest)
  end.

Definition quote (s : string) : string :=
  String dquote (escape s ++ String dquote EmptyString).

Fixpoint marshal (v : json.value) : string :=
  match v with
  | json.Int z => NilZero.string_of_int (Z.to_int z)
  | json.Str s => quote s
  | json.Object members =>
      let fix go (first : bool) (ms : list (string * json.value)) : string :=
        match ms with
        | [] => ""
        | (k, x) :: ms' =>
            (if first then "" else ",") ++ quote k ++ ":" ++ marshal x
            ++ go false ms'
        end in
      "{" ++ go true members ++ "}"
  end.
End AsciiJSON.

#[global] Instance AsciiJSON_Marshaler : json.Marshaler :=
  fun v => bytes (AsciiJSON.marshal v).

(** The target of the package's bind test,
    [type TestUser struct { Name string `json:"name"`; Age int `json:"age"` }],
    with a decoder for it after [json.Decoder]: flat objects whose values are
    strings without escapes or unsigned integers. A value that is not
    well-formed leaves the target alone; an unknown member (when strict) or a
    member of the wrong type is reported after the other members have been
    stored. It stands in for [encoding/json] on the bodies of the bind test
    only: negative numbers, escapes, [null], member names in another case
    and the range of [int] are outside of it, and the statements about
    [BindJSON] hold for every decoder. *)
Module TestUser.
Record t : Type := mk { Name : string; Age : Z }.

Inductive token : Type :=
  | LBrace | RBrace | Colon | Comma
  | TStr (s : string)
  | TNum (z : Z)
  | TBad.

Inductive lex_state : Type :=
  | Idle
  | InStr (acc : string)
  | InNum (acc : Z).

Definition is_space (c : ascii) : bool :=
  bool_decide (N_of_ascii c ∈ [32; 9; 10; 13]%N).

(** The lexer meets [c] outside of a string and of a number. *)
Definition start (c : ascii) : list token * lex_state :=
  if is_space c then ([], Idle)
  else if Ascii.eqb c "{" then ([LBrace], Idle)
  else if Ascii.eqb c "}" then ([RBrace], Idle)
  else if Ascii.eqb c ":" then ([Colon], Idle)
  else if Ascii.eqb c "," then ([Comma], Idle)
  else if Ascii.eqb c dquote then ([], InStr "")
  else if is_digit c then ([], InNum (Z.of_N (N_of_ascii c) - 48))
  else ([TBad], Idle).

Fixpoint lex (st : lex_state) (s : string) : list token :=
  match s with
  | EmptyString =>
      match st with
      | Idle => []
      | InStr _ => [TBad]
      | InNum n => [TNum n]
      end
  | String c rest =>
      match st with
      | InStr acc =>
          if Ascii.eqb c dquote then TStr acc :: lex Idle rest
          else lex (InStr (acc ++ String c EmptyString)) rest
      | InNum n =>
          if is_digit c then lex (InNum (10 * n + (Z.of_N (N_of_ascii c) - 48))) rest
          else let '(ts, st') := start c in (TNum n :: ts ++ lex st' rest)%list
      | Idle =>
          let '(ts, st') := start c in (ts ++ lex st' rest)%list
      end
  end.

Definition is_value (v : token) : bool :=
  match v with TStr _ | TNum _ => true | _ => false end.

(** The members of an object after its opening brace, up to its closing
    brace. *)
Fixpoint members (ts : list token) : option (list (string * token)) :=
  match ts with
  | TStr k :: Colon :: v :: rest =>
      if is_value v then
        match rest with
        | Comma :: rest' => cons (k, v) <$> members rest'
        | RBrace :: _ => Some [(k, v)]
        | _ => None
        end
      else None
  | _ => None
  end.

Definition object (ts : list token) : option (list (string * token)) :=
  match ts with
  | LBrace :: RBrace :: _ => Some []
  | LBrace :: rest => members rest
  | _ => None
  end.

Definition first_error (e1 e2 : option error) : option error :=
  match e1 with Some _ => e1 | None => e2 end.

(** Stores one member in the target. *)
Definition store (strict : bool) (acc : t * option error) (kv : string * token)
  : t * option error :=
  let '(u, err) := acc in
  let '(k, v) := kv in
  if String.eqb k "name" then
    match v with
    | TStr s => ({| Name := s; Age := Age u |}, err)
    | _ => (u, first_error err (Some (ErrorString
              "json: cannot unmarshal number into Go struct field TestUser.name of type string")))
    end
  else if String.eqb k "age" then
    match v with
    | TNum z => ({| Name := Name u; Age := z |}, err)
    | _ => (u, first_error err (Some (ErrorString
              "json: cannot unmarshal string into Go struct field TestUser.age of type int")))
    end
  else if strict then
    (u, first_error err (Some (ErrorString ("json: unknown field " ++ k))))
  else (u, err).

Definition decode (strict : bool) (body : list byte) (out : t)
  : t * list byte * option error :=
  match lex Idle (string_of_list_byte body) with
  | [] => (out, [], Some (ErrorString "EOF"))
  | ts =>
      match object ts with
      | None => (out, [], Some (ErrorString "invalid character"))
      | Some kvs =>
          let '(u, err) := foldl (store strict) (out, None) kvs in
          (u, [], err)
      end
  end.
End TestUser.

#[global] Instance TestUser_Decodable : json.Decodable TestUser.t :=
  TestUser.decode.

(** *** Handlers and middleware for running a route *)

Section observers.
Context {RW : Type} `{!http.ResponseWriter RW}.

(** [c.Raw([]byte(s))] with its error dropped, as the test middleware of the
    package calls it. *)
Definition emit (s : string) (c : Context.t RW) : Context.t RW :=
  fst (Context.Raw (bytes s) c).

(** A middleware that acts on the context before it calls downstream and
    again after downstream has returned, and passes the downstream result
    on. When downstream panics, the panic passes through it. *)
Definition observer (before after : Context.t RW -> Context.t RW)
  : MiddlewareFunc RW :=
  fun next c out =>
    match next (before c) out with
    | (c, out, Return err) => (after c, out, Return err)
    | (c, out, Panic v) => (c, out, Panic v)
    end.

(** The middleware that writes a marker on each side of the call. *)
Definition marker (name : string) : MiddlewareFunc RW :=
  observer (emit (name ++ "-before > ")) (emit (" > " ++ name ++ "-after")).

(** [testMiddleware] of the package's tests: the name, then downstream. *)
Definition testMiddleware (name : string) : MiddlewareFunc RW :=
  fun next c out => next (emit (name ++ " > ") c) out.

(** A final handler that writes [s]. *)
Definition finalHandler (s : string) : Handler RW :=
  fun c out => let '(c, err) := Context.Raw (bytes s) c in (c, out, Return err).
End observers.

(* ===================================================================== *)
(** ** middleware: request identifiers, request logging, basic authentication *)
(* ===================================================================== *)

Module middleware.
(** [type BasicAuthConfig struct { IsAllowed func(user, password string) bool; Realm string }];
    [IsAllowed] may be [nil]. *)
Record BasicAuthConfig : Type := mkBasicAuthConfig {
  IsAllowed : option (string -> string -> bool);
  Realm : string;
}.

Section handlers.
Context {RW : Type} `{!http.ResponseWriter RW} `{!strconv.Quoter}.

(** [func BasicAuthWithConfig(cfg BasicAuthConfig) mig.MiddlewareFunc]; it
    panics, or returns the middleware. *)
Definition BasicAuthWithConfig (cfg : BasicAuthConfig)
  : panicval + MiddlewareFunc RW :=
  match IsAllowed cfg with
  | None => inl (PanicValue "BasicAuth middleware requires IsAllowed function")
  | Some isAllowed =>
      let realm :=
        if String.eqb (Realm cfg) ""
        then String dquote ("restricted" ++ String dquote EmptyString)
        else strconv.Quote (Realm cfg) in
      inr (fun next m out =>
             let granted :=
               match http.BasicAuth (Context.Request m) with
               | Some (u, p) => isAllowed u p
               | None => false
               end in
             if granted then next m out
             else
               let w := http.SetHeader "WWW-Authenticate" ("Basic realm=" ++ realm)
                          (Context.Response m) in
               (Context.with_Response w m, out,
                Return (Some (as_error (NewHTTPError http.StatusUnauthorized)))))
  end.

(** [func RequestID() mig.MiddlewareFunc]. [random] is what
    [io.ReadFull(rand.Reader, b[:])] gives in the request at hand: the eight
    bytes read, or [None] when the read fails. *)
Definition RequestID (random : option (list byte)) : MiddlewareFunc RW :=
  fun next c out =>
    let id := http.Header_Get Context.RequestIDHeader
                (http.ReqHeader (Context.Request c)) in
    let id :=
      if String.eqb id "" then
        match random with
        | Some b => hex.EncodeToString b
        | None => id
        end
      else id in
    next (Context.SetRequestID id c) out.

(** [func RequestLogger() mig.MiddlewareFunc]. The deferred function runs
    when [next] has returned or panicked and reads the context as [next] left
    it; [elapsed] is [time.Since(start)] in nanoseconds, logged as an integer.
    Calling [Info] on a [nil] logger panics. *)
Definition RequestLogger (elapsed : Z) : MiddlewareFunc RW :=
  fun next c out =>
    let '(c, out, res) := next c out in
    match Context.Logger c with
    | None =>
        (c, out, Panic (PanicError (ErrorString
           "runtime error: invalid memory address or nil pointer dereference")))
    | Some l =>
        (c,
         slog.Info l "request"
           [("method", slog.String (http.Method (Context.Request c)));
            ("path", slog.String (http.URL_Path (Context.Request c)));
            ("status", slog.Int (Response.Status (Context.Response c)));
            ("bytes", slog.Int (Response.Written (Context.Response c)));
            ("t", slog.Int elapsed)] out,
         res)
    end.
End handlers.
End middleware.

(** [strconv.Quote] for printable ASCII: the text between quotes, a quote
    and a backslash escaped with a backslash. *)
#[global] Instance AsciiQuoter : strconv.Quoter := AsciiJSON.quote.

(** [json.Marshal] of the values above, which never fails, and of a value of
    a type the encoder does not support. *)
#[global] Instance value_Marshalable : json.Marshalable json.value :=
  fun v => inl (bytes (AsciiJSON.marshal v)).

Inductive Unsupported : Type := Channel.

#[global] Instance Unsupported_Marshalable : json.Marshalable Unsupported :=
  fun _ => inr (ErrorString "json: unsupported type: chan int").

(** A value whose [MarshalJSON] fails with an [HTTPError] of the package:
    [json.Marshal] returns a [*json.MarshalerError], which wraps it. *)
Inductive Refusing : Type := Teapot.

#[global] Instance Refusing_Marshalable : json.Marshalable Refusing :=
  fun _ => inr (WrapError "json: error calling MarshalJSON for type main.Teapot: I'm a teapot"
                  (as_error (NewHTTPError 418))).

(* ===================================================================== *)
(** ** The first generation of the package

    The sources hold an earlier [mig.go], [context.go], [routegroup.go],
    [logrequest.go] and [basicauth.go] next to the present ones. Their context
    has the sink as a field of its own and a map as store. *)
(* ===================================================================== *)

Module Older.
(** [type Context struct { mu; store; Request; ResponseWriter; Logger; Mig; query }];
    [store] is [nil] until the first [Put]. *)
Record Context (RW : Type) : Type := mkContext {
  store : option (gmap string context.any);
  Request : http.Request;
  ResponseWriter : RW;
  Logger : option slog.Logger;
  query : option url.Values;
}.
Arguments mkContext {RW}.
Arguments store {RW}.
Arguments Request {RW}.
Arguments ResponseWriter {RW}.
Arguments Logger {RW}.
Arguments query {RW}.

Definition Handler (RW : Type) : Type :=
  Context RW -> slog.Output -> Context RW * slog.Output * outcome.

Definition MiddlewareFunc (RW : Type) : Type := Handler RW -> Handler RW.

Definition HTTPErrorHandler (RW : Type) : Type :=
  error -> Context RW -> slog.Output -> Context RW * slog.Output * option panicval.

(** [type Mig struct { ...; ErrorHandler; Logger; ... }] *)
Record Mig (RW : Type) : Type := mkMig {
  ErrorHandler : HTTPErrorHandler RW;
  MigLogger : slog.Logger;
}.
Arguments mkMig {RW}.
Arguments ErrorHandler {RW}.
Arguments MigLogger {RW}.

(** [func (e *HTTPError) Error() string] of this generation, and [Error()]
    of the other errors. *)
Fixpoint Error (err : error) : string :=
  match err with
  | ErrorString s => s
  | WrapError s _ => s
  | ErrAbortHandler => "net/http: abort Handler"
  | EHTTP code message (Some internal) _ =>
      "code=" ++ NilZero.string_of_int (Z.to_int code) ++ ", message=" ++ message
        ++ ", err=" ++ Error internal
  | EHTTP code message None _ =>
      "code=" ++ NilZero.string_of_int (Z.to_int code) ++ ", message=" ++ message
  end.

(** [type RouteGroup struct { Mig; middlewares; ParentRouter }]. Groups are
    used through pointers and a group keeps the pointer to its parent, so the
    groups live in a store, addressed by their place in it. *)
Record RouteGroup (RW : Type) : Type := mkRouteGroup {
  middlewares : list (MiddlewareFunc RW);
  ParentRouter : option nat;
}.
Arguments mkRouteGroup {RW}.
Arguments middlewares {RW}.
Arguments ParentRouter {RW}.

Abbreviation Groups RW := (list (RouteGroup RW)) (only parsing).

Section methods.
Context {RW : Type} `{!http.ResponseWriter RW} `{!strconv.Quoter}.

Definition with_ResponseWriter (rw : RW) (c : Context RW) : Context RW :=
  {| store := store c; Request := Request c; ResponseWriter := rw;
     Logger := Logger c; query := query c |}.

(** [func (c *Context) Reset(r *http.Request, rw http.ResponseWriter)]. The
    receiver is what [pool.Get] returned: a context used before, or [None] for
    one the pool's [New] has just made, [&Context{Logger: m.Logger, Mig: &m}]. *)
Definition Reset (r : http.Request) (rw : RW) (Mig_Logger : slog.Logger)
    (c : option (Context RW)) : Context RW :=
  let c := match c with
           | Some c => c
           | None => {| store := None; Request := r; ResponseWriter := rw;
                        Logger := Some Mig_Logger; query := None |}
           end in
  {| store := store c; Request := r; ResponseWriter := rw; Logger := Logger c;
     query := None |}.

(** [func (c *Context) Put(name string, value any)] *)
Definition Put (name : string) (value : context.any) (c : Context RW) : Context RW :=
  let m := match store c with
           | None => ∅
           | Some m => m
           end in
  {| store := Some (<[name := value]> m); Request := Request c;
     ResponseWriter := ResponseWriter c; Logger := Logger c; query := query c |}.

(** [func (c *Context) Get(name string) any] *)
Definition Get (name : string) (c : Context RW) : option context.any :=
  match store c with
  | None => None
  | Some m => m !! name
  end.

(** [func (m *Mig) DefaultErrorHandler(err error, ctx *Context)] *)
Definition DefaultErrorHandler (m : Mig RW) : HTTPErrorHandler RW :=
  fun err ctx out =>
    let e :=
      match err with
      | EHTTP code message internal stack => mkHTTPError code message internal stack
      | _ => {| Code := http.StatusInternalServerError;
                Message := http.StatusText http.StatusInternalServerError;
                Internal := Some err; Stack := "" |}
      end in
    let rw := http.Error (Message e) (Code e) (ResponseWriter ctx) in
    (with_ResponseWriter rw ctx,
     slog.Error (MigLogger m) (Error (as_error e)) [] out, None).

(** [func (m *Mig) Execute(handler Handler, rw http.ResponseWriter, r *http.Request)].
    [cont] is what [m.pool.Get()] returned and [Sprint] is the text
    [fmt.Errorf("%v", r)] gives for the request. The sink [rw] is the sink the
    context holds. The result is the context, whether [m.pool.Put(cont)] was
    reached, the log, and the request when [Execute] ends in [panic(r)]. *)
Definition Execute (Sprint : http.Request -> string) (m : Mig RW)
    (handler : Handler RW) (rw : RW) (r : http.Request)
    (cont : option (Context RW)) (out : slog.Output)
  : Context RW * bool * slog.Output * option http.Request :=
  let cont := Reset r rw (MigLogger m) cont in
  let '(cont, out, raised) :=
    match handler cont out with
    | (cont, out, Return None) => (cont, out, None)
    | (cont, out, Return (Some err)) => ErrorHandler m err cont out
    | (cont, out, Panic v) => (cont, out, Some v)
    end in
  match raised with
  | None => (cont, true, out, None)
  | Some rec =>
      let err := match rec with
                 | PanicError e => e
                 | PanicValue _ => ErrorString (Sprint r)
                 end in
      if errors_Is_ErrAbortHandler err then (cont, false, out, Some r)
      else
        let sink := http.Error "Internal Server Error!"
                      http.StatusInternalServerError (ResponseWriter cont) in
        (with_ResponseWriter sink cont, false,
         slog.Error (MigLogger m) "Panic recover" [("err", slog.Any (Some err))] out,
         None)
  end.

(** [func New(ctx context.Context) *Mig], with the logger it makes. *)
Definition New (logger : slog.Logger) : Mig RW :=
  let m := {| ErrorHandler := fun _ ctx out => (ctx, out, None);
              MigLogger := logger |} in
  {| ErrorHandler := DefaultErrorHandler m; MigLogger := logger |}.

(** [func RequestLogger() MiddlewareFunc] of [logrequest.go] *)
Definition RequestLogger (elapsed : Z) : MiddlewareFunc RW :=
  fun next c out =>
    match next c out with
    | (c, out, Return err) =>
        match Logger c with
        | None =>
            (c, out, Panic (PanicError (ErrorString
               "runtime error: invalid memory address or nil pointer dereference")))
        | Some l =>
            (c,
             slog.Info l "request"
               [("request", slog.String (http.URL_Path (Request c)));
                ("t", slog.Int elapsed)] out,
             Return err)
        end
    | (c, out, Panic v) => (c, out, Panic v)
    end.

(** [func BasicAuthWithConfig(cfg BasicAuthConfig) MiddlewareFunc] of
    [basicauth.go] *)
Definition BasicAuthWithConfig (cfg : middleware.BasicAuthConfig)
  : panicval + MiddlewareFunc RW :=
  match middleware.IsAllowed cfg with
  | None => inl (PanicValue "BasicAuth middleware requires IsAllowed function")
  | Some isAllowed =>
      let realm :=
        if String.eqb (middleware.Realm cfg) "" then "restricted"
        else strconv.Quote (middleware.Realm cfg) in
      inr (fun next m out =>
             let granted :=
               match http.BasicAuth (Request m) with
               | Some (u, p) => isAllowed u p
               | None => false
               end in
             if granted then next m out
             else
               let rw := http.SetHeader "WWW-Authenticate" ("Basic realm=" ++ realm)
                           (ResponseWriter m) in
               (with_ResponseWriter rw m, out,
                Return (Some (as_error (NewHTTPError http.StatusUnauthorized)))))
  end.

(** [func BasicAuth(next Handler) Handler] *)
Definition BasicAuth (next : Handler RW) : panicval + Handler RW :=
  match BasicAuthWithConfig {| middleware.IsAllowed := None; middleware.Realm := "" |} with
  | inl v => inl v
  | inr m => inr (m next)
  end.

(** The store [New] leaves: the root group, at address [0]. *)
Definition root : Groups RW := [{| middlewares := []; ParentRouter := None |}].

(** [func (rg *RouteGroup) Group(middlewares ...MiddlewareFunc) *RouteGroup]:
    the new group is allocated after the others. *)
Definition Group (mws : list (MiddlewareFunc RW)) (rg : nat) (groups : Groups RW)
  : Groups RW * nat :=
  let g := {| middlewares := []; ParentRouter := Some rg |} in
  let g := {| middlewares := (middlewares g ++ mws)%list;
              ParentRouter := ParentRouter g |} in
  ((groups ++ [g])%list, length groups).

(** [func (rg *RouteGroup) Use(middlewares ...MiddlewareFunc)], on the group
    at [rg]. *)
Definition Use (mws : list (MiddlewareFunc RW)) (rg : nat) (groups : Groups RW)
  : Groups RW :=
  alter (fun g => {| middlewares := (middlewares g ++ mws)%list;
                     ParentRouter := ParentRouter g |}) rg groups.

(** The inner loop of [Handle],
    [for i := len(prt.middlewares) - 1; i >= 0; i-- { fhandler = prt.middlewares[i](fhandler) }],
    with [n] standing for [i + 1]. *)
Fixpoint wrap (mws : list (MiddlewareFunc RW)) (n : nat) (fhandler : Handler RW)
  : Handler RW :=
  match n with
  | O => fhandler
  | S i =>
      match mws !! i with
      | Some mw => wrap mws i (mw fhandler)
      | None => fhandler
      end
  end.

(** The outer loop of [Handle],
    [for { ...; if prt.ParentRouter == nil { break }; prt = prt.ParentRouter }],
    which follows the parent pointers as they are when it runs. [fuel] bounds
    the number of rounds; [None] when it is used up, or when [prt] is no
    group of the store. *)
Fixpoint climb (fuel : nat) (groups : Groups RW) (prt : nat) (fhandler : Handler RW)
  : option (Handler RW) :=
  match fuel with
  | O => None
  | S fuel =>
      match groups !! prt with
      | None => None
      | Some g =>
          let fhandler := wrap (middlewares g) (length (middlewares g)) fhandler in
          match ParentRouter g with
          | None => Some fhandler
          | Some parent => climb fuel groups parent fhandler
          end
      end
  end.

(** The function [Handle] registers for [handler] on the group at [rg], at
    one request. [fhandler] is the variable the function keeps between
    requests, [nil] before the first one, and [groups] is the store at this
    request. The result is the new [fhandler] with what [Execute] did. *)
Definition Handle (Sprint : http.Request -> string) (m : Mig RW) (rg : nat)
    (handler : Handler RW) (fuel : nat) (groups : Groups RW)
    (fhandler : option (Handler RW)) (rw : RW) (r : http.Request)
    (cont : option (Context RW)) (out : slog.Output)
  : option (Handler RW * (Context RW * bool * slog.Output * option http.Request)) :=
  let composed :=
    match fhandler with
    | None => climb fuel groups rg handler
    | Some composed => Some composed
    end in
  match composed with
  | None => None
  | Some fhandler => Some (fhandler, Execute Sprint m fhandler rw r cont out)
  end.
End methods.
End Older.

(* ===================================================================== *)
(** ** Vocabulary of the statements *)
(* ===================================================================== *)

Section runs.
Context {RW : Type} `{!http.ResponseWriter RW}.

(** Successive [Write] calls on the wrapper, with what each call returned. *)
Fixpoint Response_writes (bs : list (list byte)) (w : Response.t RW)
  : Response.t RW * list (Z * option error) :=
  match bs with
  | [] => (w, [])
  | b :: bs' =>
      let '(w, res) := Response.Write b w in
      let '(w, ress) := Response_writes bs' w in
      (w, res :: ress)
  end.

(** The same slices written to the sink itself. *)
Fixpoint sink_writes (bs : list (list byte)) (rw : RW)
  : RW * list (Z * option error) :=
  match bs with
  | [] => (rw, [])
  | b :: bs' =>
      let '(rw, res) := http.rw_Write b rw in
      let '(rw, ress) := sink_writes bs' rw in
      (rw, res :: ress)
  end.

(** The cached query, when there is one, is the query of the request. *)
Definition query_cache_ok (c : Context.t RW) : Prop :=
  Context.query c = None \/
  Context.query c = Some (http.URL_Query (Context.Request c)).

(** A route group is set up from the root by [Use] and [Group] calls. *)
Inductive setup (A : Type) : Type :=
  | DoUse (mws : list A)
  | DoGroup (prefix : string) (mws : list A).
Arguments DoUse {A}.
Arguments DoGroup {A}.

Definition setup_mws {A} (s : setup A) : list A :=
  match s with DoUse mws => mws | DoGroup _ mws => mws end.

Definition setup_prefix {A} (s : setup A) : string :=
  match s with DoUse _ => "" | DoGroup prefix _ => prefix end.

(** The prefixes of the [Group] calls of [steps], one after the other. *)
Definition prefixes {A} (steps : list (setup A)) : string :=
  foldr (fun s acc => setup_prefix s ++ acc) "" steps.

Definition setup_map {A B} (f : A -> B) (s : setup A) : setup B :=
  match s with
  | DoUse mws => DoUse (map f mws)
  | DoGroup prefix mws => DoGroup prefix (map f mws)
  end.

Definition apply_setup (rg : RouteGroup.t RW) (s : setup (MiddlewareFunc RW))
  : RouteGroup.t RW :=
  match s with
  | DoUse mws => RouteGroup.Use mws rg
  | DoGroup prefix mws => RouteGroup.Group prefix mws rg
  end.

(** The group reached from [rg] by the calls [steps], the group of each
    [Group] call being the receiver of the calls after it. *)
Definition descend (steps : list (setup (MiddlewareFunc RW))) (rg : RouteGroup.t RW)
  : RouteGroup.t RW :=
  foldl apply_setup rg steps.

(** An observer is given by what it does before and after the call. *)
Definition observation : Type :=
  ((Context.t RW -> Context.t RW) * (Context.t RW -> Context.t RW))%type.

Definition observe (o : observation) : MiddlewareFunc RW :=
  observer (fst o) (snd o).

(** What the observers [obs], entered in this order around [handler], do. *)
Definition observed (obs : list observation) (handler : Handler RW) : Handler RW :=
  fun c out =>
    match handler (foldl (fun c o => fst o c) c obs) out with
    | (c, out, Return err) => (foldr (fun o c => snd o c) c obs, out, Return err)
    | (c, out, Panic v) => (c, out, Panic v)
    end.
End runs.

(** A recovered value as the cause of an error: a value that is an error is
    the cause itself, any other value is an error that carries its text. *)
Definition panic_cause (v : panicval) : error :=
  match v with
  | PanicError e => e
  | PanicValue shown => ErrorString shown
  end.

(** The recovered value is the abort signal of the transport layer, or an
    error that wraps it. A value that is no error is neither. *)
Definition is_abort (v : panicval) : bool :=
  match v with
  | PanicError e => errors_Is_ErrAbortHandler e
  | PanicValue _ => false
  end.

(** The type assertion [e, ok := err.(T)], with [T] the pointer to
    [HTTPError], which the first generation of the error handler used: it
    looks at [err] itself and not at what [err] wraps. *)
Definition is_HTTPError (err : error) : bool :=
  match err with
  | EHTTP _ _ _ _ => true
  | _ => false
  end.

(** The structured error a plain error is turned into. *)
Definition coerced (err : error) : HTTPError :=
  {| Code := 500; Message := "Internal Server Error"; Internal := Some err;
     Stack := "" |}.

(** The public payload of an error: [{"code": <status>, "message": <message>}]. *)
Definition public_payload (e : HTTPError) : json.value :=
  json.Object [("code", json.Int (Code e)); ("message", json.Str (Message e))].

(** The request accepts JSON, as the error handler tests it. *)
Definition accepts_json (r : http.Request) : bool :=
  strings_Contains (http.Header_Get "Accept" (http.ReqHeader r)) "application/json".

(** The forwarded counts of a run of writes, added up. *)
Definition forwarded (results : list (Z * option error)) : Z :=
  foldr Z.add 0 (map fst results).

(** The values the pieces of the raw query [raw] give for the key [name], in
    the order of the pieces. *)
Definition values_of (name raw : string) : list string :=
  omap (fun piece =>
          match url.pair_of piece with
          | Some (k, v) => if String.eqb k name then Some v else None
          | None => None
          end) (url.split "&" raw).

(** Concrete requests and contexts for running the code. *)
Module Examples.
Definition base : slog.Logger := slog.mkLogger [].

(** [httptest.NewRequest("GET", "/?" + rawquery, nil)] with the given
    [Accept] header, if any. *)
Definition get (rawquery accept : string) : http.Request :=
  {| http.Method := "GET"; http.URL_Path := "/";
     http.URL_RawQuery := rawquery;
     http.ReqHeader := if String.eqb accept "" then ∅
                       else http.Header_Set "Accept" accept ∅;
     http.Body := []; http.Ctx := context.Background |}.

(** [httptest.NewRequest("POST", "/", strings.NewReader(body))] *)
Definition post (body : string) : http.Request :=
  {| http.Method := "POST"; http.URL_Path := "/"; http.URL_RawQuery := "";
     http.ReqHeader := http.Header_Set "Content-Type" "application/json" ∅;
     http.Body := bytes body; http.Ctx := context.Background |}.

(** A context bound to [r] and a new recorder, as [Execute] hands it to the
    handler. *)
Definition serving (r : http.Request) : Context.t Recorder.t :=
  Context.Reset r Recorder.NewRecorder base None.

(** The recorder under a context. *)
Definition recorder (c : Context.t Recorder.t) : Recorder.t :=
  Response.ResponseWriter (Context.Response c).

(** A quoted JSON string. *)
Definition q (s : string) : string :=
  String dquote (s ++ String dquote EmptyString).

Definition newline : string := String (ascii_of_N 10) EmptyString.

Definition engine : Mig.t Recorder.t := Mig.New base.

(** The route of the package's panic test behind a request-ID middleware:
    the identifier is set, then the handler panics with a string. *)
Definition boom : Handler Recorder.t :=
  fun c out => (Context.SetRequestID "abc" c, out, Panic (PanicValue "oh no, a panic!")).

(** A handler that aborts the connection: it panics with an error that
    wraps [http.ErrAbortHandler]. *)
Definition abort : Handler Recorder.t :=
  fun c out => (c, out, Panic (PanicError (WrapError "client gone" ErrAbortHandler))).

(** An error handler that must not be called: it writes to the response and
    panics. *)
Definition tripwire : HTTPErrorHandler Recorder.t :=
  fun _ c out => (emit "error handler ran" c, out, Some (PanicValue "tripwire")).

(** An error handler of an application that answers structured errors like
    the default handler and panics on any other error. *)
Definition fragile : HTTPErrorHandler Recorder.t :=
  fun err c out =>
    if is_HTTPError err then Mig.DefaultErrorHandler engine err c out
    else (c, out, Some (PanicValue "fragile: not an HTTPError")).

(** A handler that returns a plain error, and one that panics with the 404
    of the package after setting nothing. *)
Definition failing : Handler Recorder.t :=
  fun c out => (c, out, Return (Some (ErrorString "database is down"))).

Definition panic_404 : Handler Recorder.t :=
  fun c out => (c, out, Panic (PanicError (as_error (NewHTTPError 404)))).

Definition return_404 : Handler Recorder.t :=
  fun c out => (c, out, Return (Some (as_error (NewHTTPError 404)))).

(** [req.SetBasicAuth(user, password)] on a GET request, given the base64
    text of [user:password]. *)
Definition with_auth (encoded : string) : http.Request :=
  {| http.Method := "GET"; http.URL_Path := "/protected"; http.URL_RawQuery := "";
     http.ReqHeader := http.Header_Set "Authorization" ("Basic " ++ encoded) ∅;
     http.Body := []; http.Ctx := context.Background |}.

(** The configuration of the package's authentication test. *)
Definition authConfig : middleware.BasicAuthConfig :=
  {| middleware.IsAllowed :=
       Some (fun user password =>
               String.eqb user "mig" && String.eqb password "secret");
     middleware.Realm := "Test Realm" |}.

(** A GET request that carries the header [X-Request-ID]. *)
Definition with_id (id : string) : http.Request :=
  {| http.Method := "GET"; http.URL_Path := "/"; http.URL_RawQuery := "";
     http.ReqHeader := http.Header_Set "X-Request-ID" id ∅;
     http.Body := []; http.Ctx := context.Background |}.
End Examples.

(** *** Vocabulary of the further statements *)

Section more_runs.
Context {RW : Type} `{!http.ResponseWriter RW}.

(** Successive [WriteHeader] calls on the wrapper, and on the sink itself. *)
Definition Response_headers (codes : list Z) (w : Response.t RW) : Response.t RW :=
  foldl (fun w code => Response.WriteHeader code w) w codes.

Definition sink_headers (codes : list Z) (rw : RW) : RW :=
  foldl (fun rw code => http.rw_WriteHeader code rw) rw codes.

(** The structured error the default handler works with: the [HTTPError]
    that [errors.As] finds, or the 500 made of the error. *)
Definition structured (err : error) : HTTPError :=
  default (coerced err) (errors_As_HTTPError err).

(** A handler that answers with [c.JSON(out)]. *)
Definition respond_JSON {T : Type} `{!json.Marshalable T} (out : T) : Handler RW :=
  fun c log => let '(c, err) := Context.JSON out c in (c, log, Return err).

(** The identifier the [RequestID] middleware settles on. *)
Definition chosen_id (random : option (list byte)) (c : Context.t RW) : string :=
  let incoming := http.Header_Get Context.RequestIDHeader
                    (http.ReqHeader (Context.Request c)) in
  if String.eqb incoming "" then
    match random with
    | Some b => hex.EncodeToString b
    | None => ""
    end
  else incoming.

(** The credentials of the request pass [isAllowed]. *)
Definition granted (isAllowed : string -> string -> bool) (r : http.Request) : bool :=
  match http.BasicAuth r with
  | Some (u, p) => isAllowed u p
  | None => false
  end.

(** The record [RequestLogger] writes for a context, through the logger [l]. *)
Definition request_record (l : slog.Logger) (elapsed : Z) (c : Context.t RW)
  : slog.Record_ :=
  {| slog.level := slog.LevelInfo; slog.msg := "request";
     slog.attrs :=
       (slog.scoped l ++
        [("method", slog.String (http.Method (Context.Request c)));
         ("path", slog.String (http.URL_Path (Context.Request c)));
         ("status", slog.Int (Response.Status (Context.Response c)));
         ("bytes", slog.Int (Response.Written (Context.Response c)));
         ("t", slog.Int elapsed)])%list |}.
End more_runs.

(** *** Vocabulary of the statements on the first generation *)

Section older_runs.
Context {RW : Type} `{!http.ResponseWriter RW}.

(** Every parent pointer of the store points to a group made earlier. *)
Definition parents_before (groups : Older.Groups RW) : Prop :=
  forall i g p, groups !! i = Some g -> Older.ParentRouter g = Some p -> (p < i)%nat.

(** The error the deferred function of the older [Execute] works with. *)
Definition older_recovered (Sprint : http.Request -> string) (r : http.Request)
    (rec : panicval) : error :=
  match rec with
  | PanicError e => e
  | PanicValue _ => ErrorString (Sprint r)
  end.

(** The store and the group reached by [Use] and [Group] calls, each made
    on the group the call before it left; [Group] of this generation takes no
    prefix. *)
Definition older_descend (steps : list (setup (Older.MiddlewareFunc RW)))
    (start : Older.Groups RW * nat) : Older.Groups RW * nat :=
  foldl (fun st s =>
           match s with
           | @DoUse _ mws => (Older.Use mws st.2 st.1, st.2)
           | @DoGroup _ _ mws => Older.Group mws st.2 st.1
           end) start steps.

(** The middleware [mws], the first of them outermost, around [h]. *)
Definition around (mws : list (Older.MiddlewareFunc RW)) (h : Older.Handler RW)
  : Older.Handler RW :=
  foldr (fun mw h => mw h) h mws.
End older_runs.

Module OlderExamples.
(** A stand-in for the text [fmt] prints for a request. *)
Definition Sprint (r : http.Request) : string :=
  "&{" ++ http.Method r ++ " " ++ http.URL_Path r ++ "}".

Definition engine : Older.Mig Recorder.t := Older.New Examples.base.

(** A handler that keeps the user of the request in the context. *)
Definition remember (user : string) : Older.Handler Recorder.t :=
  fun c out => (Older.Put "user" (context.AnyString user) c, out, Return None).

(** A handler that writes a part of the answer and then aborts. *)
Definition abort : Older.Handler Recorder.t :=
  fun c out =>
    (Older.with_ResponseWriter (Recorder.Write (bytes "partial") (Older.ResponseWriter c)).1 c,
     out, Panic (PanicError (WrapError "client gone" ErrAbortHandler))).

Definition boom : Older.Handler Recorder.t :=
  fun c out => (c, out, Panic (PanicValue "oh no, a panic!")).

(** A middleware that marks the answer with a header of its name. *)
Definition tag (name : string) : Older.MiddlewareFunc Recorder.t :=
  fun next c out =>
    next (Older.with_ResponseWriter
            (http.SetHeader "X-Order"
               (http.Header_Get "X-Order" (http.rw_Header (Older.ResponseWriter c)) ++ name)
               (Older.ResponseWriter c)) c) out.

Definition final : Older.Handler Recorder.t :=
  fun c out => (c, out, Return None).
End OlderExamples.

(** The first code of the list that is not zero, or zero. *)
Fixpoint first_nonzero (codes : list Z) : Z :=
  match codes with
  | [] => 0
  | code :: rest => if code =? 0 then first_nonzero rest else code
  end.

(** The pattern [Handle] builds from a method, the prefix of the group and a
    path. *)
Definition route_pattern (method prefix path : string) : string :=
  if String.eqb method "" then prefix ++ path
  else method ++ " " ++ prefix ++ path.

(* ===================================================================== *)
(** * Properties *)
(* ===================================================================== *)

(** ** Strings *)

Lemma append_nil_r (s : string) : s ++ "" = s.
Proof.
  induction s as [|ch s IH]; [reflexivity|].
  change (String ch (s ++ "") = String ch s). by rewrite IH.
Qed.

Lemma append_assoc (s1 s2 s3 : string) : (s1 ++ s2) ++ s3 = s1 ++ (s2 ++ s3).
Proof.
  induction s1 as [|ch s1 IH]; [reflexivity|].
  change (String ch ((s1 ++ s2) ++ s3) = String ch (s1 ++ (s2 ++ s3))).
  by rewrite IH.
Qed.

(** ** Response wrapper *)

Lemma int_wrap_idem_add (a b : Z) : int_wrap (int_wrap a + b) = int_wrap (a + b).
Proof.
  unfold int_wrap.
  replace ((a + 2 ^ 63) mod 2 ^ 64 - 2 ^ 63 + b + 2 ^ 63)
    with ((a + 2 ^ 63) mod 2 ^ 64 + b) by lia.
  rewrite Zplus_mod_idemp_l. f_equal. f_equal. lia.
Qed.

Lemma int_wrap_small (z : Z) : - 2 ^ 63 <= z < 2 ^ 63 -> int_wrap z = z.
Proof.
  intros Hz. unfold int_wrap. rewrite Z.mod_small; lia.
Qed.

Section response_facts.
Context {RW : Type} `{!http.ResponseWriter RW}.

(** Once a status is recorded, a run of writes leaves it alone, hands every
    slice to the sink, and adds the sink's counts to the total. *)
Lemma Response_writes_recorded (b : list byte) (bs : list (list byte))
    (rw : RW) (st wr : Z) :
  st <> 0 ->
  Response_writes (b :: bs) (Response.mk rw st wr) =
  (Response.mk (sink_writes (b :: bs) rw).1 st
     (int_wrap (wr + forwarded (sink_writes (b :: bs) rw).2)),
   (sink_writes (b :: bs) rw).2).
Proof.
  intros Hst. revert b rw wr.
  induction bs as [|b' bs IH]; intros b rw wr.
  - cbn. unfold Response.Write. cbn.
    destruct (Z.eqb_spec st 0) as [|_]; [done|]. cbn.
    destruct (http.rw_Write b rw) as [rw1 [n err]]. cbn.
    unfold forwarded. cbn. do 3 f_equal. lia.
  - specialize (IH b'). remember (b' :: bs) as rest eqn:Hrest.
    cbn [Response_writes sink_writes].
    unfold Response.Write at 1. cbn.
    destruct (Z.eqb_spec st 0) as [|_]; [done|]. cbn.
    destruct (http.rw_Write b rw) as [rw1 [n err]]. cbn.
    rewrite IH.
    destruct (sink_writes rest rw1) as [rw2 ress]. cbn.
    unfold forwarded. cbn. do 2 f_equal.
    rewrite int_wrap_idem_add. f_equal. lia.
Qed.

(** C8. On a freshly reset response, writes made before any explicit
    [WriteHeader] first record the status 200 and forward it to the sink;
    every [Write] returns the count and the error of the sink unchanged;
    afterwards [Status()] is 200 and [Written()] is the sum of the counts the
    sink reported, whatever the lengths of the slices were. The counts are Go
    ints, so their sum is taken to fit one. *)
Theorem Write_before_WriteHeader (r : http.Request) (rw : RW)
    (lg : slog.Logger) (prev : option (Context.t RW))
    (b : list byte) (bs : list (list byte)) :
  let fresh := Context.Response (Context.Reset r rw lg prev) in
  let sink := sink_writes (b :: bs) (http.rw_WriteHeader http.StatusOK rw) in
  let after := Response_writes (b :: bs) fresh in
  - 2 ^ 63 <= forwarded sink.2 < 2 ^ 63 ->
  after.2 = sink.2 /\
  Response.ResponseWriter after.1 = sink.1 /\
  Response.Status after.1 = 200 /\
  Response.Written after.1 = forwarded sink.2.
Proof.
  cbv zeta. intros Hfit.
  set (sink := sink_writes (b :: bs) (http.rw_WriteHeader http.StatusOK rw)) in *.
  assert (Hrun : Response_writes (b :: bs)
                   (Context.Response (Context.Reset r rw lg prev)) =
                 (Response.mk sink.1 200 (int_wrap (forwarded sink.2)), sink.2)).
  { destruct bs as [|b' bs].
    - subst sink. destruct prev; cbn; unfold Response.Write; cbn;
        destruct (http.rw_Write b _) as [rw1 [n err]]; cbn;
        unfold forwarded; cbn; do 3 f_equal; lia.
    - remember (b' :: bs) as rest eqn:Hrest.
      subst sink. cbn [sink_writes Response_writes].
      destruct (http.rw_Write b _) as [rw1 [n err]] eqn:Hw.
      assert (Hfirst : Response.Write b
                         (Context.Response (Context.Reset r rw lg prev)) =
                       (Response.mk rw1 200 (int_wrap n), (n, err))).
      { destruct prev; cbn; unfold Response.Write; cbn; rewrite Hw; done. }
      rewrite Hfirst. subst rest.
      rewrite Response_writes_recorded by done.
      destruct (sink_writes (b' :: bs) rw1) as [rw2 ress]. cbn.
      unfold forwarded. cbn. do 2 f_equal.
      rewrite int_wrap_idem_add. done. }
  rewrite Hrun. cbn. repeat split.
  apply int_wrap_small, Hfit.
Qed.
End response_facts.

(** A sink with room for three bytes takes "hel" of "hello" and nothing of
    "!": the writer is told 3 and 0, and [Written()] is 3, not 6. *)
Lemma Write_before_WriteHeader_witness :
  let rw := ShortWriter.mk 3 [] [] ∅ in
  let r := http.mkRequest "GET" "/" "" ∅ [] [] in
  let after := Response_writes [bytes "hello"; bytes "!"]
                 (Context.Response (Context.Reset r rw (slog.mkLogger []) None)) in
  after.2 = [(3, Some (ErrorString "short write"));
             (0, Some (ErrorString "short write"))] /\
  ShortWriter.codes (Response.ResponseWriter after.1) = [200] /\
  Response.Status after.1 = 200 /\
  Response.Written after.1 = 3.
Proof.
  pose proof (Write_before_WriteHeader
                (http.mkRequest "GET" "/" "" ∅ [] [])
                (ShortWriter.mk 3 [] [] ∅) (slog.mkLogger []) None
                (bytes "hello") [bytes "!"]) as H.
  cbv zeta in H. cbv zeta.
  destruct H as (H1 & H2 & H3 & H4);
    [split; vm_compute; [discriminate | reflexivity]|].
  rewrite H1, H2, H3, H4. vm_compute. repeat split; reflexivity.
Defined.

(** ** Request context *)

Section context_facts.
Context {RW : Type} `{!http.ResponseWriter RW}.

(** C9. Whatever an earlier request left in a pooled context, [Reset] binds
    the new request and the new sink, zeroes the status and the written
    counter, drops the cached query and puts the engine's base logger back.
    The context the next handler gets, and so the whole of [Execute], does
    not depend on the context the pool handed out. *)
Theorem Reset_erases_previous_request (m : Mig.t RW) (r : http.Request)
    (rw : RW) (prev : option (Context.t RW)) :
  let c := Context.Reset r rw (Mig.Logger m) prev in
  Context.Request c = r /\
  Response.ResponseWriter (Context.Response c) = rw /\
  Response.status (Context.Response c) = 0 /\
  Response.written (Context.Response c) = 0 /\
  Context.query c = None /\
  Context.Logger c = Some (Mig.Logger m) /\
  Context.RequestID c = Context.RequestIDFromContext (http.Ctx r) /\
  (forall prev', Context.Reset r rw (Mig.Logger m) prev' = c) /\
  (forall prev' handler stack out,
      Mig.Execute m handler rw r prev' stack out =
      Mig.Execute m handler rw r prev stack out).
Proof.
  cbv zeta.
  assert (Hsame : forall p p',
            Context.Reset r rw (Mig.Logger m) p =
            Context.Reset r rw (Mig.Logger m) p').
  { intros [p|] [p'|]; reflexivity. }
  repeat split; try (destruct prev; reflexivity).
  - intros prev'. apply Hsame.
  - intros prev' handler stack out. unfold Mig.Execute.
    by rewrite (Hsame prev' prev).
Qed.

(** C10, as the code has it. [SetRequestID] with the empty string returns at
    once: the context is left as it was, so no response header is set, the
    request and its context are the same, the logger is the same, and
    [RequestID()] returns what it returned before the call. *)
Theorem SetRequestID_empty_noop (c : Context.t RW) :
  Context.SetRequestID "" c = c /\
  Response.Header (Context.Response (Context.SetRequestID "" c)) =
    Response.Header (Context.Response c) /\
  Context.Request (Context.SetRequestID "" c) = Context.Request c /\
  Context.Logger (Context.SetRequestID "" c) = Context.Logger c /\
  Context.RequestID (Context.SetRequestID "" c) = Context.RequestID c.
Proof. repeat split. Qed.
End context_facts.

(** C10, as the claim has it, fails on a context that already carries an
    identifier: after [SetRequestID("abc")], a call with the empty string
    leaves "abc" in place and [RequestID()] is not the empty string. *)
Lemma SetRequestID_empty_keeps_earlier_id :
  Context.RequestID
    (Context.SetRequestID ""
       (Context.SetRequestID "abc" (Examples.serving (Examples.get "" "")))) = "abc"
  /\ Context.RequestID
       (Context.SetRequestID ""
          (Context.SetRequestID "abc" (Examples.serving (Examples.get "" "")))) <> "".
Proof. split; [reflexivity | discriminate]. Qed.

(** A pooled context that served a request with the identifier "abc" and is
    handed to the next request: the handler of that request sees the base
    logger and no identifier. *)
Lemma pool_reuse_example :
  let first := Context.SetRequestID "abc" (Examples.serving (Examples.get "" "")) in
  let second := Context.Reset (Examples.get "x=1" "") Recorder.NewRecorder
                  Examples.base (Some first) in
  Context.Logger first = Some (slog.mkLogger [("id", slog.String "abc")]) /\
  Context.RequestID first = "abc" /\
  Context.Logger second = Some Examples.base /\
  Context.RequestID second = "".
Proof. repeat split. Qed.

(** *** Query parameters *)

(** What [url.ParseQuery] stores under a key: the values of the pieces that
    carry the key, in their order; a key no piece carries is not in the map. *)
Lemma foldl_add_pair_lookup (pieces : list string) (m : url.Values) (name : string) :
  foldl url.add_pair m pieces !! name =
  match omap (fun piece =>
                match url.pair_of piece with
                | Some (k, v) => if String.eqb k name then Some v else None
                | None => None
                end) pieces with
  | [] => m !! name
  | vs => Some (default [] (m !! name) ++ vs)%list
  end.
Proof.
  revert m. induction pieces as [|piece pieces IH]; intros m; [done|].
  cbn [foldl omap list_omap]. rewrite IH. unfold url.add_pair.
  destruct (url.pair_of piece) as [[k v]|]; [|done].
  destruct (String.eqb_spec k name) as [->|Hne].
  - rewrite lookup_insert_eq. cbn.
    destruct (omap _ pieces); cbn; [done|].
    by rewrite <- app_assoc.
  - rewrite lookup_insert_ne by done. done.
Qed.

Lemma ParseQuery_lookup (raw name : string) :
  url.ParseQuery raw !! name =
  match values_of name raw with
  | [] => None
  | vs => Some vs
  end.
Proof.
  unfold url.ParseQuery, values_of. rewrite foldl_add_pair_lookup.
  rewrite lookup_empty. done.
Qed.

Section query_facts.
Context {RW : Type} `{!http.ResponseWriter RW}.

Lemma load_query_ok (c : Context.t RW) :
  query_cache_ok c ->
  (Context.load_query c).2 = http.URL_Query (Context.Request c) /\
  Context.query (Context.load_query c).1 =
    Some (http.URL_Query (Context.Request c)) /\
  Context.Request (Context.load_query c).1 = Context.Request c /\
  Context.Response (Context.load_query c).1 = Context.Response c /\
  Context.Logger (Context.load_query c).1 = Context.Logger c.
Proof.
  unfold Context.load_query. intros [Hq|Hq]; rewrite Hq; cbn; by repeat split.
Qed.

(** C3. Let [vs] be the values the query string of the request gives for
    [name]. [QueryParam(name, def)] returns the first of them when the key is
    there, which is the empty string for [?name=], and [def] when the key is
    not there; [HasQueryParam(name)] tells whether the key is there. Both
    leave the parsed query cached and the rest of the context alone. *)
Theorem QueryParam_presence (c : Context.t RW) (name def : string) :
  query_cache_ok c ->
  let vs := values_of name (http.URL_RawQuery (Context.Request c)) in
  (Context.QueryParam name def c).2 =
    match vs with v :: _ => v | [] => def end /\
  (Context.HasQueryParam name c).2 = bool_decide (vs <> []) /\
  query_cache_ok (Context.QueryParam name def c).1 /\
  query_cache_ok (Context.HasQueryParam name c).1 /\
  Context.Request (Context.QueryParam name def c).1 = Context.Request c /\
  Context.Response (Context.QueryParam name def c).1 = Context.Response c.
Proof.
  intros Hok. cbv zeta.
  destruct (load_query_ok c Hok) as (Hq & Hcache & Hreq & Hresp & _).
  unfold Context.QueryParam, Context.HasQueryParam.
  destruct (Context.load_query c) as [c' q]. cbn in Hq, Hcache, Hreq, Hresp.
  subst q. unfold http.URL_Query. rewrite ParseQuery_lookup.
  assert (Hok' : query_cache_ok c').
  { right. by rewrite Hcache, Hreq. }
  destruct (values_of name _) as [|v vs]; cbn; repeat split; done.
Qed.
End query_facts.

(** On [?x=] the parameter [x] is there and empty; on a query without [x] the
    default comes back. *)
Lemma QueryParam_presence_witness :
  (Context.QueryParam "x" "d" (Examples.serving (Examples.get "x=" ""))).2 = ""
  /\ (Context.QueryParam "x" "d" (Examples.serving (Examples.get "name=mig" ""))).2 = "d"
  /\ (Context.HasQueryParam "x" (Examples.serving (Examples.get "x=" ""))).2 = true
  /\ (Context.HasQueryParam "x" (Examples.serving (Examples.get "name=mig" ""))).2 = false.
Proof.
  pose proof (QueryParam_presence (Examples.serving (Examples.get "x=" ""))
                "x" "d" (or_introl eq_refl)) as (H1 & H2 & _).
  pose proof (QueryParam_presence (Examples.serving (Examples.get "name=mig" ""))
                "x" "d" (or_introl eq_refl)) as (H3 & H4 & _).
  rewrite H1, H2, H3, H4. vm_compute. repeat split; reflexivity.
Defined.

(** The query of the package's test, [/test?name=mig&version=1], and a key
    given twice. *)
Lemma QueryParam_examples :
  (Context.QueryParam "name" "default"
     (Examples.serving (Examples.get "name=mig&version=1" ""))).2 = "mig"
  /\ (Context.QueryParam "author" "unknown"
        (Examples.serving (Examples.get "name=mig&version=1" ""))).2 = "unknown"
  /\ (Context.QueryParam "k" "d"
        (Examples.serving (Examples.get "k=a+b&k=second&k=" ""))).2 = "a b".
Proof. vm_compute. repeat split; reflexivity. Qed.

(** *** Binding JSON *)

Section bind_facts.
Context {RW : Type} `{!http.ResponseWriter RW}.
Context {T : Type} `{!json.Decodable T}.

(** C4. [BindJSON] runs the decoder on the request body with unknown fields
    disallowed. When the decoder reports an error, whatever its kind,
    [BindJSON] returns an [HTTPError] with the status 400, the text of that
    status as message, and the decoder's error as its internal cause, which
    [Unwrap] gives back. When the decoder reports none, [BindJSON] returns
    [nil]. Either way the target is as the decoder left it. *)
Theorem BindJSON_strict_400 (c : Context.t RW) (out : T) :
  let decoded := json.decode true (http.Body (Context.Request c)) out in
  let bound := Context.BindJSON out c in
  bound.1.2 = decoded.1.1 /\
  http.Body (Context.Request bound.1.1) = decoded.1.2 /\
  match decoded.2 with
  | Some derr =>
      bound.2 = Some (as_error {| Code := 400; Message := "Bad Request";
                                  Internal := Some derr; Stack := "" |}) /\
      (exists err, bound.2 = Some err /\ Unwrap err = Some derr /\
                   Code <$> errors_As_HTTPError err = Some http.StatusBadRequest)
  | None => bound.2 = None
  end.
Proof.
  cbv zeta. unfold Context.BindJSON.
  destruct (json.decode true _ out) as [[out' rest] [derr|]]; cbn.
  - repeat split. eexists. repeat split.
  - repeat split.
Qed.
End bind_facts.

(** The five bodies of the package's bind test, decoded into a [TestUser]: the
    matching payload fills the target and binds without error; a trailing
    comma, an unknown field, a string for the integer field and the empty body
    each give a 400 that wraps the decoder's error. *)
Lemma BindJSON_examples :
  let bind body := Context.BindJSON (TestUser.mk "" 0)
                     (Examples.serving (Examples.post body)) in
  let status (r : Context.t Recorder.t * TestUser.t * option error) :=
    Code <$> (r.2 ≫= errors_As_HTTPError) in
  let good := ("{" ++ Examples.q "name" ++ ": " ++ Examples.q "John Doe" ++ ", "
                   ++ Examples.q "age" ++ ": 30") in
  (bind (good ++ "}")).2 = None /\
  (bind (good ++ "}")).1.2 = TestUser.mk "John Doe" 30 /\
  status (bind (good ++ ",}")) = Some 400 /\
  status (bind (good ++ ", " ++ Examples.q "email" ++ ": " ++ Examples.q "j@d.com" ++ "}"))
    = Some 400 /\
  status (bind ("{" ++ Examples.q "name" ++ ": " ++ Examples.q "John Doe" ++ ", "
                    ++ Examples.q "age" ++ ": " ++ Examples.q "thirty" ++ "}"))
    = Some 400 /\
  status (bind "") = Some 400 /\
  (bind "").2 ≫= Unwrap = Some (ErrorString "EOF").
Proof. vm_compute. repeat split; reflexivity. Qed.

(** ** The default error handler *)

Lemma errors_As_as_error (e : HTTPError) : errors_As_HTTPError (as_error e) = Some e.
Proof. by destruct e. Qed.

Section handler_facts.
Context {RW : Type} `{!http.ResponseWriter RW} `{!json.Marshaler}.

(** The handler always returns, and it logs one record at the error level. *)
Lemma DefaultErrorHandler_returns (m : Mig.t RW) (err : error)
    (ctx : Context.t RW) (out : slog.Output) :
  (Mig.DefaultErrorHandler m err ctx out).2 = None /\
  exists rec, (Mig.DefaultErrorHandler m err ctx out).1.2 = (out ++ [rec])%list /\
              slog.level rec = slog.LevelError.
Proof.
  unfold Mig.DefaultErrorHandler.
  destruct (errors_As_HTTPError err) as [e|]; cbn [Stack Code Message Internal];
    repeat match goal with
           | |- context [if ?b then _ else _] => destruct b
           | |- context [let '(_, _) := ?x in _] => destruct x
           end; cbn; (split; [done|]); eexists; (split; [reflexivity|done]).
Qed.

(** C5. When bytes have already been written through the response, the
    handler logs its record and returns: the context, and with it the sink,
    the recorded status and the written count, is what it was. *)
Theorem DefaultErrorHandler_after_write (m : Mig.t RW) (err : error)
    (ctx : Context.t RW) (out : slog.Output) :
  0 < Response.Written (Context.Response ctx) ->
  let res := Mig.DefaultErrorHandler m err ctx out in
  res.1.1 = ctx /\
  Response.ResponseWriter (Context.Response res.1.1) =
    Response.ResponseWriter (Context.Response ctx) /\
  Response.status (Context.Response res.1.1) = Response.status (Context.Response ctx) /\
  Response.Written (Context.Response res.1.1) = Response.Written (Context.Response ctx) /\
  res.2 = None /\
  exists rec, res.1.2 = (out ++ [rec])%list /\ slog.level rec = slog.LevelError.
Proof.
  intros Hwritten. cbv zeta.
  destruct (DefaultErrorHandler_returns m err ctx out) as [Hret Hlog].
  assert (Hctx : (Mig.DefaultErrorHandler m err ctx out).1.1 = ctx).
  { unfold Mig.DefaultErrorHandler.
    apply Z.ltb_lt in Hwritten. rewrite Hwritten.
    by destruct (negb _). }
  rewrite Hctx. repeat split; done.
Qed.

(** C6, as the code has it. An error that neither is nor wraps an [HTTPError]
    is handled exactly as the structured error with the status 500, the text of
    that status as message and the error as internal cause: the same record is
    logged and the same response is written. The record carries the code 500
    and the error. *)
Theorem DefaultErrorHandler_coerces (m : Mig.t RW) (err : error)
    (ctx : Context.t RW) (out : slog.Output) :
  errors_As_HTTPError err = None ->
  Mig.DefaultErrorHandler m err ctx out =
    Mig.DefaultErrorHandler m (as_error (coerced err)) ctx out /\
  (Mig.DefaultErrorHandler m err ctx out).1.2 =
    slog.Error (Mig.Logger m) "request error"
      [("id", slog.String (Context.RequestID ctx));
       ("code", slog.Int http.StatusInternalServerError);
       ("error", slog.Any (Some err))] out /\
  Message (coerced err) = http.StatusText http.StatusInternalServerError.
Proof.
  intros Hplain. split; [|split; [|done]].
  - unfold Mig.DefaultErrorHandler at 1 2.
    rewrite errors_As_as_error, Hplain. reflexivity.
  - unfold Mig.DefaultErrorHandler. rewrite Hplain. cbn [Stack Code Message Internal].
    cbn [String.eqb negb].
    repeat match goal with
           | |- context [if ?b then _ else _] => destruct b
           | |- context [let '(_, _) := ?x in _] => destruct x
           end; reflexivity.
Qed.
End handler_facts.

(** A handler wrote "partial" and then failed: the recorder keeps the status
    200 and the seven bytes, and the error is only logged. *)
Lemma DefaultErrorHandler_after_write_witness :
  let ctx := emit "partial" (Examples.serving (Examples.get "" "application/json")) in
  let res := Mig.DefaultErrorHandler Examples.engine (ErrorString "late") ctx [] in
  0 < Response.Written (Context.Response ctx) /\
  res.1.1 = ctx /\
  Recorder.Code (Examples.recorder res.1.1) = 200 /\
  Recorder.BodyString (Examples.recorder res.1.1) = "partial" /\
  length res.1.2 = 1%nat.
Proof.
  cbv zeta.
  assert (Hw : 0 < Response.Written
                     (Context.Response
                        (emit "partial"
                           (Examples.serving (Examples.get "" "application/json")))))
    by (vm_compute; reflexivity).
  destruct (DefaultErrorHandler_after_write Examples.engine (ErrorString "late")
              _ [] Hw) as (Hctx & _ & _ & _ & _ & rec & Hlog & _).
  split; [exact Hw|]. rewrite Hctx, Hlog.
  repeat split; vm_compute; reflexivity.
Defined.

(** A plain error on a fresh response: status 500 and the text of the status,
    the error itself only in the log. *)
Lemma DefaultErrorHandler_coerces_witness :
  let ctx := Examples.serving (Examples.get "" "") in
  let res := Mig.DefaultErrorHandler Examples.engine (ErrorString "boom") ctx [] in
  errors_As_HTTPError (ErrorString "boom") = None /\
  res = Mig.DefaultErrorHandler Examples.engine
          (as_error (coerced (ErrorString "boom"))) ctx [] /\
  Recorder.Code (Examples.recorder res.1.1) = 500 /\
  Recorder.BodyString (Examples.recorder res.1.1) =
    "Internal Server Error" ++ Examples.newline.
Proof.
  cbv zeta.
  destruct (DefaultErrorHandler_coerces Examples.engine (ErrorString "boom")
              (Examples.serving (Examples.get "" "")) [] eq_refl) as (Heq & _ & _).
  split; [reflexivity|]. split; [exact Heq|].
  split; vm_compute; reflexivity.
Defined.

(** C6, as the claim has it, fails on an error that is not an [HTTPError]
    but wraps one, such as [fmt.Errorf("lookup user: %w", mig.ErrNotFound)]:
    [errors.As] finds the wrapped 404, and the handler logs and answers 404
    and not 500. *)
Lemma DefaultErrorHandler_wrapped_not_coerced :
  let err := WrapError "lookup user: Not Found" (as_error (NewHTTPError http.StatusNotFound)) in
  let ctx := Examples.serving (Examples.get "" "") in
  let res := Mig.DefaultErrorHandler Examples.engine err ctx [] in
  is_HTTPError err = false /\
  Recorder.Code (Examples.recorder res.1.1) = 404 /\
  Recorder.BodyString (Examples.recorder res.1.1) = "Not Found" ++ Examples.newline /\
  res <> Mig.DefaultErrorHandler Examples.engine (as_error (coerced err)) ctx [].
Proof.
  cbv zeta. split; [reflexivity|]. split; [vm_compute; reflexivity|].
  split; [vm_compute; reflexivity|].
  intros Heq.
  apply (f_equal (fun r => Recorder.Code (Examples.recorder r.1.1))) in Heq.
  vm_compute in Heq. discriminate Heq.
Qed.

Section payload_facts.
Context {RW : Type} `{!http.ResponseWriter RW} `{!json.Marshaler}.

(** What the handler does to the context is a function of the status code and
    the message of the error; the internal cause and the stack reach the log
    only. *)
Lemma DefaultErrorHandler_hides_internal (m : Mig.t RW) (e1 e2 : HTTPError)
    (ctx : Context.t RW) (out : slog.Output) :
  Code e1 = Code e2 -> Message e1 = Message e2 ->
  (Mig.DefaultErrorHandler m (as_error e1) ctx out).1.1 =
  (Mig.DefaultErrorHandler m (as_error e2) ctx out).1.1.
Proof.
  intros Hcode Hmsg. unfold Mig.DefaultErrorHandler.
  rewrite !errors_As_as_error, Hcode, Hmsg.
  repeat match goal with
         | |- context [if ?b then _ else _] => destruct b
         | |- context [let '(_, _) := ?x in _] => destruct x
         end; reflexivity.
Qed.

(** C7, as the code has it. Two structured errors with the same status code
    and message leave the same context, and so the same bytes, status and
    headers in the sink, whatever their internal causes and stacks are. When
    the request accepts JSON, nothing has been written yet and the status is
    neither 204 nor 304, the response gets the JSON content type, the status,
    and in one write the encoding of [{"code": <status>, "message": <message>}]
    followed by a newline; the request, the logger and the cached query are
    not touched. *)
Theorem DefaultErrorHandler_public_payload (m : Mig.t RW) (e1 e2 : HTTPError)
    (ctx : Context.t RW) (out : slog.Output) :
  Code e1 = Code e2 -> Message e1 = Message e2 ->
  let res1 := Mig.DefaultErrorHandler m (as_error e1) ctx out in
  let res2 := Mig.DefaultErrorHandler m (as_error e2) ctx out in
  res1.1.1 = res2.1.1 /\
  if accepts_json (Context.Request ctx)
     && (Response.Written (Context.Response ctx) <=? 0)
     && negb (Code e1 =? 204) && negb (Code e1 =? 304)
  then
    res1.1.1 =
      Context.with_Response
        (Response.Write
           (json.Marshal (public_payload e1) ++ bytes (String (ascii_of_N 10) EmptyString))
           (Response.WriteHeader (Code e1)
              (http.SetHeader "Content-Type" "application/json; charset=utf-8"
                 (Context.Response ctx)))).1
        ctx
  else True.
Proof.
  intros Hcode Hmsg. cbv zeta.
  split; [by apply DefaultErrorHandler_hides_internal|].
  destruct (accepts_json _) eqn:Hacc; [|done].
  destruct (Z.leb_spec (Response.Written (Context.Response ctx)) 0) as [Hw|]; [|done].
  destruct (Z.eqb_spec (Code e1) 204) as [|H204]; [done|].
  destruct (Z.eqb_spec (Code e1) 304) as [|H304]; [done|].
  cbn [andb negb].
  unfold Mig.DefaultErrorHandler. rewrite errors_As_as_error.
  assert (Hnot : (0 <? Response.Written (Context.Response ctx)) = false)
    by (apply Z.ltb_ge; exact Hw).
  rewrite Hnot.
  unfold http.StatusNoContent, http.StatusNotModified.
  destruct (Z.eqb_spec (Code e1) 204); [done|].
  destruct (Z.eqb_spec (Code e1) 304); [done|].
  cbn [orb]. unfold accepts_json in Hacc. rewrite Hacc.
  unfold json.Encode, public_payload. cbn [http.rw_Write Response_ResponseWriter].
  destruct (negb _);
    destruct (Response.Write _ _) as [w [cnt err]]; reflexivity.
Qed.
End payload_facts.

(** A panic-made 500 with a cause and a stack, and the bare 500: a client that
    accepts JSON reads the same object for both. *)
Lemma DefaultErrorHandler_public_payload_witness :
  let secret := {| Code := 500; Message := "Internal Server Error";
                   Internal := Some (ErrorString "password=hunter2");
                   Stack := "goroutine 1 [running]" |} in
  let ctx := Examples.serving (Examples.get "" "text/html, application/json") in
  let res1 := Mig.DefaultErrorHandler Examples.engine (as_error secret) ctx [] in
  let res2 := Mig.DefaultErrorHandler Examples.engine
                (as_error (NewHTTPError 500)) ctx [] in
  res1.1.1 = res2.1.1 /\
  Recorder.Code (Examples.recorder res1.1.1) = 500 /\
  Recorder.BodyString (Examples.recorder res1.1.1) =
    "{" ++ Examples.q "code" ++ ":500," ++ Examples.q "message" ++ ":"
        ++ Examples.q "Internal Server Error" ++ "}" ++ Examples.newline /\
  res1.1.2 <> res2.1.2.
Proof.
  cbv zeta.
  destruct (DefaultErrorHandler_public_payload Examples.engine
              {| Code := 500; Message := "Internal Server Error";
                 Internal := Some (ErrorString "password=hunter2");
                 Stack := "goroutine 1 [running]" |}
              (NewHTTPError 500)
              (Examples.serving (Examples.get "" "text/html, application/json")) []
              eq_refl eq_refl) as [Hsame Hjson].
  split; [exact Hsame|].
  split; [vm_compute; reflexivity|].
  split; [vm_compute; reflexivity|].
  intros Heq. vm_compute in Heq. discriminate Heq.
Defined.

(** C7, as the claim has it, fails for a status that forbids a body: a 204
    error on a request that accepts JSON sets the status and writes no
    payload at all. *)
Lemma DefaultErrorHandler_no_payload_for_204 :
  let e := NewHTTPError http.StatusNoContent in
  let ctx := Examples.serving (Examples.get "" "application/json") in
  let res := Mig.DefaultErrorHandler Examples.engine (as_error e) ctx [] in
  accepts_json (Context.Request ctx) = true /\
  Recorder.Code (Examples.recorder res.1.1) = 204 /\
  Recorder.Body (Examples.recorder res.1.1) = [] /\
  Recorder.Body (Examples.recorder res.1.1) <> json.Marshal (public_payload e).
Proof.
  cbv zeta. repeat split; try (vm_compute; reflexivity).
  intros Heq. vm_compute in Heq. discriminate Heq.
Qed.

(** ** The execution engine *)

Section engine_facts.
Context {RW : Type} `{!http.ResponseWriter RW} `{!json.Marshaler}.

(** A handler that returns [nil] ends the request; one that returns an error
    hands it to the error handler, whose panic, if any, is recovered like one
    of the handler. *)
Lemma Execute_handler_returns (m : Mig.t RW) (handler : Handler RW) (rw : RW)
    (r : http.Request) (cont : option (Context.t RW)) (stack : string)
    (out : slog.Output) (c1 : Context.t RW) (out1 : slog.Output) :
  handler (Context.Reset r rw (Mig.Logger m) cont) out = (c1, out1, Return None) ->
  Mig.Execute m handler rw r cont stack out = (c1, out1, None).
Proof. intros Hh. unfold Mig.Execute. by rewrite Hh. Qed.

Lemma Execute_handler_fails (m : Mig.t RW) (handler : Handler RW) (rw : RW)
    (r : http.Request) (cont : option (Context.t RW)) (stack : string)
    (out : slog.Output) (c1 c2 : Context.t RW) (out1 out2 : slog.Output)
    (err : error) :
  handler (Context.Reset r rw (Mig.Logger m) cont) out = (c1, out1, Return (Some err)) ->
  Mig.ErrorHandler m err c1 out1 = (c2, out2, None) ->
  Mig.Execute m handler rw r cont stack out = (c2, out2, None).
Proof. intros Hh He. unfold Mig.Execute. by rewrite Hh, He. Qed.

(** C2, as the code has it. When the handler chain panics, [Execute]
    recovers the value. A value that is or wraps [http.ErrAbortHandler] is
    raised again as it is, and the error handler has no part in the result.
    Any other value, as an error carrying its text when it is not an error,
    becomes the internal cause of an [HTTPError] with the status 500, the
    text of that status and the captured stack, and [Execute] ends as the
    call of the current error handler on this error, with the context as the
    handler chain left it, ends: it returns when this call returns, and a
    panic of the error handler in this call is the panic of [Execute]. With
    the default error handler, which always returns, [Execute] returns. *)
Theorem Execute_recovers_panic (m : Mig.t RW) (handler : Handler RW) (rw : RW)
    (r : http.Request) (cont : option (Context.t RW)) (stack : string)
    (out : slog.Output) (c1 : Context.t RW) (out1 : slog.Output) (v : panicval) :
  handler (Context.Reset r rw (Mig.Logger m) cont) out = (c1, out1, Panic v) ->
  let res := Mig.Execute m handler rw r cont stack out in
  if is_abort v
  then res = (c1, out1, Some v)
  else
    res = Mig.ErrorHandler m
            (as_error {| Code := 500; Message := "Internal Server Error";
                         Internal := Some (panic_cause v); Stack := stack |})
            c1 out1 /\
    (Mig.Execute (Mig.New (Mig.Logger m)) handler rw r cont stack out).2 = None.
Proof.
  intros Hh. cbv zeta. unfold Mig.Execute. cbn [Mig.Logger Mig.New].
  rewrite Hh.
  destruct v as [e|shown]; cbn [is_abort panic_cause Mig.recovered_error].
  - destruct (errors_Is_ErrAbortHandler e) eqn:Habort; [reflexivity|].
    split; [reflexivity|]. cbn [Mig.ErrorHandler].
    apply DefaultErrorHandler_returns.
  - cbn [errors_Is_ErrAbortHandler].
    split; [reflexivity|]. cbn [Mig.ErrorHandler].
    apply DefaultErrorHandler_returns.
Qed.
End engine_facts.

(** The panic test of the package: the handler panics with a string behind a
    request-ID middleware and the client accepts JSON. [Execute] returns, the
    client reads a 500 with the public payload, and the log has the record
    [panic recovered] with the identifier, the panic message and the stack. *)
Lemma Execute_recovers_panic_witness :
  let r := Examples.get "" "application/json" in
  let res := Mig.Execute Examples.engine Examples.boom Recorder.NewRecorder r None
               "goroutine 7 [running]" [] in
  res.2 = None /\
  Recorder.Code (Examples.recorder res.1.1) = 500 /\
  Recorder.BodyString (Examples.recorder res.1.1) =
    "{" ++ Examples.q "code" ++ ":500," ++ Examples.q "message" ++ ":"
        ++ Examples.q "Internal Server Error" ++ "}" ++ Examples.newline /\
  res.1.2 = [ {| slog.level := slog.LevelError; slog.msg := "panic recovered";
                 slog.attrs := [("id", slog.String "abc");
                                ("error", slog.Any (Some (ErrorString "oh no, a panic!")));
                                ("stack", slog.String "goroutine 7 [running]")] |} ].
Proof.
  cbv zeta.
  pose proof (Execute_recovers_panic Examples.engine Examples.boom
                Recorder.NewRecorder (Examples.get "" "application/json") None
                "goroutine 7 [running]" [] _ _ _ eq_refl) as H.
  cbv zeta in H. cbn [is_abort panic_cause] in H.
  destruct H as [Hres Hret]. rewrite Hres.
  repeat split; vm_compute; reflexivity.
Defined.

(** C2, as the claim has it, fails when the current error handler panics on
    the error [Execute] built from the recovered value: the handler chain
    panics with a string, which is no abort, the error handler of the
    application panics in the call the recovery makes, and nothing recovers
    this panic: [Execute] ends in it. *)
Lemma Execute_error_handler_panic_escapes :
  let m := {| Mig.ErrorHandler := Examples.tripwire; Mig.Logger := Examples.base |} in
  let r := Examples.get "" "" in
  let res := Mig.Execute m Examples.boom Recorder.NewRecorder r None
               "goroutine 7 [running]" [] in
  (Examples.boom (Context.Reset r Recorder.NewRecorder Examples.base None) []).2
    = Panic (PanicValue "oh no, a panic!") /\
  is_abort (PanicValue "oh no, a panic!") = false /\
  res.2 = Some (PanicValue "tripwire").
Proof. vm_compute. repeat split; reflexivity. Qed.

(** A handler that panics with a wrapped [http.ErrAbortHandler]: [Execute]
    panics with the same value, and an error handler that would leave traces
    leaves none. *)
Lemma Execute_reraises_abort_example :
  let m := {| Mig.ErrorHandler := Examples.tripwire; Mig.Logger := Examples.base |} in
  let res := Mig.Execute m Examples.abort Recorder.NewRecorder (Examples.get "" "")
               None "goroutine 7 [running]" [] in
  res.2 = Some (PanicError (WrapError "client gone" ErrAbortHandler)) /\
  Recorder.Body (Examples.recorder res.1.1) = [] /\
  res.1.2 = [].
Proof. vm_compute. repeat split; reflexivity. Qed.

(** ** Route groups and middleware order *)

Section group_facts.
Context {RW : Type} `{!http.ResponseWriter RW} `{!json.Marshaler}.

(** The loop of [HandleRaw] applies the last middleware first, so the first
    middleware of the list ends up outermost. *)
Lemma wrap_prefix (front back : list (MiddlewareFunc RW)) (handler : Handler RW) :
  RouteGroup.wrap (front ++ back) (length front) handler =
  foldr (fun mw next => mw next) handler front.
Proof.
  revert back handler.
  induction front as [|mw front IH] using rev_ind; intros back handler; [done|].
  rewrite length_app, Nat.add_comm. cbn [length Nat.add RouteGroup.wrap].
  rewrite <- app_assoc. change ([mw] ++ back)%list with (mw :: back).
  rewrite list_lookup_middle by done.
  rewrite IH, foldr_app. done.
Qed.

Lemma wrap_foldr (mws : list (MiddlewareFunc RW)) (handler : Handler RW) :
  RouteGroup.wrap mws (length mws) handler =
  foldr (fun mw next => mw next) handler mws.
Proof.
  rewrite <- (app_nil_r mws) at 1. apply wrap_prefix.
Qed.

(** A group has the middleware of every [Use] and [Group] call on the way to
    it, in the order of the calls, and the prefixes of the [Group] calls. *)
Lemma descend_middlewares (steps : list (setup (MiddlewareFunc RW)))
    (rg : RouteGroup.t RW) :
  RouteGroup.middlewares (descend steps rg) =
    (RouteGroup.middlewares rg ++ concat (map setup_mws steps))%list /\
  RouteGroup.Prefix (descend steps rg) = RouteGroup.Prefix rg ++ prefixes steps.
Proof.
  revert rg. induction steps as [|s steps IH]; intros rg.
  - cbn. by rewrite app_nil_r, append_nil_r.
  - destruct (IH (apply_setup rg s)) as [IHm IHp].
    change (descend (s :: steps) rg) with (descend steps (apply_setup rg s)).
    rewrite IHm, IHp.
    change (prefixes (s :: steps)) with (setup_prefix s ++ prefixes steps).
    rewrite <- append_assoc.
    destruct s as [mws|prefix mws]; cbn [apply_setup RouteGroup.Use
      RouteGroup.Group RouteGroup.middlewares RouteGroup.Prefix setup_prefix
      setup_mws map concat app].
    + by rewrite <- app_assoc, append_nil_r.
    + by rewrite <- app_assoc.
Qed.

(** A chain of observers enters them in the order of the list and leaves them
    in the opposite order. *)
Lemma observers_chain (obs : list observation) (handler : Handler RW)
    (c : Context.t RW) (out : slog.Output) :
  foldr (fun mw next => mw next) handler (map observe obs) c out =
  observed obs handler c out.
Proof.
  revert c. induction obs as [|o obs IH]; intros c.
  - unfold observed. cbn. by destruct (handler c out) as [[c' out'] [err|v]].
  - cbn [map foldr]. unfold observe at 1, observer.
    rewrite IH. unfold observed. cbn [foldl foldr].
    by destruct (handler _ out) as [[c' out'] [err|v]].
Qed.

(** For middleware of any kind: the handler composed at registration nests
    the middleware of the [Use] and [Group] calls in the order of the calls,
    the first call outermost. *)
Lemma compose_registration_order (steps : list (setup (MiddlewareFunc RW)))
    (handler : Handler RW) :
  let rg := descend steps RouteGroup.root in
  RouteGroup.wrap (RouteGroup.middlewares rg)
    (length (RouteGroup.middlewares rg)) handler =
  foldr (fun mw next => mw next) handler (concat (map setup_mws steps)).
Proof.
  cbv zeta. rewrite wrap_foldr, (proj1 (descend_middlewares _ _)). done.
Qed.

(** C1. Take any group reached from the root by [Use] and [Group] calls with
    observing middleware, and register a handler on it. The group holds the
    middleware of all those calls in the order of the calls, root first.
    [HandleRaw] registers one closure that runs [Execute] on the handler
    composed at registration. That handler lets the middleware act on the
    request in the order of registration, then runs the handler, then lets
    them act on the way back in the opposite order, so that the first
    registered is the first to see the request and the last to see the
    response. *)
Theorem middleware_runs_in_registration_order (steps : list (setup observation))
    (pattern : string) (handler : Handler RW) (mux : ServeMux RW) :
  let rg := descend (map (setup_map observe) steps) RouteGroup.root in
  let obs := concat (map setup_mws steps) in
  let fhandler := RouteGroup.wrap (RouteGroup.middlewares rg)
                    (length (RouteGroup.middlewares rg)) handler in
  RouteGroup.middlewares rg = map observe obs /\
  RouteGroup.HandleRaw pattern handler rg mux =
    (mux ++ [(pattern, fun m rw r => Mig.Execute m fhandler rw r)])%list /\
  fhandler = foldr (fun mw next => mw next) handler (map observe obs) /\
  forall c out, fhandler c out = observed obs handler c out.
Proof.
  cbv zeta.
  assert (Hmws : RouteGroup.middlewares
                   (descend (map (setup_map observe) steps) RouteGroup.root) =
                 map observe (concat (map setup_mws steps))).
  { rewrite (proj1 (descend_middlewares _ _)). cbn [RouteGroup.root RouteGroup.middlewares app].
    induction steps as [|s steps IH]; [done|].
    cbn [map concat]. rewrite map_app, IH. by destruct s. }
  split; [exact Hmws|]. split; [reflexivity|].
  rewrite Hmws, wrap_foldr. split; [reflexivity|].
  intros c out. apply observers_chain.
Qed.
End group_facts.

(** The route of the specification: [m.Use(A)], [g := m.Group("/api", B)],
    [g.Handle("GET", "/users", H)]. One pattern is registered, and a request
    served by it reads the markers in the order A, B, H, B, A. *)
Lemma group_order_example :
  let rg := RouteGroup.Group "/api" [marker "B"]
              (RouteGroup.Use [marker "A"] RouteGroup.root) in
  let mux := RouteGroup.Handle "GET" "/users" (finalHandler "H") rg [] in
  map fst mux = ["GET /api/users"] /\
  map (fun route =>
         Recorder.BodyString
           (Examples.recorder
              (route.2 Examples.engine Recorder.NewRecorder (Examples.get "" "")
                 None "" []).1.1)) mux
    = ["A-before > B-before > H > B-after > A-after"].
Proof. vm_compute. split; reflexivity. Qed.

(** The route of the package's routing test, with its one-sided middleware:
    [M_ROOT] on the root, [M_API] on [/api], nothing on [/v1]. *)
Lemma routing_test_example :
  let rg := RouteGroup.Group "/v1" []
              (RouteGroup.Group "/api" [testMiddleware "M_API"]
                 (RouteGroup.Use [testMiddleware "M_ROOT"] RouteGroup.root)) in
  let mux := RouteGroup.Handle "" "/users" (finalHandler "OK") rg [] in
  map fst mux = ["/api/v1/users"] /\
  map (fun route =>
         Recorder.BodyString
           (Examples.recorder
              (route.2 Examples.engine Recorder.NewRecorder (Examples.get "" "")
                 None "" []).1.1)) mux
    = ["M_ROOT > M_API > OK"].
Proof. vm_compute. split; reflexivity. Qed.

(** ** Notes on the first generation *)

(** The first generation of [QueryParam] answered [?x=] with the default; the
    present one answers with the empty string. *)
Lemma first_generation_QueryParam_empty_value :
  (FirstGeneration.QueryParam "x" "d" (Examples.serving (Examples.get "x=" ""))).2 = "d"
  /\ (Context.QueryParam "x" "d" (Examples.serving (Examples.get "x=" ""))).2 = "".
Proof. vm_compute. split; reflexivity. Qed.

(** ** More on the response wrapper *)

Section response_more.
Context {RW : Type} `{!http.ResponseWriter RW}.

(** The first [WriteHeader] decides the recorded status; every call reaches
    the sink. *)
Lemma WriteHeader_first_wins (w : Response.t RW) (code code' : Z) :
  code <> 0 ->
  Response.status w = 0 ->
  Response.Status (Response.WriteHeader code' (Response.WriteHeader code w)) = code /\
  Response.ResponseWriter (Response.WriteHeader code' (Response.WriteHeader code w)) =
    http.rw_WriteHeader code' (http.rw_WriteHeader code (Response.ResponseWriter w)).
Proof.
  intros Hcode Hst. unfold Response.Status, Response.WriteHeader. cbn.
  rewrite Hst. cbn.
  destruct (Z.eqb_spec code 0) as [|_]; [done|].
  destruct (Z.eqb_spec code 0) as [|_]; done.
Qed.

(** [Status()] of a response no status was recorded on is 200. *)
Lemma Status_default (w : Response.t RW) :
  Response.status w = 0 -> Response.Status w = 200.
Proof. intros Hst. unfold Response.Status. by rewrite Hst. Qed.
End response_more.

(** ** More on the request context *)

Section context_more.
Context {RW : Type} `{!http.ResponseWriter RW}.

(** The query cache is empty after [Reset], and the methods that replace the
    request handle keep the cache in step with the request. *)
Lemma query_cache_ok_Reset (r : http.Request) (rw : RW) (lg : slog.Logger)
    (prev : option (Context.t RW)) :
  query_cache_ok (Context.Reset r rw lg prev).
Proof. by left. Qed.

Lemma query_cache_ok_Put (k : context.key) (v : context.any) (c : Context.t RW) :
  query_cache_ok c -> query_cache_ok (Context.Put k v c).
Proof. intros [Hq|Hq]; [by left|by right]. Qed.

Lemma query_cache_ok_SetRequestID (id : string) (c : Context.t RW) :
  query_cache_ok c -> query_cache_ok (Context.SetRequestID id c).
Proof.
  intros Hok. unfold Context.SetRequestID.
  destruct (String.eqb id ""); [done|].
  destruct c as [r w [l|] q]; destruct Hok as [Hq|Hq]; cbn in *;
    first [by left | by right].
Qed.

Lemma query_cache_ok_Raw (data : list byte) (c : Context.t RW) :
  query_cache_ok c -> query_cache_ok (Context.Raw data c).1.
Proof.
  intros Hok. unfold Context.Raw.
  destruct (Response.Write data _) as [w [n err]].
  destruct Hok as [Hq|Hq]; [by left|by right].
Qed.

(** A value put under a key of the application is read back, also after the
    request handle has been replaced by [SetRequestID]. *)
Lemma Get_after_Put (name : string) (v : context.any) (id : string)
    (c : Context.t RW) :
  Context.Get (context.UserKey name) (Context.Put (context.UserKey name) v c) = Some v /\
  Context.Get (context.UserKey name)
    (Context.SetRequestID id (Context.Put (context.UserKey name) v c)) = Some v.
Proof.
  split.
  - unfold Context.Get, Context.Put. cbn. by rewrite decide_True.
  - unfold Context.SetRequestID. destruct (String.eqb id "").
    + unfold Context.Get, Context.Put. cbn. by rewrite decide_True.
    + destruct c as [r w [l|] q]; unfold Context.Get, Context.Put; cbn;
        repeat (case_decide; try done).
Qed.

(** A non-empty identifier is stored for [RequestID()] and attached to a
    logger derived from the present one; the base logger is a different
    value and is not changed. *)
Lemma SetRequestID_sets (id : string) (c : Context.t RW) :
  id <> "" ->
  Context.RequestID (Context.SetRequestID id c) = id /\
  Context.Logger (Context.SetRequestID id c) =
    slog.With ("id", slog.String id) <$> Context.Logger c.
Proof.
  intros Hid. unfold Context.SetRequestID.
  destruct (String.eqb_spec id "") as [|_]; [done|].
  destruct c as [r w [l|] q]; cbn; split; try done;
    unfold Context.RequestID, Context.RequestIDFromContext; cbn;
    by rewrite decide_True.
Qed.
End context_more.

(* ===================================================================== *)
(** * Further properties of the code *)
(* ===================================================================== *)

(** ** The response wrapper, continued *)

Section response_further.
Context {RW : Type} `{!http.ResponseWriter RW}.

Lemma Response_headers_fold (codes : list Z) (w : Response.t RW) :
  Response_headers codes w =
  Response.mk (sink_headers codes (Response.ResponseWriter w))
    (first_nonzero (Response.status w :: codes)) (Response.written w).
Proof.
  revert w. induction codes as [|code codes IH]; intros w.
  - destruct w as [rw st wr]. cbn. by destruct (Z.eqb_spec st 0) as [->|].
  - change (Response_headers (code :: codes) w)
      with (Response_headers codes (Response.WriteHeader code w)).
    rewrite IH. unfold Response.WriteHeader. cbn.
    destruct (Z.eqb_spec (Response.status w) 0) as [Hz|Hnz]; [done|].
    destruct (Z.eqb_spec (Response.status w) 0); done.
Qed.

(** X1. Of any number of [WriteHeader] calls on a response, the first one
    with a code other than zero decides the recorded status (a call with the
    code zero records nothing), every call is forwarded to the sink in its
    order, and the written count is not touched. *)
Theorem WriteHeader_records_first (codes : list Z) (w : Response.t RW) :
  let w' := Response_headers codes w in
  Response.status w' = first_nonzero (Response.status w :: codes) /\
  Response.Status w' =
    (if first_nonzero (Response.status w :: codes) =? 0 then 200
     else first_nonzero (Response.status w :: codes)) /\
  Response.ResponseWriter w' = sink_headers codes (Response.ResponseWriter w) /\
  Response.Written w' = Response.Written w.
Proof.
  cbv zeta. rewrite Response_headers_fold. unfold Response.Status. cbn [Response.status].
  repeat split.
Qed.

(** X2. Once a status other than zero is recorded, writes keep it: no
    implicit 200 is sent, the sink gets the slices only, each [Write] returns
    what the sink returned, and the written count grows by the sink's counts
    (as a 64-bit integer). *)
Theorem Write_keeps_recorded_status (b : list byte) (bs : list (list byte))
    (w : Response.t RW) :
  Response.status w <> 0 ->
  let sink := sink_writes (b :: bs) (Response.ResponseWriter w) in
  let after := Response_writes (b :: bs) w in
  after.2 = sink.2 /\
  Response.ResponseWriter after.1 = sink.1 /\
  Response.Status after.1 = Response.status w /\
  Response.Written after.1 = int_wrap (Response.Written w + forwarded sink.2).
Proof.
  intros Hst. cbv zeta. destruct w as [rw st wr]. cbn in Hst.
  rewrite Response_writes_recorded by done.
  unfold Response.Status. cbn.
  destruct (Z.eqb_spec st 0); [done|]. repeat split.
Qed.
End response_further.

(** [WriteHeader(404)] and then two writes on a recorder: the status stays
    404 and the nine bytes are counted. *)
Lemma Write_keeps_recorded_status_witness :
  let w := Response.WriteHeader 404
             (Context.Response (Examples.serving (Examples.get "" ""))) in
  let after := Response_writes [bytes "not "; bytes "found"] w in
  Response.status w <> 0 /\
  Response.Status after.1 = 404 /\
  Response.Written after.1 = 9 /\
  Recorder.Code (Response.ResponseWriter after.1) = 404 /\
  Recorder.BodyString (Response.ResponseWriter after.1) = "not found".
Proof.
  cbv zeta.
  assert (Hst : Response.status
                  (Response.WriteHeader 404
                     (Context.Response (Examples.serving (Examples.get "" "")))) <> 0)
    by (vm_compute; discriminate).
  destruct (Write_keeps_recorded_status (bytes "not ") [bytes "found"] _ Hst)
    as (_ & Hsink & Hstatus & Hwritten).
  split; [exact Hst|]. rewrite Hstatus, Hwritten, Hsink.
  repeat split; vm_compute; reflexivity.
Defined.

(** ** The request context, continued *)

Section context_further.
Context {RW : Type} `{!http.ResponseWriter RW}.

(** X3. The store of a request: a value put under a key of the application
    is read back under that key and hides an earlier one; the other keys, the
    request identifier, the response, the logger and the query are as before;
    and after [Reset] the store is that of the new request, whatever the
    context held. *)
Theorem Put_Get_store (name other : string) (v : context.any) (c : Context.t RW)
    (r : http.Request) (rw : RW) (lg : slog.Logger) :
  other <> name ->
  let c' := Context.Put (context.UserKey name) v c in
  Context.Get (context.UserKey name) c' = Some v /\
  Context.Get (context.UserKey other) c' = Context.Get (context.UserKey other) c /\
  Context.RequestID c' = Context.RequestID c /\
  Context.Response c' = Context.Response c /\
  Context.Logger c' = Context.Logger c /\
  http.URL_Query (Context.Request c') = http.URL_Query (Context.Request c) /\
  Context.Get (context.UserKey name) (Context.Reset r rw lg (Some c')) =
    context.Value (http.Ctx r) (context.UserKey name).
Proof.
  intros Hne. cbv zeta. unfold Context.Get, Context.Put, Context.RequestID,
    Context.RequestIDFromContext. cbn.
  rewrite decide_True by done.
  rewrite decide_False by congruence.
  repeat split.
Qed.

(** X4. [SetRequestID] with an identifier that is not empty: [RequestID()]
    returns it, the values put in the store are still there, the logger of the
    context becomes the earlier one with the attribute [id] added, and the
    status and the written count are as before. On a sink that keeps the
    header map it is given, the response header [X-Request-Id] is the
    identifier. *)
Theorem SetRequestID_establishes (id name : string) (c : Context.t RW) :
  id <> "" ->
  (forall h rw, http.rw_Header (http.rw_SetHeader h rw) = h) ->
  let c' := Context.SetRequestID id c in
  Context.RequestID c' = id /\
  Context.Get (context.UserKey name) c' = Context.Get (context.UserKey name) c /\
  Context.Logger c' = slog.With ("id", slog.String id) <$> Context.Logger c /\
  http.Header_Get "X-Request-ID" (Response.Header (Context.Response c')) = id /\
  Response.status (Context.Response c') = Response.status (Context.Response c) /\
  Response.Written (Context.Response c') = Response.Written (Context.Response c).
Proof.
  intros Hid Hsink. cbv zeta. unfold Context.SetRequestID.
  destruct (String.eqb_spec id "") as [|_]; [done|].
  assert (Hhdr : forall w : Response.t RW,
             http.Header_Get "X-Request-ID"
               (Response.Header (http.SetHeader Context.RequestIDHeader id w)) = id).
  { intros w. unfold http.SetHeader, Response.Header. cbn.
    rewrite Hsink. unfold http.Header_Get, http.Header_Set.
    change (http.CanonicalMIMEHeaderKey Context.RequestIDHeader)
      with (http.CanonicalMIMEHeaderKey "X-Request-ID").
    by rewrite lookup_insert_eq. }
  destruct c as [rq w [l|] q];
    cbn [Context.with_Request Context.with_Response Context.with_Logger
         Context.Logger Context.Request Context.Response];
    rewrite Hhdr;
    unfold Context.RequestID, Context.RequestIDFromContext, Context.Get; cbn;
    repeat split.
Qed.

(** X5. A second [SetRequestID] replaces the identifier that [RequestID()]
    returns, and adds a second [id] attribute to the logger: the first one
    stays on it. *)
Theorem SetRequestID_twice (id1 id2 : string) (c : Context.t RW) (l : slog.Logger) :
  id1 <> "" -> id2 <> "" ->
  Context.Logger c = Some l ->
  let c' := Context.SetRequestID id2 (Context.SetRequestID id1 c) in
  Context.RequestID c' = id2 /\
  Context.Logger c' =
    Some {| slog.scoped := (slog.scoped l ++ [("id", slog.String id1);
                                              ("id", slog.String id2)])%list |}.
Proof.
  intros H1 H2 Hl. cbv zeta. unfold Context.SetRequestID.
  destruct (String.eqb_spec id1 "") as [|_]; [done|].
  destruct (String.eqb_spec id2 "") as [|_]; [done|].
  destruct c as [rq w lo q]; cbn in Hl; subst lo; cbn.
  unfold Context.RequestID, Context.RequestIDFromContext, slog.With; cbn.
  by rewrite <- app_assoc.
Qed.
End context_further.

(** On a recorder: a value under "user", then the identifier "abc". *)
Lemma Put_Get_store_witness :
  let c := Context.SetRequestID "abc" (Examples.serving (Examples.get "" "")) in
  let c' := Context.Put (context.UserKey "user") (context.AnyString "ann") c in
  "role" <> "user" /\
  Context.Get (context.UserKey "user") c' = Some (context.AnyString "ann") /\
  Context.Get (context.UserKey "role") c' = None /\
  Context.RequestID c' = "abc" /\
  Context.Get (context.UserKey "user")
    (Context.Reset (Examples.get "" "") Recorder.NewRecorder Examples.base (Some c'))
    = None.
Proof.
  cbv zeta.
  assert (Hne : "role" <> "user") by discriminate.
  destruct (Put_Get_store "user" "role" (context.AnyString "ann")
              (Context.SetRequestID "abc" (Examples.serving (Examples.get "" "")))
              (Examples.get "" "") Recorder.NewRecorder Examples.base Hne)
    as (Hget & Hother & Hid & _ & _ & _ & Hreset).
  split; [exact Hne|]. rewrite Hget, Hother, Hid, Hreset.
  repeat split.
Defined.

Lemma SetRequestID_establishes_witness :
  let c := Context.Put (context.UserKey "user") (context.AnyString "ann")
             (Examples.serving (Examples.get "" "")) in
  let c' := Context.SetRequestID "abc" c in
  "abc" <> "" /\
  Context.RequestID c' = "abc" /\
  Context.Get (context.UserKey "user") c' = Some (context.AnyString "ann") /\
  Recorder.HeaderMap (Examples.recorder c') !! "X-Request-Id" = Some ["abc"].
Proof.
  cbv zeta.
  assert (Hne : "abc" <> "") by discriminate.
  destruct (@SetRequestID_establishes Recorder.t Recorder_ResponseWriter
              "abc" "user"
              (Context.Put (context.UserKey "user") (context.AnyString "ann")
                 (Examples.serving (Examples.get "" "")))
              Hne ltac:(intros h rw; reflexivity)) as (Hid & Hget & _).
  split; [exact Hne|]. rewrite Hid, Hget.
  repeat split.
Defined.

Lemma SetRequestID_twice_witness :
  let c := Examples.serving (Examples.get "" "") in
  let c' := Context.SetRequestID "inner" (Context.SetRequestID "outer" c) in
  Context.Logger c = Some Examples.base /\
  Context.RequestID c' = "inner" /\
  Context.Logger c' =
    Some (slog.mkLogger [("id", slog.String "outer"); ("id", slog.String "inner")]).
Proof.
  cbv zeta.
  destruct (SetRequestID_twice "outer" "inner"
              (Examples.serving (Examples.get "" "")) Examples.base
              ltac:(discriminate) ltac:(discriminate) eq_refl) as [Hid Hlog].
  split; [reflexivity|]. rewrite Hid, Hlog. split; reflexivity.
Defined.

(** ** Helpers: the recorded status through the calls of a handler *)

Section status_helpers.
Context {RW : Type} `{!http.ResponseWriter RW} `{!json.Marshaler}.

Lemma status_after_Write (b : list byte) (w : Response.t RW) :
  Response.status (Response.Write b w).1 =
    (if Response.status w =? 0 then 200 else Response.status w) /\
  Response.ResponseWriter (Response.Write b w).1 =
    (http.rw_Write b
       (if Response.status w =? 0
        then http.rw_WriteHeader 200 (Response.ResponseWriter w)
        else Response.ResponseWriter w)).1 /\
  (Response.Write b w).2 =
    (http.rw_Write b
       (if Response.status w =? 0
        then http.rw_WriteHeader 200 (Response.ResponseWriter w)
        else Response.ResponseWriter w)).2.
Proof.
  unfold Response.Write.
  destruct (Z.eqb_spec (Response.status w) 0) as [Hz|Hnz]; cbn.
  - rewrite Hz. cbn. by destruct (http.rw_Write b _) as [rw [n err]].
  - by destruct (http.rw_Write b _) as [rw [n err]].
Qed.

Lemma structured_as_error (e : HTTPError) : structured (as_error e) = e.
Proof. unfold structured. by rewrite errors_As_as_error. Qed.

(** The record the default handler logs. *)
Lemma DefaultErrorHandler_logs (m : Mig.t RW) (err : error) (ctx : Context.t RW)
    (out : slog.Output) :
  (Mig.DefaultErrorHandler m err ctx out).1.2 =
  if String.eqb (Stack (structured err)) "" then
    slog.Error (Mig.Logger m) "request error"
      [("id", slog.String (Context.RequestID ctx));
       ("code", slog.Int (Code (structured err)));
       ("error", slog.Any (Internal (structured err)))] out
  else
    slog.Error (Mig.Logger m) "panic recovered"
      [("id", slog.String (Context.RequestID ctx));
       ("error", slog.Any (Internal (structured err)));
       ("stack", slog.String (Stack (structured err)))] out.
Proof.
  unfold Mig.DefaultErrorHandler, structured, coerced.
  destruct (errors_As_HTTPError err) as [e|]; cbn [default Stack Code Internal Message];
    destruct (String.eqb _ ""); cbn [negb];
    repeat match goal with
           | |- context [if ?b then _ else _] => destruct b
           | |- context [let '(_, _) := ?x in _] => destruct x
           end; reflexivity.
Qed.

(** On a response nothing was written to and no status was recorded on, the
    default handler records the code of the structured error. *)
Lemma DefaultErrorHandler_status (m : Mig.t RW) (err : error) (ctx : Context.t RW)
    (out : slog.Output) :
  Response.Written (Context.Response ctx) <= 0 ->
  Response.status (Context.Response ctx) = 0 ->
  Code (structured err) <> 0 ->
  Response.Status (Context.Response (Mig.DefaultErrorHandler m err ctx out).1.1) =
    Code (structured err).
Proof.
  intros Hw Hst Hcode.
  assert (Hnot : (0 <? Response.Written (Context.Response ctx)) = false)
    by (apply Z.ltb_ge; exact Hw).
  assert (Hrec : forall w : Response.t RW,
             Response.status w = Code (structured err) ->
             Response.Status w = Code (structured err)).
  { intros w Hs. unfold Response.Status. rewrite Hs.
    by destruct (Z.eqb_spec (Code (structured err)) 0). }
  assert (Hwh : forall w : Response.t RW,
             Response.status w = 0 ->
             Response.status (Response.WriteHeader (Code (structured err)) w) =
               Code (structured err)).
  { intros w Hs. unfold Response.WriteHeader. cbn. by rewrite Hs. }
  assert (Hwr : forall b (w : Response.t RW),
             Response.status w = Code (structured err) ->
             Response.status (Response.Write b w).1 = Code (structured err)).
  { intros b w Hs. rewrite (proj1 (status_after_Write b w)), Hs.
    by destruct (Z.eqb_spec (Code (structured err)) 0). }
  unfold Mig.DefaultErrorHandler.
  fold (coerced err). change (match errors_As_HTTPError err with
                              | Some e => e
                              | None => coerced err
                              end) with (structured err).
  rewrite Hnot.
  destruct (_ || _).
  { cbn. apply Hrec, Hwh, Hst. }
  destruct (strings_Contains _ _).
  - unfold json.Encode. cbn [http.rw_Write Response_ResponseWriter].
    destruct (Response.Write _ _) as [w [cnt werr]] eqn:Hwrite. cbn.
    apply Hrec. change w with (w, (cnt, werr)).1. rewrite <- Hwrite.
    apply Hwr, Hwh. exact Hst.
  - cbn. apply Hrec. unfold http.Error.
    cbn [http.rw_Write http.rw_WriteHeader Response_ResponseWriter].
    apply Hwr, Hwh. exact Hst.
Qed.

(** On a response nothing was written to, the status after the default
    handler is the first that is not zero of: the status recorded before, the
    code of the structured error, and the 200 of a write without status. *)
Lemma DefaultErrorHandler_status_first (m : Mig.t RW) (err : error)
    (ctx : Context.t RW) (out : slog.Output) :
  Response.Written (Context.Response ctx) <= 0 ->
  Response.Status (Context.Response (Mig.DefaultErrorHandler m err ctx out).1.1) =
    first_nonzero [Response.status (Context.Response ctx); Code (structured err); 200].
Proof.
  intros Hw.
  assert (Hnot : (0 <? Response.Written (Context.Response ctx)) = false)
    by (apply Z.ltb_ge; exact Hw).
  assert (Hwh : forall code (w : Response.t RW),
             Response.status (Response.WriteHeader code w) =
               if Response.status w =? 0 then code else Response.status w)
    by reflexivity.
  assert (Hfirst : forall st code : Z,
             (if (if (if st =? 0 then code else st) =? 0 then 200
                  else if st =? 0 then code else st) =? 0
              then 200
              else if (if st =? 0 then code else st) =? 0 then 200
                   else if st =? 0 then code else st) =
             first_nonzero [st; code; 200]).
  { intros st code. cbn [first_nonzero].
    destruct (Z.eqb_spec st 0) as [->|Hst].
    - cbn. destruct (Z.eqb_spec code 0) as [->|Hc]; [reflexivity|].
      apply Z.eqb_neq in Hc. by rewrite !Hc.
    - apply Z.eqb_neq in Hst. by rewrite !Hst. }
  unfold Mig.DefaultErrorHandler.
  fold (coerced err). change (match errors_As_HTTPError err with
                              | Some e => e
                              | None => coerced err
                              end) with (structured err).
  rewrite Hnot.
  destruct (_ || _) eqn:Hbodyless.
  { assert (Hc : Code (structured err) <> 0).
    { intros Hz.
      assert (Hb : (Code (structured err) =? http.StatusNoContent)
                   || (Code (structured err) =? http.StatusNotModified) = true)
        by exact Hbodyless.
      rewrite Hz in Hb. vm_compute in Hb. discriminate. }
    assert (Hbody : forall st code : Z, code <> 0 ->
               (if (if st =? 0 then code else st) =? 0 then 200
                else if st =? 0 then code else st) =
               first_nonzero [st; code; 200]).
    { intros st code Hcode. cbn [first_nonzero]. apply Z.eqb_neq in Hcode.
      destruct (Z.eqb_spec st 0) as [->|Hst]; [by rewrite !Hcode|].
      apply Z.eqb_neq in Hst. by rewrite Hst. }
    cbn. unfold Response.Status. rewrite Hwh.
    exact (Hbody _ (Code (structured err)) Hc). }
  destruct (strings_Contains _ _).
  - unfold json.Encode. cbn [http.rw_Write Response_ResponseWriter].
    destruct (Response.Write _ _) as [w [cnt werr]] eqn:Hwrite. cbn.
    unfold Response.Status. change w with (w, (cnt, werr)).1. rewrite <- Hwrite.
    rewrite (proj1 (status_after_Write _ _)), Hwh. apply Hfirst.
  - cbn. unfold http.Error.
    cbn [http.rw_Write http.rw_WriteHeader Response_ResponseWriter].
    unfold Response.Status.
    rewrite (proj1 (status_after_Write _ _)), Hwh. apply Hfirst.
Qed.
End status_helpers.

(** ** Writing responses *)

Section writing_facts.
Context {RW : Type} `{!http.ResponseWriter RW} `{!json.Marshaler}.
Context {T : Type} `{!json.Marshalable T}.

(** X6. When a value cannot be encoded, [JSON] returns the encoder's error
    before it touches the response. A handler that returns it, run by an
    engine with the default error handler, therefore still answers: [Execute]
    returns, and the recorded status is the code of the first [HTTPError] the
    encoder's error wraps, when there is one with a code that is not zero,
    and 500 when it wraps none. In this last case the one record logged is
    [request error] with the code 500 and the encoder's error. *)
Theorem JSON_failure_answers_500 (out : T) (err : error) (lg : slog.Logger)
    (rw : RW) (r : http.Request) (cont : option (Context.t RW))
    (stack : string) (log : slog.Output) :
  json.MarshalAny out = inr err ->
  let served := Context.Reset r rw lg cont in
  let res := Mig.Execute (Mig.New lg) (respond_JSON out) rw r cont stack log in
  Context.JSON out served = (served, Some err) /\
  res.2 = None /\
  Response.Status (Context.Response res.1.1) =
    first_nonzero [Code (structured err); 200] /\
  (errors_As_HTTPError err = None ->
   Response.Status (Context.Response res.1.1) = 500 /\
   res.1.2 = slog.Error lg "request error"
               [("id", slog.String (Context.RequestID served));
                ("code", slog.Int 500);
                ("error", slog.Any (Some err))] log).
Proof.
  intros Hm. cbv zeta.
  assert (Hjson : forall c : Context.t RW, Context.JSON out c = (c, Some err)).
  { intros c. unfold Context.JSON. by rewrite Hm. }
  split; [apply Hjson|].
  unfold Mig.Execute, respond_JSON. cbn [Mig.Logger Mig.New Mig.ErrorHandler].
  rewrite Hjson.
  set (m := {| Mig.ErrorHandler := _; Mig.Logger := lg |}).
  set (served := Context.Reset r rw lg cont).
  destruct (DefaultErrorHandler_returns m err served log) as [Hret _].
  assert (Hfresh : Response.Written (Context.Response served) <= 0 /\
                   Response.status (Context.Response served) = 0)
    by (subst served; by destruct cont).
  pose proof (DefaultErrorHandler_logs m err served log) as Hlog.
  pose proof (DefaultErrorHandler_status_first m err served log (proj1 Hfresh))
    as Hstatus.
  rewrite (proj2 Hfresh) in Hstatus.
  change (first_nonzero [0; Code (structured err); 200])
    with (first_nonzero [Code (structured err); 200]) in Hstatus.
  destruct (Mig.DefaultErrorHandler m err served log) as [[c2 out2] raised].
  cbn [fst snd] in Hret, Hlog, Hstatus. subst raised. cbn [fst snd].
  split; [done|]. split; [exact Hstatus|].
  intros Hplain.
  assert (Hs : structured err = coerced err) by (unfold structured; by rewrite Hplain).
  rewrite Hs in Hlog, Hstatus. split; [exact Hstatus|exact Hlog].
Qed.

(** X7. When the value is encoded, [JSON] sets the JSON content type, sends
    the status 200 to the sink and then the encoding in one write, whether or
    not a status was recorded before; the recorded status is the earlier one
    when there was one, and 200 otherwise. [JSON] returns the error of the
    write. *)
Theorem JSON_success_writes (out : T) (res : list byte) (c : Context.t RW) :
  json.MarshalAny out = inl res ->
  let rw := Response.ResponseWriter (Context.Response c) in
  let sent := http.rw_Write res
                (http.rw_WriteHeader 200
                   (http.rw_SetHeader
                      (http.Header_Set "Content-Type" "application/json; charset=utf-8"
                         (http.rw_Header rw)) rw)) in
  let c' := (Context.JSON out c).1 in
  Response.ResponseWriter (Context.Response c') = sent.1 /\
  (Context.JSON out c).2 = sent.2.2 /\
  Response.status (Context.Response c') =
    (if Response.status (Context.Response c) =? 0 then 200
     else Response.status (Context.Response c)) /\
  Response.Written (Context.Response c') =
    int_wrap (Response.Written (Context.Response c) + sent.2.1) /\
  Context.Request c' = Context.Request c /\
  Context.Logger c' = Context.Logger c.
Proof.
  intros Hm. cbv zeta. unfold Context.JSON. rewrite Hm.
  unfold Response.Write, Response.WriteHeader, http.SetHeader.
  cbn [http.rw_SetHeader http.rw_Header Response_ResponseWriter Response.SetHeader
       Response.Header Response.status Response.ResponseWriter Response.written].
  destruct (Z.eqb_spec (Response.status (Context.Response c)) 0) as [Hz|Hnz].
  - cbn. destruct (http.rw_Write res _) as [rw' [cnt werr]]. cbn. repeat split.
  - destruct (Z.eqb_spec (Response.status (Context.Response c)) 0); [done|].
    destruct (http.rw_Write res _) as [rw' [cnt werr]]. cbn. repeat split.
Qed.
End writing_facts.

Section view_facts.
Context {RW : Type} `{!http.ResponseWriter RW}.
Context {D : Type}.

(** X8. [View] renders into a buffer first. Without a renderer it panics;
    when the renderer fails, [View] returns its error and the context is as
    it was, whatever the renderer had written to the buffer; when the renderer
    succeeds, [View] sets the HTML content type and writes exactly the bytes
    of the buffer through the response. *)
Theorem View_renders_first (renderer : option (string -> D -> list byte * option error))
    (name : string) (data : D) (c : Context.t RW) :
  match renderer with
  | None => exists v, Context.View renderer name data c = (c, Panic v)
  | Some Render =>
      match (Render name data).2 with
      | Some err => Context.View renderer name data c = (c, Return (Some err))
      | None =>
          Context.View renderer name data c =
          (let '(c', werr) :=
             Context.Raw (Render name data).1
               (Context.with_Response
                  (http.SetHeader "content-type" "text/html; charset=utf-8"
                     (Context.Response c)) c) in
           (c', Return werr))
      end
  end.
Proof.
  destruct renderer as [Render|]; [|by eexists].
  unfold Context.View. destruct (Render name data) as [buf [err|]]; cbn; [done|].
  unfold Context.HTML, bytes. by rewrite list_byte_of_string_of_list_byte.
Qed.
End view_facts.

(** A value of a type the encoder refuses, answered through the engine. *)
Lemma JSON_failure_answers_500_witness :
  let res := Mig.Execute Examples.engine (respond_JSON Channel) Recorder.NewRecorder
               (Examples.get "" "") None "" [] in
  let refused := Mig.Execute Examples.engine (respond_JSON Teapot)
                   Recorder.NewRecorder (Examples.get "" "") None "" [] in
  json.MarshalAny Channel = inr (ErrorString "json: unsupported type: chan int") /\
  res.2 = None /\
  Recorder.Code (Examples.recorder res.1.1) = 500 /\
  Recorder.BodyString (Examples.recorder res.1.1) =
    "Internal Server Error" ++ Examples.newline /\
  Response.Status (Context.Response refused.1.1) = 418.
Proof.
  cbv zeta.
  destruct (JSON_failure_answers_500 Channel
              (ErrorString "json: unsupported type: chan int") Examples.base
              Recorder.NewRecorder (Examples.get "" "") None "" [] eq_refl)
    as (_ & Hret & _ & _).
  destruct (JSON_failure_answers_500 Teapot _ Examples.base
              Recorder.NewRecorder (Examples.get "" "") None "" [] eq_refl)
    as (_ & _ & Hrefused & _).
  split; [reflexivity|]. split; [exact Hret|].
  split; [vm_compute; reflexivity|]. split; [vm_compute; reflexivity|].
  exact Hrefused.
Defined.

(** The JSON test of the package, and the same after [WriteHeader(201)]. *)
Lemma JSON_success_writes_witness :
  let v := json.Object [("name", json.Str "mig")] in
  let c := Examples.serving (Examples.get "" "") in
  let created := Context.with_Response (Response.WriteHeader 201 (Context.Response c)) c in
  json.MarshalAny v = inl (bytes ("{" ++ Examples.q "name" ++ ":" ++ Examples.q "mig" ++ "}")) /\
  Response.Status (Context.Response (Context.JSON v c).1) = 200 /\
  Recorder.BodyString (Examples.recorder (Context.JSON v c).1) =
    "{" ++ Examples.q "name" ++ ":" ++ Examples.q "mig" ++ "}" /\
  Response.Status (Context.Response (Context.JSON v created).1) = 201 /\
  Recorder.Code (Examples.recorder (Context.JSON v created).1) = 201.
Proof.
  cbv zeta.
  pose proof (JSON_success_writes (json.Object [("name", json.Str "mig")])
                (bytes ("{" ++ Examples.q "name" ++ ":" ++ Examples.q "mig" ++ "}"))
                (Examples.serving (Examples.get "" "")) eq_refl) as H.
  cbv zeta in H. destruct H as (Hsink & _).
  split; [reflexivity|]. unfold Examples.recorder. rewrite Hsink.
  repeat split; vm_compute; reflexivity.
Defined.

(** ** The default error handler, continued *)

Section handler_further.
Context {RW : Type} `{!http.ResponseWriter RW} `{!json.Marshaler}.

(** X9. For the codes 204 and 304 the handler sends the status and nothing
    else, also to a client that accepts JSON: the sink gets one [WriteHeader],
    no header is set, nothing is written and the written count stays. *)
Theorem DefaultErrorHandler_bodyless (m : Mig.t RW) (err : error)
    (ctx : Context.t RW) (out : slog.Output) :
  Response.Written (Context.Response ctx) <= 0 ->
  Code (structured err) = 204 \/ Code (structured err) = 304 ->
  let ctx' := (Mig.DefaultErrorHandler m err ctx out).1.1 in
  Response.ResponseWriter (Context.Response ctx') =
    http.rw_WriteHeader (Code (structured err))
      (Response.ResponseWriter (Context.Response ctx)) /\
  Response.Written (Context.Response ctx') = Response.Written (Context.Response ctx) /\
  Context.Request ctx' = Context.Request ctx /\
  Context.Logger ctx' = Context.Logger ctx.
Proof.
  intros Hw Hcode. cbv zeta.
  assert (Hnot : (0 <? Response.Written (Context.Response ctx)) = false)
    by (apply Z.ltb_ge; exact Hw).
  unfold Mig.DefaultErrorHandler.
  change (match errors_As_HTTPError err with
          | Some e => e
          | None => _
          end) with (structured err).
  rewrite Hnot.
  assert (Hb : (Code (structured err) =? http.StatusNoContent)
               || (Code (structured err) =? http.StatusNotModified) = true).
  { destruct Hcode as [-> | ->]; reflexivity. }
  rewrite Hb. cbn. repeat split.
Qed.

(** X10. On a response nothing was written to and no status was recorded
    on, the handler records the code of the error it works with: the code of
    the first [HTTPError] on the [Unwrap] chain, or 500 when there is none. *)
Theorem DefaultErrorHandler_records_code (m : Mig.t RW) (err : error)
    (ctx : Context.t RW) (out : slog.Output) :
  Response.Written (Context.Response ctx) <= 0 ->
  Response.status (Context.Response ctx) = 0 ->
  Code (structured err) <> 0 ->
  Response.Status (Context.Response (Mig.DefaultErrorHandler m err ctx out).1.1) =
    Code (structured err) /\
  (errors_As_HTTPError err = None -> Code (structured err) = 500).
Proof.
  intros Hw Hst Hcode. split; [by apply DefaultErrorHandler_status|].
  intros Hplain. unfold structured. by rewrite Hplain.
Qed.

(** X11. To a client that does not accept JSON, for a code other than 204
    and 304 and a response nothing was written to, the handler answers as
    [http.Error] does: the message of the error and a newline as plain text,
    under the code of the error. The internal cause is not part of it. *)
Theorem DefaultErrorHandler_plain_text (m : Mig.t RW) (err : error)
    (ctx : Context.t RW) (out : slog.Output) :
  Response.Written (Context.Response ctx) <= 0 ->
  accepts_json (Context.Request ctx) = false ->
  Code (structured err) <> 204 -> Code (structured err) <> 304 ->
  (Mig.DefaultErrorHandler m err ctx out).1.1 =
    Context.with_Response
      (http.Error (Message (structured err)) (Code (structured err))
         (Context.Response ctx)) ctx.
Proof.
  intros Hw Hacc H204 H304.
  assert (Hnot : (0 <? Response.Written (Context.Response ctx)) = false)
    by (apply Z.ltb_ge; exact Hw).
  unfold Mig.DefaultErrorHandler.
  change (match errors_As_HTTPError err with
          | Some e => e
          | None => _
          end) with (structured err).
  rewrite Hnot. unfold http.StatusNoContent, http.StatusNotModified.
  destruct (Z.eqb_spec (Code (structured err)) 204); [done|].
  destruct (Z.eqb_spec (Code (structured err)) 304); [done|].
  cbn [orb]. unfold accepts_json in Hacc. rewrite Hacc.
  by destruct (negb _).
Qed.
End handler_further.

(** [ErrNotModified]-like error for a client that accepts JSON: the status
    304 and an empty body. *)
Lemma DefaultErrorHandler_bodyless_witness :
  let ctx := Examples.serving (Examples.get "" "application/json") in
  let res := Mig.DefaultErrorHandler Examples.engine
               (as_error (NewHTTPError 304)) ctx [] in
  Response.Written (Context.Response ctx) <= 0 /\
  Recorder.Code (Examples.recorder res.1.1) = 304 /\
  Recorder.Body (Examples.recorder res.1.1) = [] /\
  Recorder.HeaderMap (Examples.recorder res.1.1) = ∅.
Proof.
  cbv zeta.
  assert (Hw : Response.Written
                 (Context.Response
                    (Examples.serving (Examples.get "" "application/json"))) <= 0)
    by (vm_compute; discriminate).
  destruct (DefaultErrorHandler_bodyless Examples.engine
              (as_error (NewHTTPError 304)) _ [] Hw (or_intror eq_refl))
    as (Hsink & _).
  split; [exact Hw|]. unfold Examples.recorder. rewrite Hsink.
  repeat split.
Defined.

(** A wrapped 404 and a plain error, each on a new response. *)
Lemma DefaultErrorHandler_records_code_witness :
  let ctx := Examples.serving (Examples.get "" "") in
  let wrapped := WrapError "lookup: Not Found" (as_error (NewHTTPError 404)) in
  Response.Status
    (Context.Response (Mig.DefaultErrorHandler Examples.engine wrapped ctx []).1.1) = 404 /\
  Response.Status
    (Context.Response
       (Mig.DefaultErrorHandler Examples.engine (ErrorString "boom") ctx []).1.1) = 500.
Proof.
  cbv zeta.
  destruct (DefaultErrorHandler_records_code Examples.engine
              (WrapError "lookup: Not Found" (as_error (NewHTTPError 404)))
              (Examples.serving (Examples.get "" "")) []
              ltac:(vm_compute; discriminate) eq_refl
              ltac:(vm_compute; discriminate)) as [H404 _].
  destruct (DefaultErrorHandler_records_code Examples.engine (ErrorString "boom")
              (Examples.serving (Examples.get "" "")) []
              ltac:(vm_compute; discriminate) eq_refl
              ltac:(vm_compute; discriminate)) as [H500 _].
  rewrite H404, H500. split; reflexivity.
Defined.

(** The denial of the package's authentication test, as the client reads it. *)
Lemma DefaultErrorHandler_plain_text_witness :
  let ctx := Examples.serving (Examples.get "" "") in
  let res := Mig.DefaultErrorHandler Examples.engine
               (as_error (NewHTTPError 401)) ctx [] in
  accepts_json (Context.Request ctx) = false /\
  Recorder.Code (Examples.recorder res.1.1) = 401 /\
  Recorder.BodyString (Examples.recorder res.1.1) = "Unauthorized" ++ Examples.newline /\
  Recorder.HeaderMap (Examples.recorder res.1.1) !! "Content-Type" =
    Some ["text/plain; charset=utf-8"].
Proof.
  cbv zeta.
  pose proof (DefaultErrorHandler_plain_text Examples.engine
                (as_error (NewHTTPError 401))
                (Examples.serving (Examples.get "" "")) []
                ltac:(vm_compute; discriminate) eq_refl
                ltac:(vm_compute; discriminate) ltac:(vm_compute; discriminate))
    as Hres.
  split; [reflexivity|]. rewrite Hres.
  repeat split; vm_compute; reflexivity.
Defined.

(** ** The execution engine, continued *)

Section engine_further.
Context {RW : Type} `{!http.ResponseWriter RW} `{!json.Marshaler}.

(** X12. The recovery of [Execute] also covers the error handler. When the
    handler chain returns an error and the error handler panics while handling
    it, the panic is recovered like one of the chain: a value that is or
    wraps the abort signal is raised again as it is, and any other value, as
    an error carrying its text when it is not an error, is handed to the
    error handler, in a second call, as the cause of a 500 with the stack. *)
Theorem Execute_recovers_error_handler (m : Mig.t RW) (handler : Handler RW)
    (rw : RW) (r : http.Request) (cont : option (Context.t RW)) (stack : string)
    (out : slog.Output) (c1 c2 : Context.t RW) (out1 out2 : slog.Output)
    (err : error) (v : panicval) :
  handler (Context.Reset r rw (Mig.Logger m) cont) out = (c1, out1, Return (Some err)) ->
  Mig.ErrorHandler m err c1 out1 = (c2, out2, Some v) ->
  let res := Mig.Execute m handler rw r cont stack out in
  if is_abort v
  then res = (c2, out2, Some v)
  else res = Mig.ErrorHandler m
               (as_error {| Code := 500; Message := "Internal Server Error";
                            Internal := Some (panic_cause v);
                            Stack := stack |}) c2 out2.
Proof.
  intros Hh He. cbv zeta. unfold Mig.Execute. rewrite Hh, He.
  destruct v as [e|shown]; cbn [is_abort panic_cause Mig.recovered_error].
  - by destruct (errors_Is_ErrAbortHandler e).
  - reflexivity.
Qed.

(** X13. With the default error handler, a panic of the handler chain that
    is not an abort, on a response nothing was written to, is answered with
    the status 500 whatever the value was, an [HTTPError] with another code
    included, unless a status was recorded before, which then stays;
    [Execute] returns, and the one record logged is [panic recovered] with
    the identifier of the request, the value as error and the stack, which
    is not empty. *)
Theorem Execute_panic_answers_500 (lg : slog.Logger) (handler : Handler RW)
    (rw : RW) (r : http.Request) (cont : option (Context.t RW)) (stack : string)
    (out : slog.Output) (c1 : Context.t RW) (out1 : slog.Output) (v : panicval) :
  handler (Context.Reset r rw lg cont) out = (c1, out1, Panic v) ->
  is_abort v = false ->
  Response.Written (Context.Response c1) <= 0 ->
  stack <> "" ->
  let res := Mig.Execute (Mig.New lg) handler rw r cont stack out in
  res.2 = None /\
  Response.Status (Context.Response res.1.1) =
    first_nonzero [Response.status (Context.Response c1); 500] /\
  res.1.2 = slog.Error lg "panic recovered"
              [("id", slog.String (Context.RequestID c1));
               ("error", slog.Any (Some (panic_cause v)));
               ("stack", slog.String stack)] out1.
Proof.
  intros Hh Habort Hw Hstack. cbv zeta. unfold Mig.Execute.
  cbn [Mig.Logger Mig.New Mig.ErrorHandler]. rewrite Hh.
  assert (Hsame : Mig.recovered_error v = panic_cause v) by (by destruct v).
  assert (Hno : errors_Is_ErrAbortHandler (Mig.recovered_error v) = false)
    by (destruct v; [exact Habort|reflexivity]).
  rewrite Hno, Hsame.
  set (m := {| Mig.ErrorHandler := _; Mig.Logger := lg |}).
  set (e := {| Code := Code (NewHTTPError http.StatusInternalServerError);
               Message := _; Internal := _; Stack := stack |}).
  destruct (DefaultErrorHandler_returns m (as_error e) c1 out1) as [Hret _].
  pose proof (DefaultErrorHandler_logs m (as_error e) c1 out1) as Hlog.
  pose proof (DefaultErrorHandler_status_first m (as_error e) c1 out1 Hw) as Hstatus.
  rewrite structured_as_error in Hlog, Hstatus.
  assert (Hne : String.eqb (Stack e) "" = false)
    by (apply String.eqb_neq; exact Hstack).
  rewrite Hne in Hlog.
  destruct (Mig.DefaultErrorHandler m (as_error e) c1 out1) as [[c2 out2] raised].
  cbn [fst snd] in *. subst raised. split; [done|]. split; [|done].
  rewrite Hstatus. cbn [first_nonzero Code e].
  by destruct (Response.status (Context.Response c1) =? 0).
Qed.

(** X14. With the default error handler, an error the handler chain
    returns, on a response nothing was written to, is answered with the
    first that is not zero of: the status recorded before, the code of the
    first [HTTPError] on the [Unwrap] chain of the error, or 500 when there
    is none, and 200; and [Execute] returns. *)
Theorem Execute_error_answers_code (lg : slog.Logger) (handler : Handler RW)
    (rw : RW) (r : http.Request) (cont : option (Context.t RW)) (stack : string)
    (out : slog.Output) (c1 : Context.t RW) (out1 : slog.Output) (err : error) :
  handler (Context.Reset r rw lg cont) out = (c1, out1, Return (Some err)) ->
  Response.Written (Context.Response c1) <= 0 ->
  let res := Mig.Execute (Mig.New lg) handler rw r cont stack out in
  res.2 = None /\
  Response.Status (Context.Response res.1.1) =
    first_nonzero [Response.status (Context.Response c1);
                   match errors_As_HTTPError err with
                   | Some e => Code e
                   | None => 500
                   end;
                   200].
Proof.
  intros Hh Hw. cbv zeta. unfold Mig.Execute.
  cbn [Mig.Logger Mig.New Mig.ErrorHandler]. rewrite Hh.
  set (m := {| Mig.ErrorHandler := _; Mig.Logger := lg |}).
  destruct (DefaultErrorHandler_returns m err c1 out1) as [Hret _].
  pose proof (DefaultErrorHandler_status_first m err c1 out1 Hw) as Hstatus.
  assert (Hcode : Code (structured err) =
                  match errors_As_HTTPError err with
                  | Some e => Code e
                  | None => 500
                  end)
    by (unfold structured; by destruct (errors_As_HTTPError err)).
  rewrite Hcode in Hstatus.
  destruct (Mig.DefaultErrorHandler m err c1 out1) as [[c2 out2] raised].
  cbn [fst snd] in *. subst raised. split; done.
Qed.
End engine_further.

(** A plain error makes the application's handler panic; [Execute] recovers
    and calls it again with the 500, which it answers. *)
Lemma Execute_recovers_error_handler_witness :
  let m := {| Mig.ErrorHandler := Examples.fragile; Mig.Logger := Examples.base |} in
  let res := Mig.Execute m Examples.failing Recorder.NewRecorder (Examples.get "" "")
               None "goroutine 7 [running]" [] in
  res.2 = None /\
  Recorder.Code (Examples.recorder res.1.1) = 500 /\
  res.1.2 = [ {| slog.level := slog.LevelError; slog.msg := "panic recovered";
                 slog.attrs :=
                   [("id", slog.String "");
                    ("error", slog.Any (Some (ErrorString "fragile: not an HTTPError")));
                    ("stack", slog.String "goroutine 7 [running]")] |} ].
Proof.
  cbv zeta.
  pose proof (Execute_recovers_error_handler
                {| Mig.ErrorHandler := Examples.fragile; Mig.Logger := Examples.base |}
                Examples.failing Recorder.NewRecorder (Examples.get "" "") None
                "goroutine 7 [running]" [] _ _ _ _ _ _ eq_refl eq_refl) as H.
  cbv zeta in H. cbn [is_abort panic_cause] in H.
  rewrite H. repeat split; vm_compute; reflexivity.
Defined.

(** A handler that panics with the package's 404 is answered with 500; one
    that returns it is answered with 404. *)
Lemma Execute_panic_answers_500_witness :
  let res := Mig.Execute Examples.engine Examples.panic_404 Recorder.NewRecorder
               (Examples.get "" "") None "goroutine 7 [running]" [] in
  res.2 = None /\
  Response.Status (Context.Response res.1.1) = 500 /\
  Recorder.Code (Examples.recorder res.1.1) = 500.
Proof.
  cbv zeta.
  destruct (Execute_panic_answers_500 Examples.base Examples.panic_404
              Recorder.NewRecorder (Examples.get "" "") None
              "goroutine 7 [running]" [] _ _ _ eq_refl eq_refl
              ltac:(vm_compute; discriminate) ltac:(discriminate))
    as (Hret & Hstatus & _).
  split; [exact Hret|]. split; [exact Hstatus|]. vm_compute. reflexivity.
Defined.

Lemma Execute_error_answers_code_witness :
  let res := Mig.Execute Examples.engine Examples.return_404 Recorder.NewRecorder
               (Examples.get "" "") None "goroutine 7 [running]" [] in
  res.2 = None /\
  Response.Status (Context.Response res.1.1) = 404 /\
  Recorder.BodyString (Examples.recorder res.1.1) = "Not Found" ++ Examples.newline.
Proof.
  cbv zeta.
  destruct (Execute_error_answers_code Examples.base Examples.return_404
              Recorder.NewRecorder (Examples.get "" "") None
              "goroutine 7 [running]" [] _ _ _ eq_refl
              ltac:(vm_compute; discriminate))
    as (Hret & Hstatus).
  split; [exact Hret|]. split; [exact Hstatus|]. vm_compute. reflexivity.
Defined.

(** ** Route registration *)

Section route_facts.
Context {RW : Type} `{!http.ResponseWriter RW} `{!json.Marshaler}.

(** X15. A route registered with [Handle] on a group reached by [Use] and
    [Group] calls gets the pattern made of the method, a space, the prefixes
    of the [Group] calls in their order and the path, or of the prefixes and
    the path alone when the method is empty ([Any]); [GET] puts the method
    GET in front. [HandleRaw] on the same group registers its pattern as
    given, without the prefix. Either way the route is added behind the
    routes registered before, which are not changed. *)
Theorem Handle_pattern (steps : list (setup (MiddlewareFunc RW)))
    (method path raw : string) (handler : Handler RW) (mux : ServeMux RW) :
  let rg := descend steps RouteGroup.root in
  RouteGroup.Handle method path handler rg mux =
    RouteGroup.HandleRaw (route_pattern method (prefixes steps) path) handler rg mux /\
  map fst (RouteGroup.Handle method path handler rg mux) =
    (map fst mux ++ [route_pattern method (prefixes steps) path])%list /\
  map fst (RouteGroup.GET path handler rg mux) =
    (map fst mux ++ [("GET " ++ prefixes steps ++ path)%string])%list /\
  map fst (RouteGroup.Any path handler rg mux) =
    (map fst mux ++ [(prefixes steps ++ path)%string])%list /\
  map fst (RouteGroup.HandleRaw raw handler rg mux) = (map fst mux ++ [raw])%list /\
  take (length mux) (RouteGroup.Handle method path handler rg mux) = mux.
Proof.
  cbv zeta.
  assert (Hprefix : RouteGroup.Prefix (descend steps RouteGroup.root) = prefixes steps).
  { by rewrite (proj2 (descend_middlewares steps RouteGroup.root)). }
  assert (Hhandle : forall meth,
            RouteGroup.Handle meth path handler (descend steps RouteGroup.root) mux =
            RouteGroup.HandleRaw (route_pattern meth (prefixes steps) path) handler
              (descend steps RouteGroup.root) mux).
  { intros meth. unfold RouteGroup.Handle, route_pattern. rewrite Hprefix.
    by destruct (String.eqb meth ""). }
  assert (Hraw : forall pat,
            map fst (RouteGroup.HandleRaw pat handler (descend steps RouteGroup.root) mux) =
            (map fst mux ++ [pat])%list).
  { intros pat. unfold RouteGroup.HandleRaw. by rewrite map_app. }
  split; [apply Hhandle|].
  split; [by rewrite Hhandle, Hraw|].
  split; [unfold RouteGroup.GET; by rewrite Hhandle, Hraw|].
  split; [unfold RouteGroup.Any; by rewrite Hhandle, Hraw|].
  split; [apply Hraw|].
  rewrite Hhandle. unfold RouteGroup.HandleRaw. by rewrite take_app_length.
Qed.
End route_facts.

(** ** Middleware *)

Lemma hex_EncodeToString_length (src : list byte) :
  String.length (hex.EncodeToString src) = (2 * length src)%nat.
Proof.
  induction src as [|b src IH]; [done|].
  cbn [hex.EncodeToString String.length length]. rewrite IH. lia.
Qed.

Lemma hex_EncodeToString_nonempty (b : byte) (src : list byte) :
  hex.EncodeToString (b :: src) <> "".
Proof. cbn [hex.EncodeToString]. discriminate. Qed.

Section middleware_facts.
Context {RW : Type} `{!http.ResponseWriter RW} `{!strconv.Quoter}.

(** X16. The [RequestID] middleware always calls downstream, once, on the
    context after [SetRequestID] with the identifier it settles on. An
    identifier in the request header [X-Request-ID] is the one downstream
    reads with [RequestID()], and the random bytes play no part; without one,
    downstream reads the bytes in hexadecimal, two digits for each; and when
    there is no header and reading the random bytes fails, downstream gets the
    context unchanged. *)
Theorem RequestID_middleware (random : option (list byte)) (next : Handler RW)
    (c : Context.t RW) (out : slog.Output) :
  let incoming := http.Header_Get "X-Request-ID" (http.ReqHeader (Context.Request c)) in
  let c' := Context.SetRequestID (chosen_id random c) c in
  middleware.RequestID random next c out = next c' out /\
  match String.eqb incoming "", random with
  | false, _ =>
      Context.RequestID c' = incoming /\
      forall random', middleware.RequestID random' next c out = next c' out
  | true, Some (b :: bs) =>
      Context.RequestID c' = hex.EncodeToString (b :: bs) /\
      String.length (Context.RequestID c') = (2 * length (b :: bs))%nat
  | true, _ => c' = c
  end.
Proof.
  cbv zeta.
  assert (Hset : forall id, id <> "" ->
            Context.RequestID (Context.SetRequestID id c) = id).
  { intros id Hid. unfold Context.SetRequestID.
    destruct (String.eqb_spec id "") as [|_]; [done|].
    destruct c as [rq w [l|] q]; cbn;
      unfold Context.RequestID, Context.RequestIDFromContext; cbn;
      by rewrite decide_True. }
  assert (Hrun : forall rnd,
            middleware.RequestID rnd next c out =
            next (Context.SetRequestID (chosen_id rnd c) c) out).
  { intros rnd. unfold middleware.RequestID, chosen_id.
    change Context.RequestIDHeader with "X-Request-ID".
    destruct (String.eqb_spec
                (http.Header_Get "X-Request-ID" (http.ReqHeader (Context.Request c))) "")
      as [Heq|Hne]; [|done].
    destruct rnd; [done|]. rewrite Heq. done. }
  split; [apply Hrun|].
  unfold chosen_id. change Context.RequestIDHeader with "X-Request-ID".
  destruct (String.eqb_spec
              (http.Header_Get "X-Request-ID" (http.ReqHeader (Context.Request c))) "")
    as [Heq|Hne].
  - destruct random as [[|b bs]|]; [done| |done].
    rewrite Hset by apply hex_EncodeToString_nonempty.
    split; [done|]. apply hex_EncodeToString_length.
  - split; [by apply Hset|].
    intros random'. rewrite Hrun. unfold chosen_id.
    change Context.RequestIDHeader with "X-Request-ID".
    by destruct (String.eqb_spec
                   (http.Header_Get "X-Request-ID"
                      (http.ReqHeader (Context.Request c))) "").
Qed.

(** X17. [BasicAuthWithConfig] panics when [IsAllowed] is [nil] and only
    then. Otherwise a request whose credentials parse and pass [IsAllowed]
    is handed to downstream as it is, and the result is downstream's. *)
Theorem BasicAuth_grants (cfg : middleware.BasicAuthConfig) :
  match middleware.IsAllowed cfg with
  | None => exists v, middleware.BasicAuthWithConfig (RW:=RW) cfg = inl v
  | Some isAllowed =>
      exists mw, middleware.BasicAuthWithConfig cfg = inr mw /\
        forall (next : Handler RW) m out,
          granted isAllowed (Context.Request m) = true ->
          mw next m out = next m out
  end.
Proof.
  unfold middleware.BasicAuthWithConfig.
  destruct (middleware.IsAllowed cfg) as [isAllowed|]; [|by eexists].
  eexists. split; [reflexivity|].
  intros next m out Hg. cbv beta. unfold granted in Hg.
  destruct (http.BasicAuth (Context.Request m)) as [[u p]|]; [|done].
  by rewrite Hg.
Qed.

(** X18. A request without credentials, with credentials that do not
    parse, or with credentials [IsAllowed] refuses is stopped: downstream is
    not called, the middleware returns the [HTTPError] 401 and sets the
    response header [WWW-Authenticate] to [Basic realm=] and the quoted realm
    (["restricted"] in quotes when none is configured); it sends no status
    and writes no body. *)
Theorem BasicAuth_denies (cfg : middleware.BasicAuthConfig)
    (isAllowed : string -> string -> bool) (mw : MiddlewareFunc RW)
    (next : Handler RW) (m : Context.t RW) (out : slog.Output) :
  middleware.IsAllowed cfg = Some isAllowed ->
  middleware.BasicAuthWithConfig cfg = inr mw ->
  granted isAllowed (Context.Request m) = false ->
  let realm := if String.eqb (middleware.Realm cfg) ""
               then String dquote ("restricted" ++ String dquote EmptyString)
               else strconv.Quote (middleware.Realm cfg) in
  mw next m out =
    (Context.with_Response
       (Response.SetHeader
          (http.Header_Set "WWW-Authenticate" ("Basic realm=" ++ realm)
             (Response.Header (Context.Response m)))
          (Context.Response m)) m,
     out,
     Return (Some (as_error {| Code := 401; Message := "Unauthorized";
                               Internal := None; Stack := "" |}))) /\
  (forall next', mw next' m out = mw next m out) /\
  Response.status (Context.Response (mw next m out).1.1) =
    Response.status (Context.Response m) /\
  Response.Written (Context.Response (mw next m out).1.1) =
    Response.Written (Context.Response m).
Proof.
  intros Hcfg Hmw Hdenied. cbv zeta.
  unfold middleware.BasicAuthWithConfig in Hmw. rewrite Hcfg in Hmw.
  injection Hmw as <-. cbv beta. unfold granted in Hdenied.
  assert (Hg : match http.BasicAuth (Context.Request m) with
               | Some (u, p) => isAllowed u p
               | None => false
               end = false) by exact Hdenied.
  rewrite Hg. repeat split.
Qed.
End middleware_facts.

(** The authentication test of the package: the right credentials reach the
    handler. *)
Lemma BasicAuth_grants_witness :
  exists mw : MiddlewareFunc Recorder.t,
    middleware.BasicAuthWithConfig Examples.authConfig = inr mw /\
    granted (fun user password => String.eqb user "mig" && String.eqb password "secret")
      (Examples.with_auth "bWlnOnNlY3JldA==") = true /\
    Recorder.BodyString
      (Examples.recorder
         (mw (finalHandler "Welcome, authorized user")
            (Examples.serving (Examples.with_auth "bWlnOnNlY3JldA==")) []).1.1)
      = "Welcome, authorized user".
Proof.
  pose proof (BasicAuth_grants (RW:=Recorder.t) Examples.authConfig) as H.
  cbn [middleware.IsAllowed Examples.authConfig] in H.
  destruct H as (mw & Hmw & Hpass).
  exists mw. split; [exact Hmw|]. split; [vm_compute; reflexivity|].
  rewrite Hpass by (vm_compute; reflexivity).
  vm_compute. reflexivity.
Defined.

(** The same test with a wrong password: the handler is not run, the header
    names the realm in quotes, and the engine answers 401. *)
Lemma BasicAuth_denies_witness :
  exists mw : MiddlewareFunc Recorder.t,
    middleware.BasicAuthWithConfig Examples.authConfig = inr mw /\
    let res := Mig.Execute Examples.engine
                 (mw (finalHandler "Welcome, authorized user"))
                 Recorder.NewRecorder (Examples.with_auth "bWlnOndyb25n") None "" [] in
    Recorder.Code (Examples.recorder res.1.1) = 401 /\
    Recorder.BodyString (Examples.recorder res.1.1) = "Unauthorized" ++ Examples.newline /\
    Recorder.HeaderMap (Examples.recorder res.1.1) !! "Www-Authenticate" =
      Some ["Basic realm=" ++ Examples.q "Test Realm"].
Proof.
  eexists. split; [reflexivity|]. cbv zeta.
  pose proof (BasicAuth_denies (RW:=Recorder.t) Examples.authConfig _ _
                (finalHandler "Welcome, authorized user")
                (Examples.serving (Examples.with_auth "bWlnOndyb25n")) []
                eq_refl eq_refl ltac:(vm_compute; reflexivity)) as H.
  cbv zeta in H. destruct H as (Hres & _).
  unfold Mig.Execute. cbn [Mig.Logger Examples.engine Mig.New].
  change (Context.Reset (Examples.with_auth "bWlnOndyb25n") Recorder.NewRecorder
            Examples.base None)
    with (Examples.serving (Examples.with_auth "bWlnOndyb25n")).
  rewrite Hres.
  repeat split; vm_compute; reflexivity.
Defined.

Section logger_facts.
Context {RW : Type} `{!http.ResponseWriter RW} `{!json.Marshaler}
  `{!strconv.Quoter}.

(** What the request logger adds: when downstream has finished, with an error
    or a panic or neither, one record through the logger the context has by
    then, and the result of downstream passed on. *)
Lemma RequestLogger_run (elapsed : Z) (next : Handler RW) (c c1 : Context.t RW)
    (out out1 : slog.Output) (res : outcome) (l : slog.Logger) :
  next c out = (c1, out1, res) ->
  Context.Logger c1 = Some l ->
  middleware.RequestLogger elapsed next c out =
    (c1, (out1 ++ [request_record l elapsed c1])%list, res).
Proof.
  intros Hn Hl. unfold middleware.RequestLogger. rewrite Hn, Hl. reflexivity.
Qed.

(** X19. The request logger reads the logger of the context when
    downstream is done. So, for a handler that leaves the logger alone, the
    record of the request carries the identifier of the request whether the
    [RequestID] middleware is registered in front of the request logger or
    behind it, and the two orders give the same result. *)
Theorem RequestLogger_carries_id (elapsed : Z) (random : option (list byte))
    (handler : Handler RW) (c c1 : Context.t RW) (out out1 : slog.Output)
    (res : outcome) (l : slog.Logger) (id : string) :
  chosen_id random c = id ->
  id <> "" ->
  Context.Logger c = Some l ->
  handler (Context.SetRequestID id c) out = (c1, out1, res) ->
  Context.Logger c1 = Context.Logger (Context.SetRequestID id c) ->
  let expected :=
    (c1,
     (out1 ++ [request_record (slog.With ("id", slog.String id) l) elapsed c1])%list,
     res) in
  middleware.RequestLogger elapsed (middleware.RequestID random handler) c out
    = expected /\
  middleware.RequestID random (middleware.RequestLogger elapsed handler) c out
    = expected.
Proof.
  intros Hid Hne Hl Hh Hkeep. cbv zeta.
  assert (Hrun : forall next,
            middleware.RequestID random next c out =
            next (Context.SetRequestID id c) out).
  { intros next. subst id. unfold middleware.RequestID, chosen_id.
    change Context.RequestIDHeader with "X-Request-ID".
    destruct (String.eqb_spec
                (http.Header_Get "X-Request-ID" (http.ReqHeader (Context.Request c))) "")
      as [Heq|Hne']; [|done].
    destruct random; [done|]. by rewrite Heq. }
  assert (Hlogger : Context.Logger c1 = Some (slog.With ("id", slog.String id) l)).
  { rewrite Hkeep. unfold Context.SetRequestID.
    destruct (String.eqb_spec id "") as [|_]; [done|].
    destruct c as [rq w lo q]. cbn in Hl. subst lo. reflexivity. }
  split.
  - apply RequestLogger_run; [|exact Hlogger]. by rewrite Hrun.
  - rewrite Hrun. by apply RequestLogger_run.
Qed.

(** X20. Behind the request logger, when the handler panics with a value
    that is not an abort before anything is written, the request is logged
    first, with the status recorded so far, which reads 200 when there is
    none, and zero bytes. After that the engine runs the default error
    handler, which records 500 unless a status was recorded before, and logs
    the recovered panic with the stack, which is not empty. So when no
    status was recorded the request record says 200 and the client receives
    500. *)
Theorem RequestLogger_logs_before_recovery (lg l : slog.Logger) (elapsed : Z)
    (handler : Handler RW) (rw : RW) (r : http.Request)
    (cont : option (Context.t RW)) (stack : string) (out : slog.Output)
    (c1 : Context.t RW) (out1 : slog.Output) (v : panicval) :
  handler (Context.Reset r rw lg cont) out = (c1, out1, Panic v) ->
  is_abort v = false ->
  Context.Logger c1 = Some l ->
  Response.written (Context.Response c1) = 0 ->
  stack <> "" ->
  let res := Mig.Execute (Mig.New lg) (middleware.RequestLogger elapsed handler)
               rw r cont stack out in
  res.2 = None /\
  Response.Status (Context.Response res.1.1) =
    first_nonzero [Response.status (Context.Response c1); 500] /\
  res.1.2 =
    (out1 ++
     [ {| slog.level := slog.LevelInfo; slog.msg := "request";
          slog.attrs :=
            (slog.scoped l ++
             [("method", slog.String (http.Method (Context.Request c1)));
              ("path", slog.String (http.URL_Path (Context.Request c1)));
              ("status", slog.Int (first_nonzero
                                     [Response.status (Context.Response c1); 200]));
              ("bytes", slog.Int 0);
              ("t", slog.Int elapsed)])%list |};
       {| slog.level := slog.LevelError; slog.msg := "panic recovered";
          slog.attrs :=
            (slog.scoped lg ++
             [("id", slog.String (Context.RequestID c1));
              ("error", slog.Any (Some (panic_cause v)));
              ("stack", slog.String stack)])%list |} ])%list.
Proof.
  intros Hh Habort Hl Hw Hstack. cbv zeta. unfold Mig.Execute.
  cbn [Mig.Logger Mig.New Mig.ErrorHandler].
  rewrite (RequestLogger_run elapsed handler _ c1 out out1 (Panic v) l Hh Hl).
  assert (Hsame : Mig.recovered_error v = panic_cause v) by (by destruct v).
  assert (Hno : errors_Is_ErrAbortHandler (Mig.recovered_error v) = false)
    by (destruct v; [exact Habort|reflexivity]).
  rewrite Hno, Hsame.
  set (m := {| Mig.ErrorHandler := _; Mig.Logger := lg |}).
  set (e := {| Code := Code (NewHTTPError http.StatusInternalServerError);
               Message := _; Internal := _; Stack := stack |}).
  set (logged := (out1 ++ [request_record l elapsed c1])%list).
  destruct (DefaultErrorHandler_returns m (as_error e) c1 logged) as [Hret _].
  pose proof (DefaultErrorHandler_logs m (as_error e) c1 logged) as Hlog.
  assert (Hw' : Response.Written (Context.Response c1) <= 0)
    by (unfold Response.Written; rewrite Hw; done).
  pose proof (DefaultErrorHandler_status_first m (as_error e) c1 logged Hw') as Hstatus.
  rewrite structured_as_error in Hlog, Hstatus.
  assert (Hne : String.eqb (Stack e) "" = false)
    by (apply String.eqb_neq; exact Hstack).
  rewrite Hne in Hlog.
  destruct (Mig.DefaultErrorHandler m (as_error e) c1 logged) as [[c2 out2] raised].
  cbn [fst snd] in *. subst raised. split; [done|]. split.
  - rewrite Hstatus. cbn [first_nonzero Code e].
    by destruct (Response.status (Context.Response c1) =? 0).
  - rewrite Hlog. subst logged. unfold slog.Error, request_record, Response.Status,
      Response.Written. rewrite Hw. cbn [first_nonzero].
    change (200 =? 0) with false. cbn [Internal Stack e].
    by rewrite <- app_assoc.
Qed.
End logger_facts.

(** The panic test of the package with the request logger in front. *)
Lemma RequestLogger_logs_before_recovery_witness :
  let res := Mig.Execute Examples.engine
               (middleware.RequestLogger 1500 Examples.boom)
               Recorder.NewRecorder (Examples.get "" "") None
               "goroutine 7 [running]" [] in
  res.2 = None /\
  Recorder.Code (Examples.recorder res.1.1) = 500 /\
  map slog.msg res.1.2 = ["request"; "panic recovered"] /\
  (res.1.2 !! 0%nat ≫= fun rec => slog.attrs rec !! 3%nat)
    = Some ("status", slog.Int 200).
Proof.
  cbv zeta.
  destruct (RequestLogger_logs_before_recovery Examples.base
              (slog.mkLogger [("id", slog.String "abc")]) 1500 Examples.boom
              Recorder.NewRecorder (Examples.get "" "") None
              "goroutine 7 [running]" [] _ _ _ eq_refl eq_refl eq_refl eq_refl
              ltac:(discriminate)) as (Hret & _ & Hlog).
  split; [exact Hret|]. split; [vm_compute; reflexivity|].
  unfold Examples.engine. rewrite Hlog. split; vm_compute; reflexivity.
Defined.

(** A request that brings the identifier "req-7", served with the request
    logger in front of [RequestID]: the record has the identifier. *)
Lemma RequestLogger_carries_id_witness :
  let c := Examples.serving (Examples.with_id "req-7") in
  let run := middleware.RequestLogger 1500
               (middleware.RequestID None (finalHandler "OK")) c [] in
  chosen_id None c = "req-7" /\
  Recorder.BodyString (Examples.recorder run.1.1) = "OK" /\
  map slog.attrs run.1.2 =
    [[("id", slog.String "req-7"); ("method", slog.String "GET");
      ("path", slog.String "/"); ("status", slog.Int 200);
      ("bytes", slog.Int 2); ("t", slog.Int 1500)]].
Proof.
  cbv zeta.
  destruct (RequestLogger_carries_id 1500 None (finalHandler "OK")
              (Examples.serving (Examples.with_id "req-7")) _ [] _ _
              Examples.base "req-7" eq_refl ltac:(discriminate) eq_refl
              eq_refl eq_refl) as [Houter _].
  split; [reflexivity|]. rewrite Houter.
  split; vm_compute; reflexivity.
Defined.

(* ===================================================================== *)
(** * Properties of the first generation *)
(* ===================================================================== *)

Section older_facts.
Context {RW : Type} `{!http.ResponseWriter RW}.

Lemma older_wrap_prefix (front back : list (Older.MiddlewareFunc RW))
    (handler : Older.Handler RW) :
  Older.wrap (front ++ back) (length front) handler = around front handler.
Proof.
  revert back handler.
  induction front as [|mw front IH] using rev_ind; intros back handler; [done|].
  rewrite length_app, Nat.add_comm. cbn [length Nat.add Older.wrap].
  rewrite <- app_assoc. change ([mw] ++ back)%list with (mw :: back).
  rewrite list_lookup_middle by done.
  rewrite IH. unfold around. rewrite foldr_app. done.
Qed.

Lemma older_wrap_around (mws : list (Older.MiddlewareFunc RW))
    (handler : Older.Handler RW) :
  Older.wrap mws (length mws) handler = around mws handler.
Proof.
  rewrite <- (app_nil_r mws) at 1. apply older_wrap_prefix.
Qed.

Lemma around_app (front back : list (Older.MiddlewareFunc RW))
    (handler : Older.Handler RW) :
  around (front ++ back) handler = around front (around back handler).
Proof. unfold around. by rewrite foldr_app. Qed.

(** The outer loop ends when every parent was made before its group, and
    then more fuel changes nothing. *)
Lemma climb_enough (groups : Older.Groups RW) :
  parents_before groups ->
  forall fuel prt h,
    (prt < fuel)%nat -> (prt < length groups)%nat ->
    is_Some (Older.climb fuel groups prt h) /\
    forall fuel', (prt < fuel')%nat ->
      Older.climb fuel' groups prt h = Older.climb fuel groups prt h.
Proof.
  intros Hwf fuel. induction fuel as [|fuel IH]; intros prt h Hf Hlen; [lia|].
  destruct (lookup_lt_is_Some_2 groups prt Hlen) as [g Hg].
  cbn [Older.climb]. rewrite Hg.
  destruct (Older.ParentRouter g) as [p|] eqn:Hp.
  - pose proof (Hwf prt g p Hg Hp) as Hlt.
    destruct (IH p (Older.wrap (Older.middlewares g)
                      (length (Older.middlewares g)) h)) as [Hs Hfuel]; [lia|lia|].
    split; [exact Hs|].
    intros [|fuel'] Hf'; [lia|]. cbn [Older.climb]. rewrite Hg, Hp.
    apply Hfuel. lia.
  - split; [done|].
    intros [|fuel'] Hf'; [lia|]. cbn [Older.climb]. by rewrite Hg, Hp.
Qed.

(** The outer loop reads the groups from [prt] up only. *)
Lemma climb_agree (groups groups' : Older.Groups RW) :
  parents_before groups ->
  forall fuel prt h,
    (forall i, (i <= prt)%nat -> groups' !! i = groups !! i) ->
    Older.climb fuel groups' prt h = Older.climb fuel groups prt h.
Proof.
  intros Hwf fuel. induction fuel as [|fuel IH]; intros prt h Hsame; [done|].
  cbn [Older.climb]. rewrite (Hsame prt) by lia.
  destruct (groups !! prt) as [g|] eqn:Hg; [|done].
  destruct (Older.ParentRouter g) as [p|] eqn:Hp; [|done].
  pose proof (Hwf prt g p Hg Hp) as Hlt.
  apply IH. intros i Hi. apply Hsame. lia.
Qed.

Lemma parents_before_root : parents_before (Older.root (RW := RW)).
Proof.
  intros [|i] g p Hg Hp; cbn in Hg; [|done].
  injection Hg as <-. done.
Qed.

Lemma parents_before_Group (mws : list (Older.MiddlewareFunc RW)) (rg : nat)
    (groups : Older.Groups RW) :
  parents_before groups -> (rg < length groups)%nat ->
  parents_before (Older.Group mws rg groups).1.
Proof.
  intros Hwf Hrg i g p Hg Hp. cbn [Older.Group fst] in Hg.
  apply lookup_app_Some in Hg as [Hg|[Hlen Hg]]; [by eapply Hwf|].
  apply list_lookup_singleton_Some in Hg as [_ <-].
  cbn in Hp. injection Hp as <-. lia.
Qed.

Lemma parents_before_Use (mws : list (Older.MiddlewareFunc RW)) (rg : nat)
    (groups : Older.Groups RW) :
  parents_before groups -> parents_before (Older.Use mws rg groups).
Proof.
  intros Hwf i g p Hg Hp. unfold Older.Use in Hg.
  rewrite list_lookup_alter in Hg.
  destruct (decide (rg = i)) as [->|Hne]; [|exact (Hwf i g p Hg Hp)].
  destruct (groups !! i) as [g0|] eqn:Hg0; simplify_eq/=.
  exact (Hwf i g0 p Hg0 Hp).
Qed.

(** The loop from a group that has just got [late] by [Use] does what it did
    before with [late] around the handler. *)
Lemma climb_Use_self (groups : Older.Groups RW) (rg : nat)
    (late : list (Older.MiddlewareFunc RW)) (h : Older.Handler RW) :
  parents_before groups -> (rg < length groups)%nat ->
  Older.climb (length groups) (Older.Use late rg groups) rg h =
  Older.climb (length groups) groups rg (around late h).
Proof.
  intros Hwf Hrg. unfold Older.Use.
  destruct (length groups) as [|n] eqn:Hn; [lia|].
  cbn [Older.climb]. rewrite list_lookup_alter.
  destruct (decide (rg = rg)) as [_|Hne]; [|done].
  destruct (lookup_lt_is_Some_2 groups rg ltac:(lia)) as [g0 Hg0].
  rewrite Hg0. cbn [fmap option_fmap option_map Older.middlewares Older.ParentRouter].
  rewrite !older_wrap_around, <- around_app.
  destruct (Older.ParentRouter g0) as [p|] eqn:Hp; [|done].
  pose proof (Hwf rg g0 p Hg0 Hp) as Hlt.
  apply climb_agree; [exact Hwf|].
  intros i Hi. rewrite list_lookup_alter.
  destruct (decide (rg = i)) as [Hbad|_]; [lia|]. done.
Qed.

(** The loop from a group just made by [Group] does what the loop from its
    parent does with the middleware of the group around the handler. *)
Lemma climb_Group_new (groups : Older.Groups RW) (rg : nat)
    (gm : list (Older.MiddlewareFunc RW)) (h : Older.Handler RW) :
  parents_before groups -> (rg < length groups)%nat ->
  Older.climb (length (Older.Group gm rg groups).1) (Older.Group gm rg groups).1
    (Older.Group gm rg groups).2 h =
  Older.climb (length groups) groups rg (around gm h).
Proof.
  intros Hwf Hrg. cbn [Older.Group fst snd].
  rewrite length_app, Nat.add_comm. cbn [length Nat.add Older.climb].
  rewrite lookup_app_r, Nat.sub_diag by lia.
  cbn [lookup list_lookup Older.middlewares Older.ParentRouter app].
  rewrite older_wrap_around.
  apply climb_agree; [exact Hwf|].
  intros i Hi. apply lookup_app_l. lia.
Qed.

Lemma older_descend_climb (steps : list (setup (Older.MiddlewareFunc RW))) :
  forall (groups : Older.Groups RW) (rg : nat) (h : Older.Handler RW),
    parents_before groups -> (rg < length groups)%nat ->
    let reached := older_descend steps (groups, rg) in
    parents_before reached.1 /\ (reached.2 < length reached.1)%nat /\
    Older.climb (length reached.1) reached.1 reached.2 h =
      Older.climb (length groups) groups rg
        (around (concat (map setup_mws steps)) h).
Proof.
  induction steps as [|s steps IH]; intros groups rg h Hwf Hrg; cbv zeta.
  - cbn. done.
  - destruct s as [mws|prefix mws]; cbn [older_descend foldl map concat setup_mws].
    + cbn [fst snd].
      destruct (IH (Older.Use mws rg groups) rg h) as (Hwf' & Hlt & Hclimb).
      { by apply parents_before_Use. }
      { unfold Older.Use. by rewrite length_alter. }
      split; [exact Hwf'|]. split; [exact Hlt|].
      unfold older_descend in Hclimb. rewrite Hclimb.
      unfold Older.Use at 1. rewrite length_alter.
      rewrite climb_Use_self by done. by rewrite around_app.
    + cbn [fst snd].
      pose proof (parents_before_Group mws rg groups Hwf Hrg) as Hwf1.
      assert (Hlt1 : ((Older.Group mws rg groups).2
                      < length (Older.Group mws rg groups).1)%nat)
        by (cbn; rewrite length_app; cbn; lia).
      destruct (IH (Older.Group mws rg groups).1 (Older.Group mws rg groups).2 h
                  Hwf1 Hlt1) as (Hwf' & Hlt & Hclimb).
      unfold older_descend in Hwf', Hlt, Hclimb.
      rewrite <- surjective_pairing in Hwf', Hlt, Hclimb.
      split; [exact Hwf'|]. split; [exact Hlt|].
      rewrite Hclimb, climb_Group_new by done. by rewrite around_app.
Qed.
End older_facts.

Section older_extras.
Context {RW : Type} `{!http.ResponseWriter RW}.

(** X21. First generation, [Context.Reset], [Put], [Get] and [Execute]: when
    the handler returns [nil], [Execute] puts the context back into the pool
    as the handler left it, and the [Reset] at the start of the next request
    that takes it from the pool keeps the values stored with [Put] and the
    logger of the context: what one request stored is read by [Get] in the
    next one. *)
Theorem Older_Execute_keeps_store (Sprint : http.Request -> string)
    (m : Older.Mig RW) (handler : Older.Handler RW) (rw : RW) (r : http.Request)
    (cont : option (Older.Context RW)) (out : slog.Output)
    (c1 : Older.Context RW) (out1 : slog.Output) :
  handler (Older.Reset r rw (Older.MigLogger m) cont) out = (c1, out1, Return None) ->
  Older.Execute Sprint m handler rw r cont out = (c1, true, out1, None) /\
  forall (r' : http.Request) (rw' : RW),
    let next := Older.Reset r' rw' (Older.MigLogger m) (Some c1) in
    (forall name, Older.Get name next = Older.Get name c1) /\
    Older.Logger next = Older.Logger c1 /\
    Older.Request next = r' /\ Older.query next = None.
Proof.
  intros Hh. split.
  - unfold Older.Execute. rewrite Hh. reflexivity.
  - intros r' rw'. cbv zeta. repeat split.
Qed.

(** X22. First generation, [Execute]: when the handler panics with an error
    that is or wraps [http.ErrAbortHandler], [Execute] panics again, and the
    value of this panic is the request, not the error; nothing is written or
    logged after the handler, and the context is not put back into the
    pool. *)
Theorem Older_Execute_abort_raises_request (Sprint : http.Request -> string)
    (m : Older.Mig RW) (handler : Older.Handler RW) (rw : RW) (r : http.Request)
    (cont : option (Older.Context RW)) (out : slog.Output)
    (c1 : Older.Context RW) (out1 : slog.Output) (v : panicval) :
  handler (Older.Reset r rw (Older.MigLogger m) cont) out = (c1, out1, Panic v) ->
  errors_Is_ErrAbortHandler (older_recovered Sprint r v) = true ->
  (exists e, v = PanicError e) /\
  Older.Execute Sprint m handler rw r cont out = (c1, false, out1, Some r).
Proof.
  intros Hh Habort. split.
  - destruct v as [e|shown]; [by exists e|]. cbn in Habort. discriminate.
  - unfold Older.Execute. rewrite Hh. cbv zeta.
    unfold older_recovered in Habort. by rewrite Habort.
Qed.

(** X23. First generation, [Execute]: a panic of the handler that is not an
    abort is answered by [Execute] itself with the text
    "Internal Server Error!" and status 500 through [http.Error] on the sink,
    whatever [m.ErrorHandler] is; one record "Panic recover" is logged, and
    for a panic value that is no error its error is the text of the request,
    so the value of the panic appears nowhere. *)
Theorem Older_Execute_recovers_panic (Sprint : http.Request -> string)
    (m : Older.Mig RW) (handler : Older.Handler RW) (rw : RW) (r : http.Request)
    (cont : option (Older.Context RW)) (out : slog.Output)
    (c1 : Older.Context RW) (out1 : slog.Output) (v : panicval) :
  handler (Older.Reset r rw (Older.MigLogger m) cont) out = (c1, out1, Panic v) ->
  errors_Is_ErrAbortHandler (older_recovered Sprint r v) = false ->
  Older.Execute Sprint m handler rw r cont out =
    (Older.with_ResponseWriter
       (http.Error "Internal Server Error!" 500 (Older.ResponseWriter c1)) c1,
     false,
     (out1 ++ [ {| slog.level := slog.LevelError; slog.msg := "Panic recover";
                   slog.attrs :=
                     (slog.scoped (Older.MigLogger m) ++
                      [("err", slog.Any (Some (match v with
                                               | PanicError e => e
                                               | PanicValue _ => ErrorString (Sprint r)
                                               end)))])%list |} ])%list,
     None).
Proof.
  intros Hh Habort. unfold Older.Execute. rewrite Hh. cbv zeta.
  unfold older_recovered in Habort. rewrite Habort. reflexivity.
Qed.

(** X24. First generation, [DefaultErrorHandler]: the structured error is
    found by a type assertion on the error itself. An error that is no
    [HTTPError] itself, also one that wraps an [HTTPError], is answered with
    status 500 and the text "Internal Server Error" through [http.Error] on
    the sink of the context, and one record is logged whose message is the
    text [code=500, message=Internal Server Error, err=...]. *)
Theorem Older_DefaultErrorHandler_asserts (m : Older.Mig RW) (err : error)
    (ctx : Older.Context RW) (out : slog.Output) :
  is_HTTPError err = false ->
  Older.DefaultErrorHandler m err ctx out =
    (Older.with_ResponseWriter
       (http.Error "Internal Server Error" 500 (Older.ResponseWriter ctx)) ctx,
     (out ++ [ {| slog.level := slog.LevelError;
                  slog.msg := "code=500, message=Internal Server Error, err="
                                ++ Older.Error err;
                  slog.attrs := slog.scoped (Older.MigLogger m) |} ])%list,
     None).
Proof.
  intros Hno. unfold Older.DefaultErrorHandler, slog.Error.
  rewrite app_nil_r.
  destruct err; try discriminate Hno; reflexivity.
Qed.

(** X25. First generation, [RequestLogger]: the record is written after the
    next handler has returned, so a request whose handler panics leaves no
    request record: [Execute] does with the logged handler what it does with
    the handler alone. *)
Theorem Older_RequestLogger_silent_on_panic (Sprint : http.Request -> string)
    (m : Older.Mig RW) (elapsed : Z) (handler : Older.Handler RW) (rw : RW)
    (r : http.Request) (cont : option (Older.Context RW)) (out : slog.Output)
    (c1 : Older.Context RW) (out1 : slog.Output) (v : panicval) :
  handler (Older.Reset r rw (Older.MigLogger m) cont) out = (c1, out1, Panic v) ->
  Older.RequestLogger elapsed handler (Older.Reset r rw (Older.MigLogger m) cont) out
    = (c1, out1, Panic v) /\
  Older.Execute Sprint m (Older.RequestLogger elapsed handler) rw r cont out =
    Older.Execute Sprint m handler rw r cont out.
Proof.
  intros Hh.
  assert (Hl : Older.RequestLogger elapsed handler
                 (Older.Reset r rw (Older.MigLogger m) cont) out = (c1, out1, Panic v))
    by (unfold Older.RequestLogger; by rewrite Hh).
  split; [exact Hl|]. unfold Older.Execute. by rewrite Hl, Hh.
Qed.

(** X26. First generation, [RouteGroup.Handle], [Group] and [Use]: the chain
    is composed at the first request by climbing the parent pointers, so a
    [Use] on the parent made after the group was created still reaches the
    routes of the group. For a group made with the middleware [gm] from the
    group at [rg], after a later [rg.Use(late...)], the loop ends and the
    handler runs inside [gm], these inside [late], and these inside what the
    parent had before. *)
Theorem Older_Use_after_Group_reaches_group (groups : Older.Groups RW) (rg : nat)
    (gm late : list (Older.MiddlewareFunc RW)) (h : Older.Handler RW) :
  parents_before groups -> (rg < length groups)%nat ->
  let created := Older.Group gm rg groups in
  let groups' := Older.Use late rg created.1 in
  parents_before groups' /\
  is_Some (Older.climb (length groups') groups' created.2 h) /\
  Older.climb (length groups') groups' created.2 h =
    Older.climb (length groups) groups rg (around (late ++ gm) h).
Proof.
  intros Hwf Hrg. cbv zeta.
  split; [by apply parents_before_Use, parents_before_Group|].
  destruct (climb_enough groups Hwf (length groups) rg (around (late ++ gm) h) Hrg Hrg)
    as [Hsome _].
  assert (Heq : Older.climb (length (Older.Use late rg (Older.Group gm rg groups).1))
                  (Older.Use late rg (Older.Group gm rg groups).1)
                  (Older.Group gm rg groups).2 h =
                Older.climb (length groups) groups rg (around (late ++ gm) h));
    [|by rewrite Heq].
  cbn [Older.Group fst snd]. unfold Older.Use.
  rewrite length_alter, length_app, Nat.add_comm. cbn [length Nat.add Older.climb].
  rewrite list_lookup_alter.
  destruct (decide (rg = length groups)) as [Hbad|_]; [lia|].
  rewrite lookup_app_r, Nat.sub_diag by lia.
  cbn [lookup list_lookup Older.middlewares Older.ParentRouter app].
  rewrite older_wrap_around.
  destruct (length groups) as [|n] eqn:Hn; [lia|].
  cbn [Older.climb]. rewrite list_lookup_alter.
  destruct (decide (rg = rg)) as [_|Hne]; [|done].
  rewrite lookup_app_l by lia.
  destruct (lookup_lt_is_Some_2 groups rg ltac:(lia)) as [g0 Hg0].
  rewrite Hg0. cbn [fmap option_fmap option_map Older.middlewares Older.ParentRouter].
  rewrite !older_wrap_around, <- !around_app.
  rewrite <- app_assoc.
  destruct (Older.ParentRouter g0) as [p|] eqn:Hp; [|done].
  pose proof (Hwf rg g0 p Hg0 Hp) as Hlt.
  apply climb_agree; [exact Hwf|].
  intros i Hi. rewrite list_lookup_alter.
  destruct (decide (rg = i)) as [Hbad|_]; [lia|].
  apply lookup_app_l. lia.
Qed.

(** X27. First generation, [RouteGroup.Handle]: for a group reached from the
    root by [Use] and [Group] calls, each on the group the call before it
    left, the loop of [Handle] ends and the handler runs inside the
    middleware of all these calls, the earliest call outermost and, within a
    call, the first argument outermost: the order of the present
    generation. *)
Theorem Older_Handle_registration_order
    (steps : list (setup (Older.MiddlewareFunc RW))) (h : Older.Handler RW) :
  let reached := older_descend steps (Older.root, 0%nat) in
  Older.climb (length reached.1) reached.1 reached.2 h =
    Some (around (concat (map setup_mws steps)) h).
Proof.
  cbv zeta.
  destruct (older_descend_climb steps Older.root 0%nat h parents_before_root
              ltac:(cbn; lia)) as (_ & _ & Hclimb).
  rewrite Hclimb. reflexivity.
Qed.
End older_extras.

Section older_auth.
Context {RW : Type} `{!http.ResponseWriter RW} `{!strconv.Quoter}.

(** X28. First generation, [BasicAuth] and [BasicAuthWithConfig]: the
    middleware is made exactly when the configuration has [IsAllowed], and
    [BasicAuth(next)], which passes the empty configuration, panics for
    every [next] with the message of the missing function. *)
Theorem Older_BasicAuth_panics (cfg : middleware.BasicAuthConfig)
    (next : Older.Handler RW) :
  ((exists mw, Older.BasicAuthWithConfig (RW := RW) cfg = inr mw) <->
   middleware.IsAllowed cfg <> None) /\
  Older.BasicAuth next =
    inl (PanicValue "BasicAuth middleware requires IsAllowed function").
Proof.
  split; [|reflexivity].
  unfold Older.BasicAuthWithConfig.
  destruct (middleware.IsAllowed cfg) as [isAllowed|]; split.
  - done.
  - intros _. eauto.
  - intros [mw Hmw]. discriminate.
  - done.
Qed.

(** X29. First generation, [BasicAuthWithConfig]: a request whose
    credentials are missing or refused does not reach the next handler; the
    sink gets the header [WWW-Authenticate] and the handler returns the 401
    of the package. The realm of the header is the quoted realm of the
    configuration, and the bare word [restricted], without quotes, when the
    configuration has none. *)
Theorem Older_BasicAuth_denies (cfg : middleware.BasicAuthConfig)
    (isAllowed : string -> string -> bool) (next : Older.Handler RW)
    (m : Older.Context RW) (out : slog.Output) :
  middleware.IsAllowed cfg = Some isAllowed ->
  granted isAllowed (Older.Request m) = false ->
  exists mw, Older.BasicAuthWithConfig cfg = inr mw /\
    mw next m out =
      (Older.with_ResponseWriter
         (http.SetHeader "WWW-Authenticate"
            ("Basic realm=" ++
             (if String.eqb (middleware.Realm cfg) "" then "restricted"
              else strconv.Quote (middleware.Realm cfg)))
            (Older.ResponseWriter m)) m,
       out,
       Return (Some (EHTTP 401 "Unauthorized" None ""))).
Proof.
  intros Hcfg Hdenied. unfold Older.BasicAuthWithConfig. rewrite Hcfg.
  eexists. split; [reflexivity|]. cbv beta zeta.
  unfold granted in Hdenied.
  destruct (http.BasicAuth (Older.Request m)) as [[u p]|];
    [rewrite Hdenied|]; reflexivity.
Qed.
End older_auth.

(** A request stores its user; the next request served with the same
    context reads it. *)
Lemma Older_Execute_keeps_store_witness :
  let first := Older.Execute OlderExamples.Sprint OlderExamples.engine
                 (OlderExamples.remember "alice") Recorder.NewRecorder
                 (Examples.get "" "") None [] in
  first.1.1.2 = true /\
  Older.Get "user"
    (Older.Reset (Examples.get "page=2" "") Recorder.NewRecorder Examples.base
       (Some first.1.1.1))
    = Some (context.AnyString "alice").
Proof.
  cbv zeta.
  destruct (Older_Execute_keeps_store OlderExamples.Sprint OlderExamples.engine
              (OlderExamples.remember "alice") Recorder.NewRecorder
              (Examples.get "" "") None [] _ _ eq_refl) as [Hex Hnext].
  rewrite Hex. split; [reflexivity|].
  destruct (Hnext (Examples.get "page=2" "") Recorder.NewRecorder) as [Hget _].
  cbn [fst snd]. unfold OlderExamples.engine, Older.New, Older.MigLogger in Hget.
  rewrite Hget. reflexivity.
Defined.

(** A handler that aborts after a part of the answer. *)
Lemma Older_Execute_abort_raises_request_witness :
  let res := Older.Execute OlderExamples.Sprint OlderExamples.engine
               OlderExamples.abort Recorder.NewRecorder
               (Examples.get "" "") None [] in
  res.2 = Some (Examples.get "" "") /\ res.1.2 = [] /\ res.1.1.2 = false /\
  Recorder.BodyString (Older.ResponseWriter res.1.1.1) = "partial".
Proof.
  cbv zeta.
  destruct (Older_Execute_abort_raises_request OlderExamples.Sprint
              OlderExamples.engine OlderExamples.abort Recorder.NewRecorder
              (Examples.get "" "") None [] _ _ _ eq_refl eq_refl) as [_ Hex].
  rewrite Hex. repeat split.
Defined.

(** The panic of the package's test: the answer is the fixed text and the
    logged error is the text of the request. *)
Lemma Older_Execute_recovers_panic_witness :
  let res := Older.Execute OlderExamples.Sprint OlderExamples.engine
               OlderExamples.boom Recorder.NewRecorder
               (Examples.get "" "") None [] in
  res.2 = None /\
  Recorder.Code (Older.ResponseWriter res.1.1.1) = 500 /\
  map slog.attrs res.1.2 = [[("err", slog.Any (Some (ErrorString "&{GET /}")))]].
Proof.
  cbv zeta.
  rewrite (Older_Execute_recovers_panic OlderExamples.Sprint
             OlderExamples.engine OlderExamples.boom Recorder.NewRecorder
             (Examples.get "" "") None [] _ _ _ eq_refl eq_refl).
  repeat split.
Defined.

(** An error that wraps the 404 of the package is answered with 500. *)
Lemma Older_DefaultErrorHandler_asserts_witness :
  let err := WrapError "lookup failed" (as_error (NewHTTPError 404)) in
  let c := Older.Reset (Examples.get "" "") Recorder.NewRecorder Examples.base None in
  let res := Older.DefaultErrorHandler OlderExamples.engine err c [] in
  errors_As_HTTPError err = Some (NewHTTPError 404) /\
  Recorder.Code (Older.ResponseWriter res.1.1) = 500 /\
  map slog.msg res.1.2
    = ["code=500, message=Internal Server Error, err=lookup failed"].
Proof.
  cbv zeta. split; [reflexivity|].
  rewrite (Older_DefaultErrorHandler_asserts OlderExamples.engine
             (WrapError "lookup failed" (as_error (NewHTTPError 404)))
             (Older.Reset (Examples.get "" "") Recorder.NewRecorder Examples.base None)
             [] eq_refl).
  split; reflexivity.
Defined.

(** The panic of the package's test behind the request logger: the only
    record is the one of the recovery. *)
Lemma Older_RequestLogger_silent_on_panic_witness :
  let res := Older.Execute OlderExamples.Sprint OlderExamples.engine
               (Older.RequestLogger 1500 OlderExamples.boom) Recorder.NewRecorder
               (Examples.get "" "") None [] in
  map slog.msg res.1.2 = ["Panic recover"].
Proof.
  cbv zeta.
  destruct (Older_RequestLogger_silent_on_panic OlderExamples.Sprint
              OlderExamples.engine 1500 OlderExamples.boom Recorder.NewRecorder
              (Examples.get "" "") None [] _ _ _ eq_refl) as [_ Hex].
  rewrite Hex. reflexivity.
Defined.

(** A group made from the root with one middleware, and a [Use] on the root
    after it: a route of the group runs inside both, the late one first. *)
Lemma Older_Use_after_Group_reaches_group_witness :
  let created := Older.Group [OlderExamples.tag "g"] 0%nat Older.root in
  let groups' := Older.Use [OlderExamples.tag "late"] 0%nat created.1 in
  (0 < length (Older.root (RW := Recorder.t)))%nat /\
  Older.climb (length groups') groups' created.2 OlderExamples.final =
    Some (OlderExamples.tag "late" (OlderExamples.tag "g" OlderExamples.final)).
Proof.
  cbv zeta. split; [cbn; lia|].
  destruct (Older_Use_after_Group_reaches_group Older.root 0%nat
              [OlderExamples.tag "g"] [OlderExamples.tag "late"]
              OlderExamples.final parents_before_root ltac:(cbn; lia))
    as (_ & _ & Hclimb).
  rewrite Hclimb. reflexivity.
Defined.

(** A request without credentials, and a configuration without realm. *)
Lemma Older_BasicAuth_denies_witness :
  let cfg := {| middleware.IsAllowed := middleware.IsAllowed Examples.authConfig;
                middleware.Realm := "" |} in
  let c := Older.Reset (Examples.get "" "") Recorder.NewRecorder Examples.base None in
  exists mw, Older.BasicAuthWithConfig cfg = inr mw /\
    let res := mw OlderExamples.final c [] in
    res.2 = Return (Some (EHTTP 401 "Unauthorized" None "")) /\
    http.Header_Get "WWW-Authenticate"
      (Recorder.HeaderMap (Older.ResponseWriter res.1.1))
      = "Basic realm=restricted".
Proof.
  cbv zeta.
  destruct (Older_BasicAuth_denies
              {| middleware.IsAllowed := middleware.IsAllowed Examples.authConfig;
                 middleware.Realm := "" |}
              (fun user password =>
                 String.eqb user "mig" && String.eqb password "secret")
              OlderExamples.final
              (Older.Reset (Examples.get "" "") Recorder.NewRecorder Examples.base None)
              [] eq_refl eq_refl) as (mw & Hmw & Hrun).
  exists mw. split; [exact Hmw|]. rewrite Hrun. split; reflexivity.
Defined.
